(** * University help-desk chatbot: session store, selection flow and FAQ engine

    A shallow embedding of [telegram_bot.py] and [services/faq_service.py].

    Python values are modelled as follows.
    - [str] is a list of Unicode code points ([N]); literals are written
      [u "..."], the UTF-8 decoding of the bytes of the Rocq string.
    - [int] is [Z]; [float] is the kernel's binary64 [float].
    - [None]-able values are [option]; Python truthiness is written out.
    - the module-level [sessions] dictionary is a [gmap Z session] threaded
      through every handler; a handler returns its reply and the new store.
    - the database, the knowledge service and the generative backend are
      parameters; so are the Unicode tables behind [str.lower()] and [\w].
    - [difflib.SequenceMatcher.ratio()] and [round(x, 2)] are written out.

    The definitions come first, then the lemmas and theorems. *)

From Stdlib Require Import ZArith NArith Floats Ascii String DecimalString Sorted.
From Stdlib Require DecimalFacts DecimalPos DecimalZ.
From stdpp Require Import gmap list.

#[local] Set Warnings "-inexact-float".

Local Open Scope Z_scope.

(* ===================================================================== *)
(** ** Python strings *)
(* ===================================================================== *)

Module PyStr.

Definition codepoint := N.
Definition str := list N.

(** UTF-8 decoding of a well-formed byte sequence. *)
Fixpoint utf8_decode (bs : list N) : str :=
  match bs with
  | [] => []
  | b0 :: r0 =>
    if (b0 <? 128)%N then b0 :: utf8_decode r0
    else if (b0 <? 224)%N then
      match r0 with
      | b1 :: r1 => ((b0 - 192) * 64 + (b1 - 128))%N :: utf8_decode r1
      | _ => []
      end
    else if (b0 <? 240)%N then
      match r0 with
      | b1 :: b2 :: r2 =>
          (((b0 - 224) * 64 + (b1 - 128)) * 64 + (b2 - 128))%N :: utf8_decode r2
      | _ => []
      end
    else
      match r0 with
      | b1 :: b2 :: b3 :: r3 =>
          ((((b0 - 240) * 64 + (b1 - 128)) * 64 + (b2 - 128)) * 64 + (b3 - 128))%N
            :: utf8_decode r3
      | _ => []
      end
  end.

(** A Python string literal. *)
Definition u (s : string) : str :=
  utf8_decode (map N_of_ascii (list_ascii_of_string s)).

Arguments u : simpl never.

(** [str(n)] for an [int]. *)
Definition str_of_int (z : Z) : str :=
  u (NilZero.string_of_int (Z.to_int z)).

(** [f"{x}"] for a nullable string: [None] prints as the word None. *)
Definition fmt_opt (o : option str) : str :=
  match o with Some s => s | None => u "None" end.

(** [sep.join(parts)]. *)
Fixpoint join (sep : str) (parts : list str) : str :=
  match parts with
  | [] => []
  | [p] => p
  | p :: rest => p ++ sep ++ join sep rest
  end.

(** [o or d] for a nullable string [o]. *)
Definition or_else (o : option str) (d : str) : str :=
  match o with Some (c :: s) => c :: s | _ => d end.

End PyStr.
Import PyStr.

(** Truthiness of a nullable [int]: [None] and [0] are falsy. *)
Definition truthy_int (o : option Z) : bool :=
  match o with Some z => negb (z =? 0) | None => false end.

(** Truthiness of a nullable Boolean column. *)
Definition truthy_flag (o : option bool) : bool :=
  match o with Some b => b | None => false end.

(* ===================================================================== *)
(** ** telegram_bot.py: the session store *)
(* ===================================================================== *)

Definition MAX_HISTORY_MESSAGES : nat := 10.

(** One element of [history]: [{"role": ..., "content": ...}]. *)
Record turn := Turn { role : str; content : str }.

Record session := Session {
  university_id   : option Z;
  university_name : option str;
  faculty_id      : option Z;
  faculty_name    : option str;
  department_id   : option Z;
  department_name : option str;
  session_start   : Z;
  history         : list turn
}.

Definition set_university (i : option Z) (n : option str) (s : session) : session :=
  Session i n (faculty_id s) (faculty_name s) (department_id s) (department_name s)
          (session_start s) (history s).

Definition set_faculty (i : option Z) (n : option str) (s : session) : session :=
  Session (university_id s) (university_name s) i n (department_id s) (department_name s)
          (session_start s) (history s).

Definition set_department (i : option Z) (n : option str) (s : session) : session :=
  Session (university_id s) (university_name s) (faculty_id s) (faculty_name s) i n
          (session_start s) (history s).

Definition set_history (h : list turn) (s : session) : session :=
  Session (university_id s) (university_name s) (faculty_id s) (faculty_name s)
          (department_id s) (department_name s) (session_start s) h.

(** [_new_session()]; [now] is the value of [datetime.now()]. *)
Definition _new_session (now : Z) : session :=
  Session None None None None None None now [].

(** [_session(user_id)]: the user's session, created when missing.
    Returns the session and the store after the call. *)
Definition _session (now : Z) (sessions : gmap Z session) (user_id : Z)
  : session * gmap Z session :=
  match sessions !! user_id with
  | Some s => (s, sessions)
  | None => let s := _new_session now in (s, <[user_id := s]> sessions)
  end.

(** [_is_setup_complete(user_id)]: reads the store, never creates a session. *)
Definition _is_setup_complete (sessions : gmap Z session) (user_id : Z) : bool :=
  match sessions !! user_id with
  | Some s => truthy_int (university_id s) && truthy_int (faculty_id s)
  | None => false
  end.

(** [history[-n:]] for [n > 0]. *)
Definition last_n {A} (n : nat) (l : list A) : list A :=
  drop (length l - n)%nat l.

(** [_append_history(user_id, role, content)]. *)
Definition _append_history (now : Z) (sessions : gmap Z session) (user_id : Z)
    (r c : str) : gmap Z session :=
  let '(s, sessions1) := _session now sessions user_id in
  let h := history s ++ [Turn r c] in
  if (MAX_HISTORY_MESSAGES <? length h)%nat
  then <[user_id := set_history (last_n MAX_HISTORY_MESSAGES h) s]> sessions1
  else <[user_id := set_history h s]> sessions1.

(** The history of a user, empty when there is no session. *)
Definition history_of (sessions : gmap Z session) (user_id : Z) : list turn :=
  match sessions !! user_id with Some s => history s | None => [] end.

(** A run of [_append_history] calls, each with its clock reading, user,
    role and content. *)
Record append_call := AppendCall {
  ac_now : Z; ac_user : Z; ac_role : str; ac_content : str }.

Definition ac_turn (c : append_call) : turn := Turn (ac_role c) (ac_content c).

Definition append_all (sessions : gmap Z session) (calls : list append_call)
  : gmap Z session :=
  fold_left (fun ss c => _append_history (ac_now c) ss (ac_user c) (ac_role c) (ac_content c))
            calls sessions.

(** The calls of a run that concern one user, in order. *)
Definition calls_of (uid : Z) (calls : list append_call) : list append_call :=
  filter (fun c => ac_user c = uid) calls.

(** Every stored history respects the cap. *)
Definition capped (sessions : gmap Z session) : Prop :=
  forall uid s, sessions !! uid = Some s -> (length (history s) <= MAX_HISTORY_MESSAGES)%nat.

(* ===================================================================== *)
(** ** telegram_bot.py: directory, keyboards and replies *)
(* ===================================================================== *)

(** Modelled from the spec: [models/university.py] is not among the sources.
    The record has the fields the handlers and [build_placeholders] read;
    every column but the primary key is nullable. *)
Record University := {
  u_id : Z;
  u_name : option str;
  u_name_ar : option str;
  u_city : option str;
  u_website : option str;
  u_email : option str;
  u_phone : option str;
  u_address : option str;
  u_is_active : option bool
}.

(** [models/faculty.py], the columns the bot reads. *)
Record Faculty := {
  f_id : Z;
  f_name : str;
  f_university_id : Z;
  f_is_active : option bool
}.

(** [models/department.py], the columns the bot reads. *)
Record Department := {
  d_id : Z;
  d_name : str;
  d_faculty_id : Z;
  d_is_active : option bool
}.

(** The database queries the bot issues.  [active_faculties uid] is
    [Faculty.query.filter_by(university_id=uid, is_active=True)
     .order_by(Faculty.name).all()], and likewise for departments. *)
Record directory := {
  university_get : Z -> option University;
  faculty_get : Z -> option Faculty;
  department_get : Z -> option Department;
  active_faculties : Z -> list Faculty;
  active_departments : Z -> list Department
}.

Definition CALLBACK_UNI  : str := u "uni".
Definition CALLBACK_FAC  : str := u "fac".
Definition CALLBACK_DEPT : str := u "dept".
Definition CALLBACK_SKIP : str := u "skip_dept".

Definition nl : str := [10%N].

Record button := Button { b_text : str; b_callback_data : str }.

(** An [InlineKeyboardMarkup]: rows of buttons. *)
Definition keyboard := list (list button).

(** What a handler sends back. *)
Record reply := Reply {
  r_text : str;
  r_parse_mode : option str;
  r_markup : option keyboard
}.

Definition plain (t : str) : reply := Reply t None None.
Definition markdown (t : str) (k : option keyboard) : reply :=
  Reply t (Some (u "Markdown")) k.

Definition _build_faculty_keyboard (db : directory) (university_id : Z)
  : option keyboard :=
  match active_faculties db university_id with
  | [] => None
  | faculties =>
      Some (map (fun f => [Button (u "🏫 " ++ f_name f)
                                  (CALLBACK_FAC ++ u "_" ++ str_of_int (f_id f))])
                faculties)
  end.

Definition _build_department_keyboard (db : directory) (faculty_id : Z)
  : option keyboard :=
  match active_departments db faculty_id with
  | [] => None
  | depts =>
      Some (map (fun d => [Button (u "📂 " ++ d_name d)
                                  (CALLBACK_DEPT ++ u "_" ++ str_of_int (d_id d))])
                depts
            ++ [[Button (u "⏭ Skip (no specific department)") CALLBACK_SKIP]])
  end.

Definition MSG_UNI_NOT_FOUND  : str := u "❌ University not found. Please /start again.".
Definition MSG_FAC_NOT_FOUND  : str := u "❌ Faculty not found. Please /start again.".
Definition MSG_DEPT_NOT_FOUND : str := u "❌ Department not found. Please /start again.".
Definition MSG_ERROR          : str := u "❌ Error. Please /start again.".

(* ===================================================================== *)
(** ** telegram_bot.py: selection callbacks *)
(* ===================================================================== *)

(** [_handle_university_selected(query, user_id, university_id)].
    [sessions[user_id]] is subscripted directly: without a session the
    KeyError is caught by the handler's [except] and reported. *)
Definition _handle_university_selected (db : directory) (sessions : gmap Z session)
    (user_id university_id : Z) : reply * gmap Z session :=
  match university_get db university_id with
  | None => (plain MSG_UNI_NOT_FOUND, sessions)
  | Some uni =>
    if negb (truthy_flag (u_is_active uni)) then (plain MSG_UNI_NOT_FOUND, sessions)
    else
      match sessions !! user_id with
      | None => (plain MSG_ERROR, sessions)
      | Some s =>
        let s1 := set_university (Some (u_id uni)) (u_name uni) s in
        let sessions1 := <[user_id := s1]> sessions in
        match _build_faculty_keyboard db university_id with
        | None =>
            (* No faculties -> skip straight to ready *)
            let s2 := set_faculty None (Some (u "N/A")) s1 in
            (markdown (u "✅ *University selected:* " ++ fmt_opt (u_name uni) ++ nl ++ nl
                       ++ u "ℹ️ No faculties are registered for this university yet."
                       ++ nl ++ nl
                       ++ u "You can now ask me anything about your institution!") None,
             <[user_id := s2]> sessions1)
        | Some markup =>
            (markdown (u "✅ *University:* " ++ fmt_opt (u_name uni) ++ nl ++ nl
                       ++ u "*Step 2 of 3 — Please select your faculty:*") (Some markup),
             sessions1)
        end
      end
  end.

(** [_handle_faculty_selected(query, user_id, faculty_id)]. *)
Definition _handle_faculty_selected (db : directory) (sessions : gmap Z session)
    (user_id faculty_id : Z) : reply * gmap Z session :=
  match faculty_get db faculty_id with
  | None => (plain MSG_FAC_NOT_FOUND, sessions)
  | Some fac =>
    if negb (truthy_flag (f_is_active fac)) then (plain MSG_FAC_NOT_FOUND, sessions)
    else
      match sessions !! user_id with
      | None => (plain MSG_ERROR, sessions)
      | Some s =>
        let s1 := set_faculty (Some (f_id fac)) (Some (f_name fac)) s in
        let sessions1 := <[user_id := s1]> sessions in
        let uni_name := fmt_opt (university_name s1) in
        let head := u "✅ *University:* " ++ uni_name ++ nl
                    ++ u "✅ *Faculty:* " ++ f_name fac ++ nl ++ nl in
        match _build_department_keyboard db faculty_id with
        | None =>
            (* No departments -> skip to ready *)
            let s2 := set_department None (Some (u "N/A")) s1 in
            (markdown (head
                       ++ u "ℹ️ No departments are registered for this faculty yet."
                       ++ nl ++ nl ++ u "You're all set! Ask me anything 🎓") None,
             <[user_id := s2]> sessions1)
        | Some markup =>
            (markdown (head ++ u "*Step 3 of 3 — Please select your department:*")
                      (Some markup),
             sessions1)
        end
      end
  end.

(** [_handle_department_selected(query, user_id, department_id)]. *)
Definition _handle_department_selected (db : directory) (sessions : gmap Z session)
    (user_id department_id : Z) : reply * gmap Z session :=
  match department_get db department_id with
  | None => (plain MSG_DEPT_NOT_FOUND, sessions)
  | Some dept =>
    if negb (truthy_flag (d_is_active dept)) then (plain MSG_DEPT_NOT_FOUND, sessions)
    else
      match sessions !! user_id with
      | None => (plain MSG_ERROR, sessions)
      | Some s =>
        let s1 := set_department (Some (d_id dept)) (Some (d_name dept)) s in
        (markdown (u "🎉 *Setup complete!*" ++ nl ++ nl
                   ++ u "🏛 *University :* " ++ fmt_opt (university_name s1) ++ nl
                   ++ u "🏫 *Faculty    :* " ++ fmt_opt (faculty_name s1) ++ nl
                   ++ u "📂 *Department :* " ++ fmt_opt (department_name s1) ++ nl ++ nl
                   ++ u "I'm ready to help you. Ask me anything about your academic journey!"
                   ++ nl ++ nl
                   ++ u "_Use /status to review your selection or /reset to start over._")
                  None,
         <[user_id := s1]> sessions)
      end
  end.

(** The guard [if not x or not x.is_active] on a looked-up row. *)
Definition missing_or_inactive {A} (is_active : A -> option bool) (row : option A) : bool :=
  match row with
  | Some x => negb (truthy_flag (is_active x))
  | None => true
  end.

(* ===================================================================== *)
(** ** telegram_bot.py: the free-text message handler *)
(* ===================================================================== *)

Definition MSG_INCOMPLETE : str :=
  u "⚠️ Please complete your profile first." ++ nl
  ++ u "Use /start to select your university and faculty.".

Definition MSG_SORRY : str :=
  u "❌ Sorry, I encountered an error. Please try again or use /reset.".

(** One knowledge-base hit: [{'title': ..., 'content': ...}]. *)
Record kb_entry := { kb_title : str; kb_content : str }.

Section MessageHandler.

(** The external collaborators; [None] stands for a raised exception. *)
Variable get_university_context : option Z -> option (option str).
Variable search_knowledge : str -> option Z -> nat -> option (list kb_entry).
Variable generate_chat_response :
  list turn -> option str -> option str -> option str.

(** The knowledge context block built from the search results. *)
Definition knowledge_context_of (results : list kb_entry) : option str :=
  match results with
  | [] => None
  | _ => Some (join nl (map (fun r => u "- " ++ kb_title r ++ u ": "
                                      ++ take 300 (kb_content r)) results))
  end.

(** [handle_message(update, context)]: the reply text and the store after. *)
Definition handle_message (now : Z) (sessions : gmap Z session)
    (user_id : Z) (user_message : str) : str * gmap Z session :=
  if negb (_is_setup_complete sessions user_id) then (MSG_INCOMPLETE, sessions)
  else
    let '(s, sessions0) := _session now sessions user_id in
    match get_university_context (university_id s) with
    | None => (MSG_SORRY, sessions0)
    | Some university_context =>
      match search_knowledge user_message (university_id s) 3%nat with
      | None => (MSG_SORRY, sessions0)
      | Some knowledge_results =>
        let knowledge_context := knowledge_context_of knowledge_results in
        let sessions1 := _append_history now sessions0 user_id (u "user") user_message in
        match generate_chat_response (history_of sessions1 user_id)
                                     university_context knowledge_context with
        | None => (MSG_SORRY, sessions1)
        | Some ai_response =>
            (ai_response,
             _append_history now sessions1 user_id (u "assistant") ai_response)
        end
      end
    end.

End MessageHandler.

(* ===================================================================== *)
(** ** Python library functions on strings *)
(* ===================================================================== *)

(** The Unicode character database, as far as the code consults it:
    [str.lower()] and [str.isalnum()] (the letters and digits of [\w]). *)
Record unicode_tables := {
  str_lower : str -> str;
  isalnum : codepoint -> bool
}.

(** [str.isspace()]: the white space [str.split()] and the regex class
    [\s] recognise. *)
Definition isspace (c : codepoint) : bool :=
  ((9 <=? c) && (c <=? 13) || (28 <=? c) && (c <=? 32)
   || (c =? 133) || (c =? 160) || (c =? 5760)
   || (8192 <=? c) && (c <=? 8202)
   || (c =? 8232) || (c =? 8233) || (c =? 8239) || (c =? 8287) || (c =? 12288))%N.

(** [s.split()]: the maximal runs of non-space characters.  [cur] is the
    run being read, reversed. *)
Fixpoint split_ws_from (cur : str) (s : str) : list str :=
  match s with
  | [] => match cur with [] => [] | _ => [rev cur] end
  | c :: r =>
      if isspace c
      then match cur with
           | [] => split_ws_from [] r
           | _ => rev cur :: split_ws_from [] r
           end
      else split_ws_from (c :: cur) r
  end.

Definition split_ws (s : str) : list str := split_ws_from [] s.

Definition str_eqb (a b : str) : bool := bool_decide (a = b).

(** [s.startswith(p)]. *)
Fixpoint startswith (p s : str) : bool :=
  match p, s with
  | [], _ => true
  | a :: p', b :: s' => (a =? b)%N && startswith p' s'
  | _ :: _, [] => false
  end.

(** [p in s] for strings: [p] occurs in [s]. *)
Fixpoint contains (p s : str) : bool :=
  startswith p s || match s with [] => false | _ :: r => contains p r end.

(** [s.replace(old, new)] for a non-empty [old]: the occurrences of [old]
    are found left to right without overlap.  [skip] counts the characters
    of the occurrence just replaced that are still to be dropped. *)
Fixpoint replace_from (skip : nat) (old new s : str) : str :=
  match s with
  | [] => []
  | c :: r =>
      match skip with
      | S k => replace_from k old new r
      | O =>
          if startswith old s
          then new ++ replace_from (length old - 1) old new r
          else c :: replace_from 0 old new r
      end
  end.

(** [s.replace(old, new)]; an empty [old] puts [new] around every
    character. *)
Definition replace (old new s : str) : str :=
  match old with
  | [] => new ++ flat_map (fun c => c :: new) s
  | _ => replace_from 0 old new s
  end.

(** [s.split(sep)] for a one-character separator. *)
Fixpoint split_on_from (sep : codepoint) (cur : str) (s : str) : list str :=
  match s with
  | [] => [rev cur]
  | c :: r =>
      if (c =? sep)%N then rev cur :: split_on_from sep [] r
      else split_on_from sep (c :: cur) r
  end.

Definition split_on (sep : codepoint) (s : str) : list str := split_on_from sep [] s.

(** [int / int] and [float(n)] for the small counts that occur here: the
    conversion is exact below 2^53. *)
Definition float_of_nat (n : nat) : float :=
  PrimFloat.of_uint63 (Uint63.of_Z (Z.of_nat n)).

(* ===================================================================== *)
(** ** faq_service.py: language detection *)
(* ===================================================================== *)

Inductive lang := Ar | Fr | En.

Global Instance lang_eq_dec : EqDecision lang.
Proof. solve_decision. Defined.

(** The language codes ['ar'], ['fr'], ['en']. *)
Definition lang_code (l : lang) : str :=
  match l with Ar => u "ar" | Fr => u "fr" | En => u "en" end.

(** The class [[؀-ۿݐ-ݿࢠ-ࣿ]]. *)
Definition is_arabic (c : codepoint) : bool :=
  ((1536 <=? c) && (c <=? 1791) || (1872 <=? c) && (c <=? 1919)
   || (2208 <=? c) && (c <=? 2303))%N.

(** The class of French diacritics. *)
Definition FRENCH_MARKERS : str := u "àâçéèêëîïôùûüÿœæÀÂÇÉÈÊËÎÏÔÙÛÜŸŒÆ".

Definition is_french_marker (c : codepoint) : bool :=
  existsb (N.eqb c) FRENCH_MARKERS.

(** The alternatives of the function-word pattern, in the order written. *)
Definition FRENCH_WORDS : list str :=
  map u ["je"; "tu"; "il"; "elle"; "nous"; "vous"; "ils"; "elles"; "le"; "la";
         "les"; "un"; "une"; "des"; "du"; "de"; "et"; "est";
         "en"; "au"; "aux"; "avec"; "pour"; "sur"; "dans"; "par"; "que"; "qui";
         "quoi"; "comment"; "quand"; "où"; "quel"; "quelle";
         "bonjour"; "salut"; "merci"; "oui"; "non"; "pourquoi"; "inscription";
         "frais"; "cours"; "examens";
         "comment"; "puis"; "je"; "mon"; "ma"; "mes"; "ses"]%string.

Section Unicode.

Context (U : unicode_tables).

(** The regex class [\w]. *)
Definition is_word (c : codepoint) : bool := isalnum U c || (c =? 95)%N.

Definition opt_word (o : option codepoint) : bool :=
  match o with Some c => is_word c | None => false end.

(** The assertion [\b] between the character before and the one after. *)
Definition word_boundary (before after : option codepoint) : bool :=
  xorb (opt_word before) (opt_word after).

(** The pattern [\b(w1|w2|...)\b] tried at the start of [s], where [prev]
    is the character before [s]: the length of the match.  The alternatives
    are tried in order, and one is taken when [\b] holds after it. *)
Definition match_word_at (words : list str) (prev : option codepoint) (s : str)
  : option nat :=
  if word_boundary prev (head s) then
    length <$> find (fun w => startswith w s
                              && word_boundary (last w) (head (drop (length w) s)))
                    words
  else None.

(** [len(re.findall(r'\b(w1|w2|...)\b', s))]: the non-overlapping matches,
    scanning from the left. *)
Fixpoint count_words_from (words : list str) (prev : option codepoint)
    (skip : nat) (s : str) : nat :=
  match s with
  | [] => 0
  | c :: r =>
      match skip with
      | S k => count_words_from words (Some c) k r
      | O =>
          match match_word_at words prev s with
          | Some n => S (count_words_from words (Some c) (n - 1) r)
          | None => count_words_from words (Some c) 0 r
          end
      end
  end.

Definition arabic_chars (text : str) : nat := length (filter (fun c => is_arabic c = true) text).
Definition french_markers (text : str) : nat :=
  length (filter (fun c => is_french_marker c = true) text).
Definition french_words (text : str) : nat :=
  count_words_from FRENCH_WORDS None 0 (str_lower U text).
Definition total_words (text : str) : nat := Nat.max (length (split_ws text)) 1.

(** [detect_language(text)]. *)
Definition detect_language (text : str) : lang :=
  if (1 <? arabic_chars text)%nat then Ar
  else if ((0.15 <? float_of_nat (french_markers text + french_words text)
                    / float_of_nat (total_words text))%float
           || (2 <=? french_words text)%nat)
  then Fr
  else En.

End Unicode.

(* ===================================================================== *)
(** ** faq_service.py: placeholders *)
(* ===================================================================== *)

(** A [Dict[str, str]] in insertion order, which is the order [fill]
    iterates in. *)
Definition placeholders := list (str * str).

(** [d[key]] on such a dictionary. *)
Definition ph_get (ph : placeholders) (key : str) : option str :=
  snd <$> find (fun kv => str_eqb (fst kv) key) ph.

(** The part of the address after its last at-sign, or the default domain. *)
Definition email_domain (email : str) : str :=
  if contains (u "@") email
  then List.last (split_on 64%N email) []
  else u "university.dz".

(** [build_placeholders(university)]. *)
Definition build_placeholders (university : option University) : placeholders :=
  match university with
  | None =>
      [ (u "university_name",     u "your university");
        (u "university_name_ar",  u "جامعتك");
        (u "university_name_fr",  u "votre université");
        (u "city",                u "your city");
        (u "city_ar",             u "مدينتك");
        (u "city_fr",             u "votre ville");
        (u "portal_url",          u "your student portal");
        (u "website",             u "the university website");
        (u "email_general",       u "info@university.dz");
        (u "email_registrar",     u "registrar@university.dz");
        (u "email_finance",       u "finance@university.dz");
        (u "email_it",            u "itsupport@university.dz");
        (u "email_student",       u "studentaffairs@university.dz");
        (u "email_financial_aid", u "financialaid@university.dz");
        (u "email_housing",       u "housing@university.dz");
        (u "email_library",       u "library@university.dz");
        (u "email_academic",      u "academic@university.dz");
        (u "phone_main",          u "the university main number");
        (u "address",             u "the university campus") ]
  | Some university =>
      let name    := or_else (u_name university) (u "your university") in
      let name_ar := or_else (u_name_ar university) (u "جامعتك") in
      let city    := or_else (u_city university) [] in
      let website := or_else (u_website university) (u "the university website") in
      let email   := or_else (u_email university) (u "info@university.dz") in
      let phone   := or_else (u_phone university) [] in
      let domain  := email_domain email in
      let sub (prefix : str) := prefix ++ u "@" ++ domain in
      let portal  := or_else (Some website) (u "the student portal") in
      [ (u "university_name",     name);
        (u "university_name_ar",  name_ar);
        (u "university_name_fr",  name);
        (u "city",                city);
        (u "city_ar",             city);
        (u "city_fr",             city);
        (u "portal_url",          portal);
        (u "website",             website);
        (u "email_general",       email);
        (u "email_registrar",     sub (u "registrar"));
        (u "email_finance",       sub (u "finance"));
        (u "email_it",            sub (u "itsupport"));
        (u "email_student",       sub (u "studentaffairs"));
        (u "email_financial_aid", sub (u "financialaid"));
        (u "email_housing",       sub (u "housing"));
        (u "email_library",       sub (u "library"));
        (u "email_academic",      sub (u "academic"));
        (u "phone_main",          or_else (Some phone) (u "the university main number"));
        (u "address",             or_else (u_address university)
                                    (u "Campus of " ++ name ++ u ", " ++ city)) ]
  end.

(** The three tokens that carry the city. *)
Definition CITY_TOKENS : list str := [u "city"; u "city_ar"; u "city_fr"].

(** The token [{key}]. *)
Definition token (key : str) : str := u "{" ++ key ++ u "}".

(** [fill(template, ph)]: one [replace] per entry, in dictionary order. *)
Definition fill (template : str) (ph : placeholders) : str :=
  fold_left (fun t kv => replace (token (fst kv)) (snd kv) t) ph template.

(** The opening brace, with which every token starts. *)
Definition LBRACE : codepoint := 123%N.

(** [s] has no opening brace. *)
Definition brace_free (s : str) : bool :=
  forallb (fun c => negb (c =? LBRACE)%N) s.

(** Every opening brace of [s] starts one of the tokens [toks]. *)
Fixpoint braces_open_tokens (toks : list str) (s : str) : bool :=
  match s with
  | [] => true
  | c :: r =>
      (negb (c =? LBRACE)%N || existsb (fun t => startswith t (c :: r)) toks)
      && braces_open_tokens toks r
  end.

(** The keys of the dictionary, which are the same with and without a
    snapshot. *)
Definition PLACEHOLDER_KEYS : list str := map fst (build_placeholders None).

(* ===================================================================== *)
(** ** The order of binary64 floats *)
(* ===================================================================== *)

(** The comparisons of floats are specified on [spec_float].  A float that
    is a number is sent to a triple of integers (sign class, exponent,
    mantissa, the last two negated for negative floats) ordered
    lexicographically; NaN has no key. *)
Definition sf_key (f : spec_float) : option (Z * Z * Z) :=
  match f with
  | S754_nan => None
  | S754_infinity true => Some (-2, 0, 0)
  | S754_infinity false => Some (2, 0, 0)
  | S754_zero _ => Some (0, 0, 0)
  | S754_finite true m e => Some (-1, - e, - Zpos m)
  | S754_finite false m e => Some (1, e, Zpos m)
  end.

Definition lex_compare (a b : Z * Z * Z) : comparison :=
  match fst (fst a) ?= fst (fst b) with
  | Eq => match snd (fst a) ?= snd (fst b) with
          | Eq => snd a ?= snd b
          | c => c
          end
  | c => c
  end.

Definition key_compare (a b : option (Z * Z * Z)) : option comparison :=
  match a, b with
  | Some x, Some y => Some (lex_compare x y)
  | _, _ => None
  end.

Definition lex_lt (a b : Z * Z * Z) : Prop :=
  fst (fst a) < fst (fst b)
  \/ fst (fst a) = fst (fst b)
     /\ (snd (fst a) < snd (fst b)
         \/ snd (fst a) = snd (fst b) /\ snd a < snd b).

Definition fkey (x : float) : option (Z * Z * Z) := sf_key (Prim2SF x).

(** [x == x]: the float is a number. *)
Definition is_number (x : float) : bool := (x =? x)%float.

(* ===================================================================== *)
(** ** difflib.SequenceMatcher(None, a, b).ratio() *)
(* ===================================================================== *)

Module Difflib.

Section Matcher.

Variables a b : str.

Fixpoint indices_from (x : codepoint) (j : nat) (s : str) : list nat :=
  match s with
  | [] => []
  | y :: r => if (y =? x)%N then j :: indices_from x (S j) r
              else indices_from x (S j) r
  end.

(** The automatic junk heuristic: in a [b] of at least 200 elements, an
    element that occurs more than [len(b) // 100 + 1] times is "popular"
    and is left out of [b2j]. *)
Definition popular (x : codepoint) : bool :=
  (200 <=? length b)%nat
  && (length b / 100 + 1 <? length (indices_from x 0 b))%nat.

(** [b2j.get(x, [])]: the positions of [x] in [b], increasing. *)
Definition b2j (x : codepoint) : list nat :=
  if popular x then [] else indices_from x 0 b.

(** [j2len.get(j - 1, 0)]. *)
Definition j2len_get (j2len : list (nat * nat)) (j : nat) : nat :=
  match j with
  | O => 0
  | S j' =>
      match find (fun p => (fst p =? j')%nat) j2len with
      | Some p => snd p
      | None => 0
      end
  end.

(** The inner loop of [find_longest_match] for one [i]: the new [j2len]
    and the best block so far, as [(besti, bestj, bestsize)]. *)
Definition scan_row (blo bhi i : nat) (j2len : list (nat * nat))
    (best : nat * nat * nat) (js : list nat)
  : list (nat * nat) * (nat * nat * nat) :=
  fold_left
    (fun st j =>
       if (j <? blo)%nat || (bhi <=? j)%nat then st
       else
         let k := S (j2len_get j2len j) in
         ((j, k) :: fst st,
          if (snd (snd st) <? k)%nat then (S i - k, S j - k, k)%nat else snd st))
    js ([], best).

(** The two loops that extend the block with equal elements on both
    sides ([bjunk] is empty, so the junk loops after them never run).
    Each loop is given as many steps as it can take at most. *)
Fixpoint extend_left (fuel alo blo : nat) (m : nat * nat * nat) : nat * nat * nat :=
  match fuel with
  | O => m
  | S fuel' =>
      let '(besti, bestj, bestsize) := m in
      if (alo <? besti)%nat && (blo <? bestj)%nat
         && (nth (besti - 1) a 0 =? nth (bestj - 1) b 0)%N
      then extend_left fuel' alo blo (besti - 1, bestj - 1, bestsize + 1)%nat
      else m
  end.

Fixpoint extend_right (fuel ahi bhi : nat) (m : nat * nat * nat) : nat * nat * nat :=
  match fuel with
  | O => m
  | S fuel' =>
      let '(besti, bestj, bestsize) := m in
      if (besti + bestsize <? ahi)%nat && (bestj + bestsize <? bhi)%nat
         && (nth (besti + bestsize) a 0 =? nth (bestj + bestsize) b 0)%N
      then extend_right fuel' ahi bhi (besti, bestj, bestsize + 1)%nat
      else m
  end.

(** [find_longest_match(alo, ahi, blo, bhi)]. *)
Definition find_longest_match (alo ahi blo bhi : nat) : nat * nat * nat :=
  let best :=
    snd (fold_left
           (fun st i => scan_row blo bhi i (fst st) (snd st) (b2j (nth i a 0%N)))
           (seq alo (ahi - alo)) ([], (alo, blo, 0%nat))) in
  let best := extend_left (fst (fst best)) alo blo best in
  extend_right ahi ahi bhi best.

(** The sum of the sizes of the matching blocks: the longest block of the
    range, then the ranges to its left and to its right.  Every nested
    range of [a] is strictly shorter, so a [fuel] above the length of the
    range is never used up (lemma [matches_fuel]). *)
Fixpoint matches (fuel alo ahi blo bhi : nat) : nat :=
  match fuel with
  | O => 0
  | S fuel' =>
      let '(i, j, k) := find_longest_match alo ahi blo bhi in
      if (k =? 0)%nat then 0%nat
      else
        (k + (if (alo <? i)%nat && (blo <? j)%nat
              then matches fuel' alo i blo j else 0)
           + (if (i + k <? ahi)%nat && (j + k <? bhi)%nat
              then matches fuel' (i + k) ahi (j + k) bhi else 0))%nat
  end.

(** [ratio()]: [2.0 * matches / length], and [1.0] for two empty strings. *)
Definition ratio : float :=
  let length_ := (length a + length b)%nat in
  if (length_ =? 0)%nat then 1%float
  else (2 * float_of_nat (matches (S (length a)) 0 (length a) 0 (length b))
        / float_of_nat length_)%float.

End Matcher.

End Difflib.

(* ===================================================================== *)
(** ** Python floats: [round(x, 2)], [min], [max] *)
(* ===================================================================== *)

(** The integer nearest to [num / den], ties to even, for [den > 0]. *)
Definition round_half_even (num den : Z) : Z :=
  let q := num / den in
  let r := num mod den in
  if 2 * r <? den then q
  else if den <? 2 * r then q + 1
  else if Z.even q then q else q + 1.

(** [num / den * 2^(- e)] as a fraction. *)
Definition scaled (num den e : Z) : Z * Z :=
  if 0 <=? e then (num, den * 2 ^ e) else (num * 2 ^ (- e), den).

(** The float nearest to [num / den], ties to even, for positive [num]
    and [den] and a quotient in the range of the normal floats: the
    53-bit mantissa and its exponent. *)
Definition nearest_float (num den : Z) : float :=
  let e0 := Z.log2 num - Z.log2 den - 52 in
  let '(n0, d0) := scaled num den e0 in
  let e := if n0 / d0 <? 2 ^ 52 then e0 - 1 else e0 in
  let '(n, d) := scaled num den e in
  let m := round_half_even n d in
  let '(m, e) := if m =? 2 ^ 53 then (2 ^ 52, e + 1) else (m, e) in
  SF2Prim (S754_finite false (Z.to_pos m) e).

(** [round(x, 2)]: the exact value of [x] is rounded to two decimals, ties
    to even, and the decimal is converted back to the nearest float.  A
    float with a non-negative exponent is an integer and is returned as
    it is, as are infinities and NaN. *)
Definition round2 (x : float) : float :=
  match Prim2SF x with
  | S754_finite s m e =>
      if 0 <=? e then x
      else
        let k := round_half_even (100 * Z.pos m) (2 ^ (- e)) in
        let r := if k =? 0 then 0%float else nearest_float k 100 in
        if s then (- r)%float else r
  | _ => x
  end.

(** [min(x, y)] and [max(x, y)] of two floats: the first argument unless
    the second is strictly smaller (larger). *)
Definition py_min (x y : float) : float := if (y <? x)%float then y else x.
Definition py_max (x y : float) : float := if (x <? y)%float then y else x.

(** [max(iterable, default=d)]. *)
Definition py_max_list (l : list float) (d : float) : float :=
  match l with
  | [] => d
  | x :: r => fold_left py_max r x
  end.

(** [l.sort(key=key, reverse=True)].  The sort is stable and, reversed,
    still keeps elements with equal keys in their original order: every
    element goes right after the elements whose key is strictly larger. *)
Fixpoint insert_desc {A} (key : A -> float) (x : A) (l : list A) : list A :=
  match l with
  | [] => [x]
  | y :: t => if (key x <? key y)%float then y :: insert_desc key x t
              else x :: y :: t
  end.

Definition sort_desc {A} (key : A -> float) (l : list A) : list A :=
  foldr (insert_desc key) [] l.

(** [l[:k]] for an [int] [k], which may be negative. *)
Definition slice_to {A} (k : Z) (l : list A) : list A :=
  if 0 <=? k then take (Z.to_nat k) l
  else take (Z.to_nat (Z.of_nat (length l) + k)) l.

(* ===================================================================== *)
(** ** faq_service.py: the matcher *)
(* ===================================================================== *)

(** One entry of [_FAQS]. *)
Record faq := {
  id : Z;
  category : str;
  question : str;
  answers : list (str * str);
  keywords : list str;
  variants : list str
}.

(** [d.get(key)] on a dictionary of strings. *)
Definition dict_get (d : list (str * str)) (key : str) : option str :=
  snd <$> find (fun kv => str_eqb (fst kv) key) d.

(** The dictionary [find_best_match] returns. *)
Record match_result := {
  mr_faq : faq;
  mr_confidence : float;
  mr_category : str
}.

(** A returned value, or the [TypeError] of subscripting [None]. *)
Inductive result (A : Type) :=
| Ok (x : A)
| TypeError.
Arguments Ok {A} x.
Arguments TypeError {A}.

Record FAQMatcher := { faqs : list faq }.

Section Matching.

Context (U : unicode_tables).

(** [_preprocess(text)]. *)
Definition _preprocess (text : str) : str :=
  let text := str_lower U text in
  let text := map (fun c => if is_word U c || isspace c
                               || ((1536 <=? c) && (c <=? 1791))%N
                            then c else 32%N) text in
  join (u " ") (split_ws text).

(** [_similarity(a, b)]. *)
Definition _similarity (a b : str) : float := Difflib.ratio a b.

(** [_keyword_score(query, faq)]. *)
Definition _keyword_score (query : str) (f : faq) : float :=
  let query_words := split_ws query in
  let hits := length (filter (fun kw =>
                  contains (str_lower U kw) query
                  || existsb (fun w => contains (str_lower U kw) w) query_words = true)
                (keywords f)) in
  let variant_bonus :=
    if existsb (fun v => contains (str_lower U v) query) (variants f)
    then 0.3%float else 0%float in
  py_min (float_of_nat hits / float_of_nat (Nat.max (length (keywords f)) 1)
          + variant_bonus)%float 1%float.

(** [_semantic_score(query, faq)]. *)
Definition _semantic_score (query : str) (f : faq) : float :=
  let q_sim := _similarity query (_preprocess (question f)) in
  let v_sim := py_max_list
                 (map (fun v => _similarity query (_preprocess v)) (variants f))
                 0%float in
  py_max q_sim v_sim.

(** The combined score of an entry for a preprocessed query. *)
Definition score (query : str) (f : faq) : float :=
  (_keyword_score query f * 0.6 + _semantic_score query f * 0.4)%float.

(** The loop of [find_best_match]: [(best, best_score)] after the entries
    of [l]. *)
Fixpoint best_loop (query : str) (l : list faq) (best : option faq)
    (best_score : float) : option faq * float :=
  match l with
  | [] => (best, best_score)
  | f :: rest =>
      let s := score query f in
      if (best_score <? s)%float then best_loop query rest (Some f) s
      else best_loop query rest best best_score
  end.

(** [find_best_match(user_query, threshold)]. *)
Definition find_best_match (self : FAQMatcher) (user_query : str)
    (threshold : float) : result (option match_result) :=
  let query := _preprocess user_query in
  let '(best, best_score) := best_loop query (faqs self) None 0%float in
  if (threshold <=? best_score)%float then
    match best with
    | Some f => Ok (Some {| mr_faq := f; mr_confidence := round2 best_score;
                            mr_category := category f |})
    | None => TypeError
    end
  else Ok None.

(** [find_multiple_matches(user_query, top_k, threshold)]. *)
Definition find_multiple_matches (self : FAQMatcher) (user_query : str)
    (top_k : Z) (threshold : float) : list match_result :=
  let query := _preprocess user_query in
  let matches :=
    omap (fun f =>
            let s := score query f in
            if (threshold <=? s)%float
            then Some {| mr_faq := f; mr_confidence := round2 s;
                         mr_category := category f |}
            else None)
         (faqs self) in
  slice_to top_k (sort_desc mr_confidence matches).

End Matching.

(** The default arguments. *)
Definition DEFAULT_BEST_THRESHOLD : float := 0.3%float.
Definition DEFAULT_TOP_K : Z := 3.
Definition DEFAULT_MULTI_THRESHOLD : float := 0.25%float.

(** [f] is an entry of [l] that no entry of [l] outscores. *)
Definition highest_scoring (sc : faq -> float) (l : list faq) (f : faq) : Prop :=
  f ∈ l /\ forall g, g ∈ l -> (sc f <? sc g)%float = false.

(** No element is followed by a strictly larger one. *)
Fixpoint descending (l : list float) : Prop :=
  match l with
  | x :: t => match t with
              | y :: _ => (x <? y)%float = false /\ descending t
              | [] => True
              end
  | [] => True
  end.

(* ===================================================================== *)
(** ** faq_service.py: the catalog [_FAQS] *)
(* ===================================================================== *)

Definition faq_1 : faq :=
  {| id := 1;
     category := u "greeting";
     question := u "Hello / Hi / Greetings";
     answers :=
     [(u "en",
       u "Hello! Welcome to {university_name} Chatbot. I'm here to help you with:
- Course registration and enrollment
- Tuition fees and payments
- Academic information and grades
- Campus facilities and services
- Exams and schedules
- Student services

How can I assist you today?");
      (u "ar",
       u "مرحباً! أهلاً بك في شات بوت {university_name_ar}. أنا هنا لمساعدتك في:
- التسجيل في المقررات
- الرسوم الدراسية والمدفوعات
- المعلومات الأكاديمية والدرجات
- مرافق الحرم الجامعي والخدمات
- الامتحانات والجداول الزمنية
- خدمات الطلاب

كيف يمكنني مساعدتك اليوم؟");
      (u "fr",
       u "Bonjour! Bienvenue sur le Chatbot de {university_name_fr}. Je suis là pour vous aider avec:
- L'inscription aux cours
- Les frais de scolarité et paiements
- Les informations académiques et les notes
- Les installations du campus et services
- Les examens et les emplois du temps
- Les services aux étudiants

Comment puis-je vous aider aujourd'hui?")];
     keywords := map u
   ["hello"; "hi"; "hey"; "greetings"; "salut"; "bonjour"; "salam"; "مرحبا";
    "السلام عليكم"; "أهلا"; "هلا"]%string;
     variants := map u
   ["hello"; "hi there"; "hey"; "good morning"; "bonjour"; "salut"; "مرحبا";
    "السلام عليكم"]%string |}.

Definition faq_2 : faq :=
  {| id := 2;
     category := u "greeting";
     question := u "How are you?";
     answers :=
     [(u "en",
       u "I'm functioning well, thank you! I'm ready to help you with any questions about {university_name}. What would you like to know?");
      (u "ar",
       u "أنا بخير، شكراً لسؤالك! أنا جاهز لمساعدتك في أي سؤال يتعلق بـ{university_name_ar}. ماذا تريد أن تعرف؟");
      (u "fr",
       u "Je fonctionne très bien, merci! Je suis prêt à vous aider pour toutes vos questions sur {university_name_fr}. Que souhaitez-vous savoir?")];
     keywords := map u
   ["how are you"; "comment allez-vous"; "ça va"; "كيف حالك"; "كيفك";
    "comment vas-tu"]%string;
     variants := map u
   ["how are you"; "how are you doing"; "comment vas-tu"; "كيف حالك"]%string |}.

Definition faq_3 : faq :=
  {| id := 3;
     category := u "greeting";
     question := u "Thank you / Thanks";
     answers :=
     [(u "en",
       u "You're very welcome! I'm glad I could help. Feel free to ask anytime. Have a great day!");
      (u "ar",
       u "على الرحب والسعة! يسعدني أنني استطعت المساعدة. لا تتردد في السؤال في أي وقت. أتمنى لك يوماً رائعاً!");
      (u "fr",
       u "De rien! Je suis ravi d'avoir pu vous aider. N'hésitez pas à demander à tout moment. Bonne journée!")];
     keywords := map u
   ["thank"; "thanks"; "merci"; "شكرا"; "شكراً"; "شكرًا"]%string;
     variants := map u
   ["thank you"; "thanks"; "merci"; "شكرا"; "شكراً جزيلاً"]%string |}.

Definition faq_4 : faq :=
  {| id := 4;
     category := u "greeting";
     question := u "Goodbye / See you";
     answers :=
     [(u "en",
       u "Goodbye! It was nice helping you today. Come back anytime you have questions about {university_name}. Take care!");
      (u "ar",
       u "وداعاً! كان من دواعي سروري مساعدتك. عُد في أي وقت لديك أسئلة حول {university_name_ar}. اعتنِ بنفسك!");
      (u "fr",
       u "Au revoir! C'était un plaisir de vous aider. Revenez à tout moment pour {university_name_fr}. Prenez soin de vous!")];
     keywords := map u
   ["goodbye"; "bye"; "see you"; "au revoir"; "مع السلامة"; "وداعا"]%string;
     variants := map u
   ["goodbye"; "bye"; "see you later"; "au revoir"; "مع السلامة"]%string |}.

Definition faq_5 : faq :=
  {| id := 5;
     category := u "help";
     question := u "What can you help me with?";
     answers :=
     [(u "en",
       u "I can help you with many aspects of {university_name}:

📚 **Academic:** Course registration, grading system, attendance policies
💰 **Financial:** Tuition fees, payment methods, scholarships
🏢 **Campus Life:** Library, gym, cafeteria, student housing
📝 **Student Services:** Student ID, portal access, admin procedures
📅 **Important Dates:** Registration deadlines, exam periods

Just ask me anything!");
      (u "ar",
       u "يمكنني مساعدتك في كثير من جوانب {university_name_ar}:

📚 **الأكاديمي:** التسجيل في المقررات، نظام التقييم، سياسات الحضور
💰 **المالي:** الرسوم الدراسية، طرق الدفع، المنح الدراسية
🏢 **الحياة الجامعية:** المكتبة، قاعة الرياضة، المطعم، السكن الجامعي
📝 **خدمات الطلاب:** بطاقة الطالب، الوصول إلى البوابة، الإجراءات الإدارية
📅 **مواعيد هامة:** مواعيد التسجيل، فترات الامتحانات

اسألني أي شيء!");
      (u "fr",
       u "Je peux vous aider avec de nombreux aspects de {university_name_fr}:

📚 **Académique:** Inscription aux cours, système de notation, politiques de présence
💰 **Financier:** Frais de scolarité, modes de paiement, bourses
🏢 **Vie du campus:** Bibliothèque, gymnase, cafétéria, logement étudiant
📝 **Services étudiants:** Carte étudiant, accès au portail, procédures administratives
📅 **Dates importantes:** Dates d'inscription, périodes d'examens

Posez-moi n'importe quelle question!")];
     keywords := map u
   ["help"; "what can you do"; "aide"; "مساعدة"; "ماذا تفعل"; "ماذا تستطيع"]%string;
     variants := map u
   ["what can you help with"; "what do you do"; "how can you help"; "aide";
    "مساعدة"]%string |}.

Definition faq_6 : faq :=
  {| id := 6;
     category := u "registration";
     question := u "How do I register for courses?";
     answers :=
     [(u "en",
       u "**Course Registration Process:**

1. Log into the student portal: {portal_url}
2. Navigate to 'Course Registration'
3. Select your desired courses
4. Check for time conflicts
5. Submit your registration
6. Pay registration fees within the deadline

Registration opens 2 weeks before each semester. Limited seats – register early!

📧 {email_registrar}");
      (u "ar",
       u "**خطوات التسجيل في المقررات:**

1. سجّل الدخول على بوابة الطلاب: {portal_url}
2. انتقل إلى قسم 'تسجيل المقررات'
3. اختر المقررات المطلوبة
4. تحقق من التعارض في الجداول
5. أرسل طلب التسجيل
6. ادفع رسوم التسجيل قبل الموعد النهائي

يفتح التسجيل قبل أسبوعين من كل فصل. الأماكن محدودة – سجّل مبكراً!

📧 {email_registrar}");
      (u "fr",
       u "**Processus d'inscription aux cours:**

1. Connectez-vous au portail étudiant: {portal_url}
2. Allez dans 'Inscription aux cours'
3. Sélectionnez vos cours
4. Vérifiez les conflits d'horaires
5. Soumettez votre inscription
6. Payez les frais dans le délai imparti

L'inscription ouvre 2 semaines avant chaque semestre. Places limitées – inscrivez-vous tôt!

📧 {email_registrar}")];
     keywords := map u
   ["register"; "registration"; "enroll"; "enrollment"; "course"; "signup";
    "inscription"; "inscrire"; "cours"; "تسجيل"; "مادة"; "كيف أسجل";
    "كيف اسجل"]%string;
     variants := map u
   ["how to register"; "registration process"; "enroll in courses";
    "comment s'inscrire"; "comment puis-je m inscrire"; "كيف أسجل";
    "طريقة التسجيل"]%string |}.

Definition faq_7 : faq :=
  {| id := 7;
     category := u "registration";
     question := u "What are the registration deadlines?";
     answers :=
     [(u "en",
       u "**Registration Deadlines:**

🍂 Fall: Early registration → Regular → Late registration (with late fee)
🌸 Spring: Early registration → Regular → Late registration (with late fee)
☀️ Summer: Short registration window

⚠️ Check the official academic calendar on {portal_url} for exact dates.
Late registration incurs additional fees. No registration after late period ends!");
      (u "ar",
       u "**مواعيد التسجيل:**

🍂 الخريف: تسجيل مبكر ← عادي ← متأخر (برسوم إضافية)
🌸 الربيع: تسجيل مبكر ← عادي ← متأخر (برسوم إضافية)
☀️ الصيف: فترة تسجيل قصيرة

⚠️ راجع التقويم الأكاديمي الرسمي على {portal_url} للمواعيد الدقيقة.
التسجيل المتأخر يستلزم رسوماً إضافية. لا يُقبل أي تسجيل بعد انتهاء الفترة!");
      (u "fr",
       u "**Dates limites d'inscription:**

🍂 Automne: Inscription anticipée → Normale → Tardive (avec frais supplémentaires)
🌸 Printemps: Inscription anticipée → Normale → Tardive (avec frais supplémentaires)
☀️ Été: Courte période d'inscription

⚠️ Consultez le calendrier académique officiel sur {portal_url} pour les dates exactes.
L'inscription tardive entraîne des frais supplémentaires. Aucune inscription après la période tardive!")];
     keywords := map u
   ["deadline"; "last day"; "registration date"; "when"; "due date";
    "date limite"; "موعد"; "آخر موعد"; "متى التسجيل"]%string;
     variants := map u
   ["registration deadline"; "when to register"; "date limite d'inscription";
    "موعد التسجيل"]%string |}.

Definition faq_8 : faq :=
  {| id := 8;
     category := u "registration";
     question := u "Can I drop a course after registration?";
     answers :=
     [(u "en",
       u "**Course Drop Policy:**

✅ Weeks 1-2 (Add/Drop Period): Full refund, no transcript record
⚠️ Weeks 3-6 (Withdrawal): Partial refund, 'W' on transcript (no GPA impact)
❌ After Week 6: No refund, 'WF' on transcript (affects GPA)

How to Drop: via the student portal ({portal_url}) or the Registrar's Office.
📧 {email_registrar}");
      (u "ar",
       u "**سياسة حذف المقررات:**

✅ الأسبوعان 1-2: استرداد كامل، بدون سجل في كشف الدرجات
⚠️ الأسابيع 3-6: استرداد جزئي، يظهر 'W' في كشف الدرجات (لا يؤثر على المعدل)
❌ بعد الأسبوع 6: لا استرداد، يظهر 'WF' في كشف الدرجات (يؤثر على المعدل)

طريقة الحذف: عبر بوابة الطالب ({portal_url}) أو مكتب التسجيل.
📧 {email_registrar}");
      (u "fr",
       u "**Politique d'abandon de cours:**

✅ Semaines 1-2: Remboursement total, aucune mention sur le relevé
⚠️ Semaines 3-6: Remboursement partiel, 'W' sur le relevé (pas d'impact sur la moyenne)
❌ Après la semaine 6: Pas de remboursement, 'WF' sur le relevé (affecte la moyenne)

Comment abandonner: via le portail étudiant ({portal_url}) ou le Bureau du Registraire.
📧 {email_registrar}")];
     keywords := map u
   ["drop"; "withdraw"; "remove course"; "cancel registration"; "annuler";
    "حذف المادة"; "الانسحاب"; "حذف مقرر"]%string;
     variants := map u
   ["drop a course"; "withdraw from course"; "annuler un cours"; "حذف مادة"]%string |}.

Definition faq_9 : faq :=
  {| id := 9;
     category := u "tuition";
     question := u "How much are the tuition fees?";
     answers :=
     [(u "en",
       u "**Tuition Fees (Per Semester):**

🎓 Undergraduate: Base tuition + applicable lab fees
🎓 Master's: Base tuition + research fees
🎓 PhD: Base tuition + research & lab access fees

Additional fees may include: registration, library access, sports facilities, and student services.

💡 For exact amounts, check {portal_url} or contact the Finance Office: 📧 {email_finance}
Scholarships are available – ask about financial aid!");
      (u "ar",
       u "**الرسوم الدراسية (لكل فصل):**

🎓 الليسانس: رسوم أساسية + رسوم مختبر (إن وجدت)
🎓 الماستر: رسوم أساسية + رسوم بحثية
🎓 الدكتوراه: رسوم أساسية + رسوم مختبر وبحث

قد تشمل الرسوم الإضافية: التسجيل، المكتبة، الرياضة، والخدمات الطلابية.

💡 للمبالغ الدقيقة، راجع {portal_url} أو تواصل مع الشؤون المالية: 📧 {email_finance}
تتوفر منح دراسية – اسأل عن المساعدات المالية!");
      (u "fr",
       u "**Frais de scolarité (par semestre):**

🎓 Licence: Frais de base + frais de laboratoire (si applicable)
🎓 Master: Frais de base + frais de recherche
🎓 Doctorat: Frais de base + accès labo et recherche

Des frais supplémentaires peuvent inclure: inscription, bibliothèque, sports, et services étudiants.

💡 Pour les montants exacts, consultez {portal_url} ou contactez le Bureau des finances: 📧 {email_finance}
Des bourses sont disponibles – renseignez-vous sur l'aide financière!")];
     keywords := map u
   ["tuition"; "fees"; "cost"; "price"; "how much"; "money"; "frais";
    "scolarite"; "scolarité"; "رسوم"; "المصاريف"; "كم الرسوم"; "كم التكلفة";
    "الرسوم الدراسية"; "ما هي الرسوم"]%string;
     variants := map u
   ["tuition fees"; "how much does it cost"; "frais de scolarité";
    "quels sont les frais"; "كم الرسوم"; "الرسوم الدراسية"]%string |}.

Definition faq_10 : faq :=
  {| id := 10;
     category := u "tuition";
     question := u "What payment methods are accepted?";
     answers :=
     [(u "en",
       u "**Accepted Payment Methods:**

🏦 Bank Transfer: to the university's official bank account (reference: your Student ID)
💵 Cash: at the Finance Office on campus (office hours: Sun–Thu 8AM–4PM)
📮 Postal account (CCP) if available
💳 Online payment via {portal_url}/payment (CIB, EDAHABIA, Visa, Mastercard)

📧 Always send your payment receipt to: {email_finance}
☎ Finance Office: {phone_main}");
      (u "ar",
       u "**طرق الدفع المقبولة:**

🏦 تحويل بنكي: إلى الحساب الرسمي للجامعة (المرجع: رقم الطالب)
💵 نقداً: في مكتب الشؤون المالية بالحرم الجامعي (أوقات العمل: الأحد–الخميس 8ص–4م)
📮 حساب بريدي (CCP) إن كان متاحاً
💳 دفع إلكتروني عبر {portal_url}/payment (CIB، EDAHABIA، Visa، Mastercard)

📧 أرسل دائماً إيصال الدفع إلى: {email_finance}
☎ الشؤون المالية: {phone_main}");
      (u "fr",
       u "**Modes de paiement acceptés:**

🏦 Virement bancaire: sur le compte officiel de l'université (réf: votre ID étudiant)
💵 Espèces: au Bureau des finances sur le campus (Dim–Jeu 8h–16h)
📮 Compte postal (CCP) si disponible
💳 Paiement en ligne via {portal_url}/payment (CIB, EDAHABIA, Visa, Mastercard)

📧 Envoyez toujours votre reçu à: {email_finance}
☎ Bureau des finances: {phone_main}")];
     keywords := map u
   ["payment"; "pay"; "method"; "transfer"; "cash"; "online"; "credit card";
    "paiement"; "طريقة الدفع"; "كيف أدفع"; "دفع"]%string;
     variants := map u
   ["how to pay"; "payment methods"; "modes de paiement"; "كيف أدفع"]%string |}.

Definition faq_11 : faq :=
  {| id := 11;
     category := u "academic";
     question := u "What is the grading system?";
     answers :=
     [(u "en",
       u "**Algerian Grading Scale (0-20):**

- 16-20: Excellent (Très Bien) → A
- 14-15.99: Very Good (Bien) → B
- 12-13.99: Good (Assez Bien) → C
- 10-11.99: Satisfactory (Passable) → D
- Below 10: Fail (Ajourné) → F

**Minimum passing grade:** 10/20

**Typical grade components:** Midterm ~30% | Final ~50% | Assignments ~15% | Attendance ~5%

Grade appeals: usually within 5 days of grade publication. Contact {email_academic} for details.");
      (u "ar",
       u "**سلم التقييم الجزائري (0-20):**

- 16-20: ممتاز (Très Bien) → A
- 14-15.99: جيد جداً (Bien) → B
- 12-13.99: جيد (Assez Bien) → C
- 10-11.99: مقبول (Passable) → D
- أقل من 10: راسب (Ajourné) → F

**الحد الأدنى للنجاح:** 10/20

**مكونات الدرجة المعتادة:** منتصف الفصل ~30% | نهائي ~50% | واجبات ~15% | حضور ~5%

التظلم على الدرجات: عادةً خلال 5 أيام من النشر. تواصل مع {email_academic} للتفاصيل.");
      (u "fr",
       u "**Barème de notation algérien (0-20):**

- 16-20: Excellent (Très Bien) → A
- 14-15.99: Très Bien (Bien) → B
- 12-13.99: Bien (Assez Bien) → C
- 10-11.99: Passable → D
- Moins de 10: Ajourné (Échec) → F

**Note minimale pour réussir:** 10/20

**Répartition habituelle:** Partiel ~30% | Final ~50% | Devoirs ~15% | Présence ~5%

Recours: généralement dans les 5 jours après la publication. Contactez {email_academic}.")];
     keywords := map u
   ["grade"; "grading"; "marks"; "score"; "gpa"; "evaluation"; "notation";
    "درجات"; "تقييم"; "نظام الدرجات"; "النقطة"]%string;
     variants := map u
   ["grading system"; "how grades work"; "système de notation"; "نظام التقييم"]%string |}.

Definition faq_12 : faq :=
  {| id := 12;
     category := u "academic";
     question := u "How can I access my grades?";
     answers :=
     [(u "en",
       u "**Accessing Your Grades:**

💻 Online: {portal_url} → Academic Records → View Grades
📧 You'll receive an email notification when grades are posted
🏢 In person: Registrar's Office (Student ID required) – fee for official sealed copy

Grades are typically posted within 1-2 weeks after exams.
📧 IT issues: {email_it}");
      (u "ar",
       u "**طريقة الاطلاع على الدرجات:**

💻 إلكترونياً: {portal_url} ← السجلات الأكاديمية ← عرض الدرجات
📧 ستتلقى إشعاراً بالبريد الإلكتروني عند نشر الدرجات
🏢 حضورياً: مكتب التسجيل (بطاقة الطالب مطلوبة) – رسوم للنسخة الرسمية المختومة

تُنشر الدرجات عادةً خلال 1-2 أسبوع بعد الامتحانات.
📧 مشاكل تقنية: {email_it}");
      (u "fr",
       u "**Accéder à vos notes:**

💻 En ligne: {portal_url} → Dossier académique → Voir les notes
📧 Vous recevrez un email de notification quand les notes sont disponibles
🏢 En personne: Bureau du Registraire (carte étudiant requise) – frais pour copie officielle

Les notes sont généralement publiées dans les 1-2 semaines après les examens.
📧 Problèmes techniques: {email_it}")];
     keywords := map u
   ["access grades"; "view grades"; "check grades"; "see results";
    "transcript"; "consulter notes"; "الاطلاع على النتائج"; "أشوف درجاتي";
    "كيف أرى نتائجي"]%string;
     variants := map u
   ["how to see grades"; "check my grades"; "voir mes notes"; "كيف أرى درجاتي"]%string |}.

Definition faq_13 : faq :=
  {| id := 13;
     category := u "academic";
     question := u "What is the attendance policy?";
     answers :=
     [(u "en",
       u "**Attendance Policy (Algerian universities):**

✅ Minimum required attendance: 75% per course
- First few absences: tolerated
- Further absences: warning, then grade deductions
- Exceeding 25% absence rate: Automatic failure

Excused absences (medical certificate or official document) must be submitted within 3 days.
Typically, 3 late arrivals (>15 min) count as 1 absence.

📧 Contact {email_student} for absence justification procedures.");
      (u "ar",
       u "**سياسة الحضور (الجامعات الجزائرية):**

✅ الحد الأدنى المطلوب: 75% لكل مقرر
- الغيابات الأولى: متسامح بها
- الغيابات الإضافية: تحذير ثم خصم من الدرجة
- تجاوز 25% من الغيابات: رسوب تلقائي

الغياب المبرر (شهادة طبية أو وثيقة رسمية) يجب تقديمه خلال 3 أيام.
عادةً 3 تأخيرات (>15 دقيقة) = غياب واحد.

📧 تواصل مع {email_student} لإجراءات تبرير الغياب.");
      (u "fr",
       u "**Politique de présence (universités algériennes):**

✅ Présence minimale requise: 75% par cours
- Premières absences: tolérées
- Absences supplémentaires: avertissement puis déduction de points
- Dépasser 25% d'absences: Échec automatique

Absences justifiées (certificat médical ou document officiel) à soumettre dans les 3 jours.
En général, 3 retards (>15 min) = 1 absence.

📧 Contactez {email_student} pour les procédures de justification d'absence.")];
     keywords := map u
   ["attendance"; "absence"; "present"; "miss class"; "skip"; "assiduité";
    "présence"; "الحضور"; "الغياب"; "غياب"]%string;
     variants := map u
   ["attendance policy"; "missing class"; "politique de présence";
    "سياسة الحضور"]%string |}.

Definition faq_14 : faq :=
  {| id := 14;
     category := u "campus";
     question := u "What facilities are available on campus?";
     answers :=
     [(u "en",
       u "**Campus Facilities at {university_name}:**

📚 Central Library: books, journals, e-resources, study rooms, free WiFi
💻 Computer Labs: high-speed internet, software for all majors
🏃 Sports Complex: gym, sports fields and courts
🍽️ Student Cafeteria: subsidized meals
🏥 Medical Clinic: basic healthcare, first aid
🖨️ Printing Center: B&W and color printing
🚗 Student parking (free with ID)

For details and opening hours, visit {portal_url} or check the campus map at reception.");
      (u "ar",
       u "**مرافق الحرم الجامعي في {university_name_ar}:**

📚 المكتبة المركزية: كتب، دوريات، موارد إلكترونية، قاعات دراسة، واي فاي مجاني
💻 قاعات الكمبيوتر: إنترنت عالي السرعة، برامج لجميع التخصصات
🏃 المجمع الرياضي: صالة رياضة، ملاعب رياضية
🍽️ المطعم الجامعي: وجبات مدعومة
🏥 العيادة الطبية: رعاية صحية أساسية، إسعافات أولية
🖨️ مركز الطباعة: طباعة بالأبيض والأسود وملونة
🚗 موقف سيارات مجاني ببطاقة الطالب

للتفاصيل وأوقات العمل، زر {portal_url} أو تحقق من خريطة الحرم الجامعي.");
      (u "fr",
       u "**Équipements du campus de {university_name_fr}:**

📚 Bibliothèque centrale: livres, revues, ressources numériques, salles d'étude, WiFi gratuit
💻 Salles informatiques: internet haut débit, logiciels pour toutes les filières
🏃 Complexe sportif: salle de gym, terrains de sport
🍽️ Cafétéria étudiante: repas subventionnés
🏥 Clinique médicale: soins de base, premiers secours
🖨️ Centre d'impression: impression N&B et couleur
🚗 Parking étudiant gratuit avec carte

Pour les détails et horaires, consultez {portal_url} ou le plan du campus à la réception.")];
     keywords := map u
   ["facilities"; "campus"; "library"; "gym"; "cafeteria"; "sports"; "مرافق";
    "مكتبة"; "ملعب"; "مطعم"]%string;
     variants := map u
   ["campus facilities"; "what's on campus"; "installations du campus";
    "مرافق الجامعة"]%string |}.

Definition faq_15 : faq :=
  {| id := 15;
     category := u "campus";
     question := u "What are the library hours?";
     answers :=
     [(u "en",
       u "**Library Hours:**

📅 Regular semester: Sun–Thu 8AM–8PM | Fri 8AM–12PM & 2PM–6PM | Sat 8AM–2PM
📚 Exam period: extended hours (often until 10PM)
🌙 Closed: national holidays; reduced hours during Ramadan
💻 Digital library: 24/7 via {portal_url}

📧 Library inquiries: {email_library}");
      (u "ar",
       u "**أوقات عمل المكتبة:**

📅 الفصل الدراسي: الأحد–الخميس 8ص–8م | الجمعة 8ص–12م و2م–6م | السبت 8ص–2م
📚 فترة الامتحانات: ساعات ممتدة (غالباً حتى 10م)
🌙 مغلق: في العطل الوطنية؛ ساعات مختصرة خلال رمضان
💻 المكتبة الرقمية: 24/7 عبر {portal_url}

📧 استفسارات المكتبة: {email_library}");
      (u "fr",
       u "**Horaires de la bibliothèque:**

📅 Semestre normal: Dim–Jeu 8h–20h | Ven 8h–12h & 14h–18h | Sam 8h–14h
📚 Période d'examens: horaires étendus (souvent jusqu'à 22h)
🌙 Fermée: jours fériés; horaires réduits pendant le Ramadan
💻 Bibliothèque numérique: 24h/24 via {portal_url}

📧 Renseignements bibliothèque: {email_library}")];
     keywords := map u
   ["library"; "hours"; "time"; "open"; "close"; "schedule"; "horaires";
    "bibliothèque"; "ساعات المكتبة"; "مكتبة"]%string;
     variants := map u
   ["library hours"; "when is library open"; "horaires de la bibliothèque";
    "أوقات المكتبة"]%string |}.

Definition faq_16 : faq :=
  {| id := 16;
     category := u "services";
     question := u "How do I get a student ID card?";
     answers :=
     [(u "en",
       u "**Student ID Card:**

📋 Typically required: passport-size photo, registration confirmation, national ID, payment of card fee
🏢 Apply at: the Student Services Office on campus
⏰ Processing time: usually 3-7 business days

Lost card? Report immediately to the Student Services Office to get a replacement.
⚠️ Your student ID is mandatory for exams, library access, and campus facilities!

📧 {email_student}");
      (u "ar",
       u "**بطاقة الطالب:**

📋 المطلوب عادةً: صورة شخصية، تأكيد التسجيل، بطاقة الهوية الوطنية، دفع رسوم البطاقة
🏢 التقديم في: مكتب خدمات الطلاب بالحرم الجامعي
⏰ مدة الإنجاز: عادةً 3-7 أيام عمل

فقدت بطاقتك؟ أبلغ فوراً مكتب خدمات الطلاب للحصول على بدل ضائع.
⚠️ بطاقة الطالب إلزامية للامتحانات والمكتبة ومرافق الجامعة!

📧 {email_student}");
      (u "fr",
       u "**Carte étudiant:**

📋 Généralement requis: photo d'identité, confirmation d'inscription, pièce d'identité nationale, paiement des frais de carte
🏢 Demande à: le Bureau des services étudiants sur le campus
⏰ Délai: généralement 3-7 jours ouvrables

Carte perdue? Signalez immédiatement au Bureau des services étudiants pour obtenir un remplacement.
⚠️ Votre carte étudiant est obligatoire pour les examens, la bibliothèque et les installations!

📧 {email_student}")];
     keywords := map u
   ["student id"; "card"; "identification"; "badge"; "carte étudiant";
    "بطاقة الطالب"; "بطاقة طالب"]%string;
     variants := map u
   ["get student card"; "student id card"; "obtenir carte étudiant";
    "الحصول على بطاقة الطالب"]%string |}.

Definition faq_17 : faq :=
  {| id := 17;
     category := u "services";
     question := u "Is there student housing available?";
     answers :=
     [(u "en",
       u "**Student Housing:**

🏠 On-campus dormitories (résidence universitaire) are available at most Algerian universities.
💰 Monthly fees vary by room type (shared or single).
📋 Priority is typically given to: students from distant regions, international students, and scholarship recipients.

**How to apply:** Submit your application via {portal_url} during the housing application period (usually before the start of each semester).

📧 Housing inquiries: {email_housing}");
      (u "ar",
       u "**السكن الجامعي:**

🏠 تتوفر مساكن جامعية (إقامة جامعية) في معظم الجامعات الجزائرية.
💰 الرسوم الشهرية تختلف حسب نوع الغرفة (مشتركة أو فردية).
📋 الأولوية عادةً لـ: الطلاب القادمين من مناطق بعيدة، الطلاب الأجانب، والمنتفعين بالمنح.

**طريقة التقديم:** قدّم طلبك عبر {portal_url} خلال فترة التقديم للسكن (عادةً قبل بداية كل فصل).

📧 استفسارات السكن: {email_housing}");
      (u "fr",
       u "**Logement étudiant:**

🏠 Des résidences universitaires sont disponibles dans la plupart des universités algériennes.
💰 Les frais mensuels varient selon le type de chambre (partagée ou individuelle).
📋 La priorité est généralement accordée aux: étudiants de régions éloignées, étudiants internationaux, et boursiers.

**Comment postuler:** Soumettez votre candidature via {portal_url} pendant la période de demande de logement (généralement avant le début de chaque semestre).

📧 Renseignements logement: {email_housing}")];
     keywords := map u
   ["housing"; "dormitory"; "residence"; "accommodation"; "room"; "dorm";
    "logement"; "résidence"; "السكن الجامعي"; "إقامة"]%string;
     variants := map u
   ["student housing"; "dormitories"; "résidence universitaire";
    "السكن الجامعي"]%string |}.

Definition faq_18 : faq :=
  {| id := 18;
     category := u "financial_aid";
     question := u "What scholarships are available?";
     answers :=
     [(u "en",
       u "**Scholarship Opportunities:**

🏆 Merit-based: for students with high academic performance
💰 Need-based: financial aid based on family income
🔬 Research scholarships: for Master's and PhD students (includes tuition waiver + stipend)
⚽ Sports scholarships: for university team members
🌍 International student scholarships: tuition support for non-Algerian students

📋 Applications are submitted via {portal_url} or at the Financial Aid Office.
📧 {email_financial_aid}");
      (u "ar",
       u "**المنح الدراسية المتاحة:**

🏆 منحة التميز: للطلاب ذوي الأداء الأكاديمي المرتفع
💰 المنحة الاجتماعية: دعم مالي بناءً على دخل الأسرة
🔬 منح البحث: لطلاب الماستر والدكتوراه (إعفاء من الرسوم + مخصص مالي)
⚽ منح الرياضة: لأعضاء الفرق الجامعية
🌍 منح الطلاب الأجانب: دعم الرسوم لغير الجزائريين

📋 تُقدَّم الطلبات عبر {portal_url} أو في مكتب المنح الدراسية.
📧 {email_financial_aid}");
      (u "fr",
       u "**Bourses disponibles:**

🏆 Bourses au mérite: pour les étudiants avec d'excellents résultats académiques
💰 Aide financière: soutien basé sur les revenus familiaux
🔬 Bourses de recherche: pour les étudiants en Master et Doctorat (exonération + bourse mensuelle)
⚽ Bourses sportives: pour les membres des équipes universitaires
🌍 Bourses étudiants internationaux: aide pour les non-Algériens

📋 Les candidatures se font via {portal_url} ou au Bureau des bourses.
📧 {email_financial_aid}")];
     keywords := map u
   ["scholarship"; "financial aid"; "funding"; "grant"; "support"; "bourse";
    "aide financière"; "منحة"; "دعم مالي"]%string;
     variants := map u
   ["scholarships available"; "financial help"; "bourses disponibles";
    "المنح الدراسية"]%string |}.

Definition faq_19 : faq :=
  {| id := 19;
     category := u "technical";
     question := u "I forgot my student portal password. How do I reset it?";
     answers :=
     [(u "en",
       u "**Password Reset:**

💻 Online self-reset:
   1. Go to {portal_url}
   2. Click 'Forgot Password?'
   3. Enter your university email address
   4. Check your inbox (and spam folder!) for the reset link
   5. Click the link (usually valid for 24h) and set a new password

🏢 In person: visit the IT Support Office on campus with your Student ID + National ID

📧 IT Support: {email_it}
⚠️ The university will NEVER ask for your password by email.");
      (u "ar",
       u "**إعادة تعيين كلمة المرور:**

💻 إعادة تعيين إلكترونية:
   1. اذهب إلى {portal_url}
   2. انقر على 'نسيت كلمة المرور؟'
   3. أدخل بريدك الجامعي
   4. تحقق من صندوق الوارد (وبريد السبام!) للرابط
   5. انقر الرابط (صالح عادةً 24 ساعة) وعيّن كلمة مرور جديدة

🏢 حضورياً: زر مكتب الدعم التقني بالحرم الجامعي مع بطاقة الطالب + بطاقة الهوية

📧 الدعم التقني: {email_it}
⚠️ لن تطلب الجامعة منك كلمة المرور عبر البريد الإلكتروني أبداً.");
      (u "fr",
       u "**Réinitialisation du mot de passe:**

💻 Réinitialisation en ligne:
   1. Allez sur {portal_url}
   2. Cliquez sur 'Mot de passe oublié?'
   3. Entrez votre email universitaire
   4. Vérifiez votre boîte (y compris les spams!) pour le lien
   5. Cliquez le lien (valide généralement 24h) et créez un nouveau mot de passe

🏢 En personne: rendez-vous au Bureau IT du campus avec carte étudiant + pièce d'identité

📧 Support IT: {email_it}
⚠️ L'université ne vous demandera JAMAIS votre mot de passe par email.")];
     keywords := map u
   ["password"; "reset"; "forgot"; "login"; "access"; "portal";
    "mot de passe"; "oublié"; "oublie"; "reinitialiser"; "réinitialiser";
    "كلمة السر"; "نسيت"; "نسيت كلمة المرور"; "كلمة المرور"]%string;
     variants := map u
   ["reset password"; "forgot password"; "réinitialiser mot de passe";
    "j ai oublié mot de passe"; "mot de passe oublié"; "نسيت كلمة السر"]%string |}.

Definition faq_20 : faq :=
  {| id := 20;
     category := u "exams";
     question := u "When are the exam periods?";
     answers :=
     [(u "en",
       u "**Exam Periods (typical Algerian academic calendar):**

🍂 Fall Semester: Midterm exams (November) | Final exams (January) | Makeup/Resit (February)
🌸 Spring Semester: Midterm exams (April) | Final exams (June) | Makeup/Resit (July)
☀️ Summer session: Final exams (August/September)

📅 Official exam schedules are posted 2-3 weeks before exams on {portal_url}.
Results are published within 1-2 weeks after exams.
📧 Academic affairs: {email_academic}");
      (u "ar",
       u "**فترات الامتحانات (التقويم الأكاديمي الجزائري المعتاد):**

🍂 الفصل الخريفي: اختبارات منتصف الفصل (نوفمبر) | نهائي (يناير) | استدراكي (فبراير)
🌸 الفصل الربيعي: اختبارات منتصف الفصل (أبريل) | نهائي (يونيو) | استدراكي (يوليو)
☀️ الدورة الصيفية: نهائي (أغسطس/سبتمبر)

📅 تُنشر جداول الامتحانات الرسمية قبل 2-3 أسابيع على {portal_url}.
تُعلن النتائج خلال 1-2 أسبوع بعد الامتحانات.
📧 الشؤون الأكاديمية: {email_academic}");
      (u "fr",
       u "**Périodes d'examens (calendrier académique algérien type):**

🍂 Semestre d'automne: Partiels (novembre) | Examens finals (janvier) | Rattrapages (février)
🌸 Semestre de printemps: Partiels (avril) | Examens finals (juin) | Rattrapages (juillet)
☀️ Session d'été: Examens finals (août/septembre)

📅 Les emplois du temps officiels sont publiés 2-3 semaines avant les examens sur {portal_url}.
Les résultats sont publiés dans les 1-2 semaines suivant les examens.
📧 Affaires académiques: {email_academic}")];
     keywords := map u
   ["exam"; "test"; "final"; "schedule"; "when"; "period"; "examen";
    "examens"; "quand"; "date"; "امتحان"; "الاختبار"; "موعد الامتحان";
    "امتحانات"; "متى الامتحان"; "جدول الامتحانات"]%string;
     variants := map u
   ["exam schedule"; "when are exams"; "calendrier des examens";
    "quand sont les examens"; "مواعيد الامتحانات"; "متى الامتحانات"]%string |}.

Definition faq_21 : faq :=
  {| id := 21;
     category := u "exams";
     question := u "What should I bring to exams?";
     answers :=
     [(u "en",
       u "**Exam Checklist:**

✅ Required: Student ID (no ID = no entry!), blue/black pens, pencils, eraser
✅ If allowed by instructor: non-programmable calculator, ruler
✅ Recommended: clear water bottle, extra pens, watch

❌ Strictly prohibited: mobile phones, smart watches, notes/books (unless open-book),
   programmable calculators, earphones, any communication device

Arrive at least 15 minutes early.
Entry is typically denied if you arrive more than 15 minutes late.
Good luck! 🍀");
      (u "ar",
       u "**قائمة مستلزمات الامتحان:**

✅ إلزامي: بطاقة الطالب (بدون بطاقة = لا دخول!)، أقلام حبر أزرق/أسود، أقلام رصاص، ممحاة
✅ إذا أجاز الأستاذ: آلة حاسبة غير قابلة للبرمجة، مسطرة
✅ موصى به: زجاجة ماء شفافة، أقلام احتياطية، ساعة

❌ محظور تماماً: الهاتف المحمول، الساعة الذكية، الأوراق والكتب (إلا إذا كان الامتحان مفتوحاً),
   الآلات الحاسبة القابلة للبرمجة، سماعات الأذن، أي جهاز تواصل

احضر قبل 15 دقيقة على الأقل.
عادةً يُمنع الدخول إذا تأخرت أكثر من 15 دقيقة.
بالتوفيق! 🍀");
      (u "fr",
       u "**Liste pour l'examen:**

✅ Obligatoire: carte étudiant (sans carte = pas d'entrée!), stylos bleu/noir, crayons, gomme
✅ Si autorisé par l'enseignant: calculatrice non programmable, règle
✅ Recommandé: bouteille d'eau transparente, stylos de rechange, montre

❌ Strictement interdit: téléphone portable, montre connectée, notes/livres (sauf examen ouvert),
   calculatrice programmable, écouteurs, tout appareil de communication

Arrivez au moins 15 minutes à l'avance.
L'entrée est généralement refusée après 15 minutes de retard.
Bonne chance! 🍀")];
     keywords := map u
   ["exam"; "bring"; "required"; "allowed"; "need"; "apporter"; "ماذا أحضر";
    "مستلزمات"; "ما أحتاج"]%string;
     variants := map u
   ["what to bring to exam"; "exam requirements"; "quoi apporter à l'examen";
    "ماذا أحضر للامتحان"]%string |}.

Definition faq_22 : faq :=
  {| id := 22;
     category := u "contact";
     question := u "How can I contact the university?";
     answers :=
     [(u "en",
       u "**{university_name} – Contact Information:**

📍 {address}
🌐 {website}
📧 General: {email_general}
☎  {phone_main}

Key contacts:
- Registrar: {email_registrar}
- Finance: {email_finance}
- IT Support: {email_it}
- Student Affairs: {email_student}
- Financial Aid: {email_financial_aid}
- Library: {email_library}

Office hours: Sunday–Thursday 8AM–4PM (closed Fri–Sat)
Reduced hours during Ramadan.");
      (u "ar",
       u "**{university_name_ar} – معلومات الاتصال:**

📍 {address}
🌐 {website}
📧 عام: {email_general}
☎  {phone_main}

جهات الاتصال الرئيسية:
- شؤون التسجيل: {email_registrar}
- الشؤون المالية: {email_finance}
- الدعم التقني: {email_it}
- شؤون الطلاب: {email_student}
- المنح الدراسية: {email_financial_aid}
- المكتبة: {email_library}

أوقات العمل: الأحد–الخميس 8ص–4م (مغلق الجمعة–السبت)
ساعات مختصرة خلال رمضان.");
      (u "fr",
       u "**{university_name_fr} – Coordonnées:**

📍 {address}
🌐 {website}
📧 Général: {email_general}
☎  {phone_main}

Contacts clés:
- Registraire: {email_registrar}
- Finance: {email_finance}
- Support IT: {email_it}
- Scolarité: {email_student}
- Bourses: {email_financial_aid}
- Bibliothèque: {email_library}

Horaires: Dimanche–Jeudi 8h–16h (fermé Ven–Sam)
Horaires réduits pendant le Ramadan.")];
     keywords := map u
   ["contact"; "phone"; "email"; "reach"; "call"; "address"; "contacter";
    "coordonnées"; "تواصل"; "رقم"; "بريد"]%string;
     variants := map u
   ["contact university"; "phone number"; "contacter l'université";
    "كيف أتواصل"]%string |}.

Definition _FAQS : list faq :=
  [faq_1; faq_2; faq_3; faq_4; faq_5; faq_6; faq_7; faq_8; faq_9; faq_10; faq_11;
   faq_12; faq_13; faq_14; faq_15; faq_16; faq_17; faq_18; faq_19; faq_20; faq_21;
   faq_22].

(** The singleton [faq_matcher = FAQMatcher()]. *)
Definition faq_matcher : FAQMatcher := {| faqs := _FAQS |}.

(* ===================================================================== *)
(** ** faq_service.py: the public API *)
(* ===================================================================== *)

(** The two dictionaries [search_faq] returns. *)
Inductive faq_reply :=
| Found (answer question_ : str) (confidence : float) (category_ : str) (language : lang)
| NotFound (language : lang) (message : str).

(** [search_faq(query, university)]. *)
Definition search_faq (U : unicode_tables) (query : str) (university : option University)
  : result faq_reply :=
  let lang := detect_language U query in
  match find_best_match U faq_matcher query DEFAULT_BEST_THRESHOLD with
  | TypeError => TypeError
  | Ok None => Ok (NotFound lang (u "No FAQ match found. AI will respond."))
  | Ok (Some m) =>
      let f := mr_faq m in
      let raw_answer :=
        or_else (dict_get (answers f) (lang_code lang))
                (default [] (dict_get (answers f) (u "en"))) in
      let ph := build_placeholders university in
      Ok (Found (fill raw_answer ph) (question f) (mr_confidence m) (mr_category m) lang)
  end.

(** The answer of a reply, empty when nothing was found. *)
Definition answer_of (r : result faq_reply) : str :=
  match r with
  | Ok (Found a _ _ _ _) => a
  | _ => []
  end.

(** In every answer template of [_FAQS], every opening brace starts the
    token of a placeholder key. *)
Definition templates_well_formed : bool :=
  forallb (fun f => forallb (fun kv => braces_open_tokens (map token PLACEHOLDER_KEYS) (snd kv))
                            (answers f))
          _FAQS.

(* ===================================================================== *)
(** ** telegram_bot.py: /start, /reset, skip and the callback router *)
(* ===================================================================== *)

(** An exception that leaves a handler. *)
Inductive exception := KeyError | ValueError | IndexError.

(** What a call produces: a value, or an exception that is not caught. *)
Inductive outcome (A : Type) :=
| Returned (x : A)
| Raised (e : exception).
Arguments Returned {A} x.
Arguments Raised {A} e.

(** Truthiness of a nullable string: [None] and the empty string are falsy. *)
Definition truthy_str (o : option str) : bool :=
  match o with Some (_ :: _) => true | _ => false end.

(** What the selection flow writes in a session. *)
Definition selection (s : session)
  : option Z * option str * option Z * option str * option Z * option str :=
  (university_id s, university_name s, faculty_id s, faculty_name s,
   department_id s, department_name s).

(** [_session_summary(user_id)]. *)
Definition _session_summary (sessions : gmap Z session) (user_id : Z) : str :=
  let lines :=
    match sessions !! user_id with
    | None => []
    | Some s =>
        (if truthy_str (university_name s)
         then [u "🏛 University : " ++ fmt_opt (university_name s)] else [])
        ++ (if truthy_str (faculty_name s)
            then [u "🏫 Faculty    : " ++ fmt_opt (faculty_name s)] else [])
        ++ (if truthy_str (department_name s)
            then [u "📂 Department : " ++ fmt_opt (department_name s)] else [])
    end in
  match lines with
  | [] => u "No active session."
  | _ => join nl lines
  end.

(** [_build_university_keyboard(app)] on the rows
    [University.query.filter_by(is_active=True).order_by(University.name).all()]. *)
Definition _build_university_keyboard (unis : list University) : option keyboard :=
  match unis with
  | [] => None
  | _ =>
      Some (map (fun x => [Button (u "🏛 " ++ fmt_opt (u_name x)
                                   ++ (if truthy_str (u_city x)
                                       then u "  (" ++ fmt_opt (u_city x) ++ u ")"
                                       else []))
                                  (CALLBACK_UNI ++ u "_" ++ str_of_int (u_id x))])
                unis)
  end.

Definition MSG_NO_UNIVERSITIES : str :=
  u "⚠️ No universities are currently available. Please try again later.".

Definition MSG_START_FAILED : str :=
  u "❌ Something went wrong. Please try /start again.".

Definition MSG_WELCOME : str :=
  u "🎓 *Welcome to the University Academic Chatbot!*" ++ nl ++ nl
  ++ u "I can help you with course registration, grades, fees, campus facilities, "
  ++ u "exams, and more." ++ nl ++ nl
  ++ u "*Step 1 of 3 — Please select your university:*".

(** [start_command(update, context)].  [unis] is the result of the query
    for the active universities, [None] when the query raises. *)
Definition start_command (now : Z) (unis : option (list University))
    (sessions : gmap Z session) (user_id : Z) : reply * gmap Z session :=
  let sessions1 := <[user_id := _new_session now]> sessions in
  match unis with
  | None => (plain MSG_START_FAILED, sessions1)
  | Some rows =>
      match _build_university_keyboard rows with
      | None => (plain MSG_NO_UNIVERSITIES, sessions1)
      | Some markup => (markdown MSG_WELCOME (Some markup), sessions1)
      end
  end.

(** [_handle_skip_department(query, user_id)].  The handler has no [try]:
    without a session the KeyError leaves it. *)
Definition _handle_skip_department (sessions : gmap Z session) (user_id : Z)
  : outcome (reply * gmap Z session) :=
  match sessions !! user_id with
  | None => Raised KeyError
  | Some s =>
      let s1 := set_department None None s in
      Returned
        (markdown (u "✅ *Setup complete!*" ++ nl ++ nl
                   ++ u "🏛 *University :* " ++ fmt_opt (university_name s1) ++ nl
                   ++ u "🏫 *Faculty    :* " ++ fmt_opt (faculty_name s1) ++ nl
                   ++ u "📂 *Department :* Not specified" ++ nl ++ nl
                   ++ u "I'm ready to help you. Ask me anything!" ++ nl ++ nl
                   ++ u "_Use /status to review your selection or /reset to start over._")
                  None,
         <[user_id := s1]> sessions)
  end.

(* ===================================================================== *)
(** ** [int(s)] for a string *)
(* ===================================================================== *)

(** The C-locale white space that the integer parser skips. *)
Definition ascii_space (c : codepoint) : bool :=
  ((9 <=? c) && (c <=? 13) || (c =? 32))%N.

Definition ascii_digit (c : codepoint) : bool := ((48 <=? c) && (c <=? 57))%N.

Section IntOfStr.

(** [to_decimal c] is the value of [c] as a Unicode decimal digit, asked
    only for characters from U+007F on; [max_str_digits] is the
    interpreter's limit on the number of digits, 0 for none. *)
Context (to_decimal : codepoint -> option N) (max_str_digits : nat).

(** The characters are first brought to ASCII: white space becomes a
    blank, a decimal digit its ASCII digit, anything else a question mark. *)
Definition to_ascii (c : codepoint) : codepoint :=
  if (c <? 127)%N then c
  else if isspace c then 32%N
  else match to_decimal c with
       | Some d => (48 + d)%N
       | None => 63%N
       end.

Fixpoint skip_spaces (s : str) : str :=
  match s with
  | c :: r => if ascii_space c then skip_spaces r else s
  | [] => []
  end.

(** The digits, with single underscores between them: the value, the
    number of digits and what follows, or [None] for a doubled or trailing
    underscore.  [prev] tells whether the previous character was an
    underscore. *)
Fixpoint scan_digits (prev : bool) (acc : Z) (digits : nat) (s : str)
  : option (Z * nat * str) :=
  match s with
  | c :: r =>
      if ascii_digit c then scan_digits false (10 * acc + (Z.of_N c - 48)) (S digits) r
      else if (c =? 95)%N then
        if prev then None else scan_digits true acc digits r
      else if prev then None else Some (acc, digits, s)
  | [] => if prev then None else Some (acc, digits, [])
  end.

(** [int(s)]: [None] stands for ValueError. *)
Definition py_int (s : str) : option Z :=
  let b := skip_spaces (map to_ascii s) in
  let '(negative, b) :=
    match b with
    | c :: r => if (c =? 43)%N then (false, r)
                else if (c =? 45)%N then (true, r)
                else (false, b)
    | [] => (false, b)
    end in
  match b with
  | c :: _ => if (c =? 95)%N then None else
      match scan_digits false 0 0 b with
      | None => None
      | Some (v, digits, rest) =>
          if (digits =? 0)%nat then None
          else if (0 <? max_str_digits)%nat && (640 <? digits)%nat
                  && (max_str_digits <? digits)%nat then None
          else match skip_spaces rest with
               | [] => Some (if negative then - v else v)
               | _ => None
               end
      end
  | [] => None
  end.

(** [s.split(sep, 1)] for a one-character separator. *)
Fixpoint split_once_from (sep : codepoint) (cur : str) (s : str) : list str :=
  match s with
  | [] => [rev cur]
  | c :: r => if (c =? sep)%N then [rev cur; r] else split_once_from sep (c :: cur) r
  end.

Definition split_once (sep : codepoint) (s : str) : list str :=
  split_once_from sep [] s.

(** [int(data.split("_", 1)[1])]. *)
Definition callback_id (data : str) : outcome Z :=
  match split_once 95%N data with
  | _ :: id_text :: _ =>
      match py_int id_text with
      | Some i => Returned i
      | None => Raised ValueError
      end
  | _ => Raised IndexError
  end.

Definition MSG_UNKNOWN_ACTION : str := u "❓ Unknown action. Please /start again.".

(** [callback_router(update, context)]. *)
Definition callback_router (db : directory) (sessions : gmap Z session)
    (user_id : Z) (data : str) : outcome (reply * gmap Z session) :=
  if startswith (CALLBACK_UNI ++ u "_") data then
    match callback_id data with
    | Returned uni_id => Returned (_handle_university_selected db sessions user_id uni_id)
    | Raised e => Raised e
    end
  else if startswith (CALLBACK_FAC ++ u "_") data then
    match callback_id data with
    | Returned fac_id => Returned (_handle_faculty_selected db sessions user_id fac_id)
    | Raised e => Raised e
    end
  else if startswith (CALLBACK_DEPT ++ u "_") data then
    match callback_id data with
    | Returned dept_id => Returned (_handle_department_selected db sessions user_id dept_id)
    | Raised e => Raised e
    end
  else if str_eqb data CALLBACK_SKIP then _handle_skip_department sessions user_id
  else Returned (plain MSG_UNKNOWN_ACTION, sessions).

End IntOfStr.

(* ===================================================================== *)
(** ** telegram_bot.py: /reset *)
(* ===================================================================== *)

(** [float(n)] for an integer of either sign, and [n / d] for a positive
    [d]: the quotient rounded to the nearest float. *)
Definition true_div (n d : Z) : float :=
  if n =? 0 then 0%float
  else if n <? 0 then (- nearest_float (- n) d)%float
  else nearest_float n d.

(** [int(x)] for a float: the integer part. *)
Definition int_of_float (x : float) : Z :=
  match Prim2SF x with
  | S754_finite s m e =>
      let v := if 0 <=? e then Z.pos m * 2 ^ e else Z.pos m / 2 ^ (- e) in
      if s then - v else v
  | _ => 0
  end.

(** [int((now - start).total_seconds() / 60)], with the two times in
    microseconds. *)
Definition minutes_between (now start : Z) : Z :=
  int_of_float (true_div (now - start) 1000000 / 60)%float.

(** The lines of the farewell summary. *)
Definition reset_lines (now : Z) (s : option session) : list str :=
  match s with
  | None => []
  | Some s =>
      (if truthy_str (university_name s)
       then [u "🏛 " ++ fmt_opt (university_name s)] else [])
      ++ (if truthy_str (faculty_name s)
             && negb (str_eqb (fmt_opt (faculty_name s)) (u "N/A"))
          then [u "🏫 " ++ fmt_opt (faculty_name s)] else [])
      ++ (if truthy_str (department_name s)
             && negb (str_eqb (fmt_opt (department_name s)) (u "N/A"))
          then [u "📂 " ++ fmt_opt (department_name s)] else [])
      ++ [u "⏱ Session lasted " ++ str_of_int (minutes_between now (session_start s))
          ++ u " minute(s)"]
  end.

(** [reset_command(update, context)]. *)
Definition reset_command (now : Z) (sessions : gmap Z session) (user_id : Z)
  : reply * gmap Z session :=
  let lines := reset_lines now (sessions !! user_id) in
  let summary := match lines with
                 | [] => u "No previous session."
                 | _ => join nl lines
                 end in
  (markdown (u "🔄 *Session reset.*" ++ nl ++ nl ++ summary ++ nl ++ nl
             ++ u "Use /start to select your university and begin a new session.")
            None,
   <[user_id := _new_session now]> sessions).

(** [help_command(update, context)]. *)
Definition help_command (sessions : gmap Z session) (user_id : Z) : reply :=
  markdown (u "🤖 *University Academic Chatbot — Help*" ++ nl ++ nl
            ++ u "*Your current session:*" ++ nl ++ _session_summary sessions user_id
            ++ nl ++ nl
            ++ u "*What I can help with:*" ++ nl
            ++ u "📚 Course registration & enrollment" ++ nl
            ++ u "💰 Tuition fees & payments" ++ nl
            ++ u "📊 Grades & academic records" ++ nl
            ++ u "🏢 Campus facilities & services" ++ nl
            ++ u "📝 Exams & schedules" ++ nl
            ++ u "🎫 Student services & ID cards" ++ nl ++ nl
            ++ u "*Commands:*" ++ nl
            ++ u "/start  — Select university › faculty › department" ++ nl
            ++ u "/status — Show your current session details" ++ nl
            ++ u "/reset  — Clear session and start over" ++ nl
            ++ u "/help   — Show this message" ++ nl ++ nl
            ++ u "💬 Supports Arabic, English and French.")
           None.

Definition MSG_NO_ACTIVE_SESSION : str :=
  u "❌ No active session." ++ nl ++ u "Use /start to set up your profile.".

(** [status_command(update, context)]. *)
Definition status_command (now : Z) (sessions : gmap Z session) (user_id : Z) : reply :=
  match sessions !! user_id with
  | None => plain MSG_NO_ACTIVE_SESSION
  | Some s =>
      if negb (truthy_int (university_id s)) then plain MSG_NO_ACTIVE_SESSION
      else
        let minutes := minutes_between now (session_start s) in
        let msg_count := Z.of_nat (length (history s)) in
        markdown (u "📊 *Session Status*" ++ nl ++ nl
                  ++ u "🏛 University  : " ++ fmt_opt (university_name s) ++ nl
                  ++ u "🏫 Faculty     : "
                  ++ or_else (faculty_name s) (u "Not selected") ++ nl
                  ++ u "📂 Department  : "
                  ++ or_else (department_name s) (u "Not selected") ++ nl
                  ++ u "⏱ Duration    : " ++ str_of_int minutes ++ u " minute(s)" ++ nl
                  ++ u "💬 Messages    : " ++ str_of_int (msg_count / 2)
                  ++ u " exchange(s)" ++ nl ++ nl
                  ++ u "_Use /reset to start a new session._")
                 None
  end.

(* ===================================================================== *)
(** ** telegram_bot.py: the registered handlers *)
(* ===================================================================== *)

(** An incoming update, by the handler [create_telegram_application]
    registers for it. *)
Inductive update :=
| CmdStart
| CmdHelp
| CmdReset
| CmdStatus
| CallbackQuery (data : str)
| TextMessage (text : str).

(** What the bot finds around it while it handles one update: the clock,
    the database and the services. *)
Record world := {
  w_now : Z;
  w_db : directory;
  w_universities : option (list University);
  w_to_decimal : codepoint -> option N;
  w_max_str_digits : nat;
  w_university_context : option Z -> option (option str);
  w_search_knowledge : str -> option Z -> nat -> option (list kb_entry);
  w_generate : list turn -> option str -> option str -> option str
}.

(** One update handled: the reply, if one is sent, and the store after.
    An exception that leaves [callback_router] is logged by
    [error_handler]; no message is sent or edited. *)
Definition handle_update (w : world) (sessions : gmap Z session) (user_id : Z)
    (upd : update) : option reply * gmap Z session :=
  match upd with
  | CmdStart =>
      let '(r, ss) := start_command (w_now w) (w_universities w) sessions user_id in
      (Some r, ss)
  | CmdHelp => (Some (help_command sessions user_id), sessions)
  | CmdReset =>
      let '(r, ss) := reset_command (w_now w) sessions user_id in (Some r, ss)
  | CmdStatus => (Some (status_command (w_now w) sessions user_id), sessions)
  | CallbackQuery data =>
      match callback_router (w_to_decimal w) (w_max_str_digits w) (w_db w)
                            sessions user_id data with
      | Returned (r, ss) => (Some r, ss)
      | Raised _ => (None, sessions)
      end
  | TextMessage text =>
      let '(t, ss) := handle_message (w_university_context w) (w_search_knowledge w)
                                     (w_generate w) (w_now w) sessions user_id text in
      (Some (plain t), ss)
  end.

(** A run of the bot: the updates in the order they are handled, each with
    the world at that time and the user it comes from. *)
Record event := Event { ev_world : world; ev_user : Z; ev_update : update }.

Definition run (sessions : gmap Z session) (events : list event) : gmap Z session :=
  fold_left (fun ss e => snd (handle_update (ev_world e) ss (ev_user e) (ev_update e)))
            events sessions.

(* ===================================================================== *)
(** ** faq_service.py: the catalog and the derived addresses *)
(* ===================================================================== *)

(** Every entry of [_FAQS] has a non-empty answer in each of the three
    languages. *)
Definition answers_complete : bool :=
  forallb (fun f => forallb (fun l => match dict_get (answers f) (lang_code l) with
                                      | Some (_ :: _) => true
                                      | _ => false
                                      end)
                            [Ar; Fr; En])
          _FAQS.

(** The addresses [build_placeholders] derives with [sub]: the key and the
    mailbox name. *)
Definition ROLE_MAILBOXES : list (str * str) :=
  [ (u "email_registrar",     u "registrar");
    (u "email_finance",       u "finance");
    (u "email_it",            u "itsupport");
    (u "email_student",       u "studentaffairs");
    (u "email_financial_aid", u "financialaid");
    (u "email_housing",       u "housing");
    (u "email_library",       u "library");
    (u "email_academic",      u "academic") ].

(** The number of [@] in a string. *)
Definition at_signs (s : str) : nat := length (filter (fun c => c = 64%N) s).

(* ===================================================================== *)
(** ** Concrete inputs used by the examples *)
(* ===================================================================== *)

Module Examples.

(** A university with no faculty registered, one with a faculty, and an
    inactive one. *)
Definition uni_small : University :=
  {| u_id := 1; u_name := Some (u "Batna 2 University"); u_name_ar := None;
     u_city := Some (u "Batna"); u_website := None; u_email := None;
     u_phone := None; u_address := None; u_is_active := Some true |}.

Definition uni_large : University :=
  {| u_id := 2; u_name := Some (u "USTHB"); u_name_ar := None;
     u_city := Some (u "Algiers"); u_website := None;
     u_email := Some (u "contact@usthb.dz");
     u_phone := None; u_address := None; u_is_active := Some true |}.

Definition uni_closed : University :=
  {| u_id := 3; u_name := Some (u "Closed University"); u_name_ar := None;
     u_city := None; u_website := None; u_email := None;
     u_phone := None; u_address := None; u_is_active := Some false |}.

Definition fac_sciences : Faculty :=
  {| f_id := 10; f_name := u "Sciences"; f_university_id := 2;
     f_is_active := Some true |}.

Definition fac_closed : Faculty :=
  {| f_id := 11; f_name := u "Letters"; f_university_id := 2;
     f_is_active := None |}.

Definition db : directory :=
  {| university_get := fun i =>
       if i =? 1 then Some uni_small
       else if i =? 2 then Some uni_large
       else if i =? 3 then Some uni_closed else None;
     faculty_get := fun i =>
       if i =? 10 then Some fac_sciences
       else if i =? 11 then Some fac_closed else None;
     department_get := fun _ => None;
     active_faculties := fun i => if i =? 2 then [fac_sciences] else [];
     active_departments := fun _ => [] |}.

(** The store right after [/start] by user 7 at time 0. *)
Definition started : gmap Z session := <[7 := _new_session 0]> ∅.

(** The store after user 7 has chosen university 2, which has a faculty:
    the faculty is still to be chosen. *)
Definition awaiting_faculty : gmap Z session :=
  snd (_handle_university_selected db started 7 2).

(** Eleven appends by user 7. *)
Definition call (n : Z) : append_call :=
  AppendCall n 7 (if Z.even n then u "assistant" else u "user") (str_of_int n).

Definition eleven_calls : list append_call :=
  map call [1; 2; 3; 4; 5; 6; 7; 8; 9; 10; 11].

(** Collaborators that always answer. *)
Definition ctx_none (_ : option Z) : option (option str) := Some None.
Definition kb_none (_ : str) (_ : option Z) (_ : nat) : option (list kb_entry) := Some [].
Definition gen_echo (h : list turn) (_ _ : option str) : option str :=
  Some (u "ok").

(** Python's [str.lower()] and [str.isalnum()] on Basic Latin, Latin-1
    Supplement and the Arabic block U+0600 to U+06FF.  Outside these blocks
    the tables below leave a character unchanged and class it as not
    alphanumeric; the examples keep their texts inside. *)
Definition lower_cp (c : codepoint) : codepoint :=
  (if (65 <=? c) && (c <=? 90) then c + 32
   else if (192 <=? c) && (c <=? 222) && negb (c =? 215) then c + 32
   else c)%N.

Definition in_range (lo hi c : N) : bool := ((lo <=? c) && (c <=? hi))%N.

Definition isalnum_cp (c : codepoint) : bool :=
  in_range 48 57 c || in_range 65 90 c || in_range 97 122 c
  || (c =? 170)%N || in_range 178 179 c || (c =? 181)%N || in_range 185 186 c
  || in_range 188 190 c || in_range 192 214 c || in_range 216 246 c
  || in_range 248 255 c
  || in_range 1568 1610 c || in_range 1632 1641 c || in_range 1646 1647 c
  || in_range 1649 1747 c || (c =? 1749)%N || in_range 1765 1766 c
  || in_range 1774 1788 c || (c =? 1791)%N.

Definition tables : unicode_tables :=
  {| str_lower := map lower_cp; isalnum := isalnum_cp |}.

(** A snapshot with no city on record. *)
Definition uni_no_city : University :=
  {| u_id := 4; u_name := Some (u "Université de Béjaïa"); u_name_ar := None;
     u_city := None; u_website := Some (u "https://www.univ-bejaia.dz");
     u_email := Some (u "contact@univ-bejaia.dz");
     u_phone := Some (u "+213 34 81 68 00"); u_address := None;
     u_is_active := Some true |}.

(** A snapshot whose address is the text of a token. *)
Definition uni_braces : University :=
  {| u_id := 5; u_name := Some (u "Université de Sétif"); u_name_ar := None;
     u_city := Some (u "Sétif"); u_website := None; u_email := None;
     u_phone := None; u_address := Some (u "{university_name}");
     u_is_active := Some true |}.

(** A catalog in which the contact entry occurs twice, the second time
    under another id. *)
Definition faq_22_twin : faq :=
  {| id := 99; category := category faq_22; question := question faq_22;
     answers := answers faq_22; keywords := keywords faq_22;
     variants := variants faq_22 |}.

Definition twin_matcher : FAQMatcher := {| faqs := [faq_1; faq_22; faq_22_twin] |}.

End Examples.

(** Further concrete inputs. *)
Module MoreExamples.

(** A session with both selections made and two turns of history. *)
Definition ready_session : session :=
  Session (Some 2) (Some (u "Université de Béjaïa")) (Some 10) (Some (u "Sciences"))
          None None 0
          [Turn (u "user") (u "hi"); Turn (u "assistant") (u "hi")].

Definition ready : gmap Z session := <[7 := ready_session]> (<[8 := _new_session 1]> ∅).

(** A generator that raises. *)
Definition gen_fails (h : list turn) (university_context knowledge_context : option str)
  : option str := None.

(** A directory in which the faculty of sciences has two departments. *)
Definition dept_maths : Department :=
  {| d_id := 100; d_name := u "Mathematics"; d_faculty_id := 10;
     d_is_active := Some true |}.

Definition dept_physics : Department :=
  {| d_id := 101; d_name := u "Physics"; d_faculty_id := 10;
     d_is_active := Some true |}.

Definition db : directory :=
  {| university_get := university_get Examples.db;
     faculty_get := faculty_get Examples.db;
     department_get := fun i =>
       if i =? 100 then Some dept_maths
       else if i =? 101 then Some dept_physics else None;
     active_faculties := active_faculties Examples.db;
     active_departments := fun i => if i =? 10 then [dept_maths; dept_physics] else [] |}.

(** No character beyond ASCII counts as a digit. *)
Definition no_decimal (c : codepoint) : option N := None.

(** A day of updates from users 7 and 8. *)
Definition world_at (now : Z) : world :=
  {| w_now := now; w_db := db;
     w_universities := Some [Examples.uni_small; Examples.uni_large];
     w_to_decimal := no_decimal; w_max_str_digits := 4300;
     w_university_context := Examples.ctx_none;
     w_search_knowledge := Examples.kb_none;
     w_generate := Examples.gen_echo |}.

Definition busy_day : list event :=
  [ Event (world_at 0) 8 (TextMessage (u "hello"));
    Event (world_at 1) 7 CmdStart;
    Event (world_at 2) 7 (CallbackQuery (u "uni_2"));
    Event (world_at 3) 7 (CallbackQuery (u "fac_10"));
    Event (world_at 4) 7 (CallbackQuery (u "skip_dept"));
    Event (world_at 5) 7 (TextMessage (u "one"));
    Event (world_at 6) 7 (TextMessage (u "two"));
    Event (world_at 7) 7 (TextMessage (u "three"));
    Event (world_at 8) 7 (TextMessage (u "four"));
    Event (world_at 9) 7 (TextMessage (u "five"));
    Event (world_at 10) 7 (TextMessage (u "six"));
    Event (world_at 11) 8 (CallbackQuery (u "uni_x"));
    Event (world_at 12) 8 CmdStatus ].

(** The word marhaba written with the presentation forms of its letters:
    U+FEE3, U+FEAE, U+FEA3, U+FE92, U+FE8E, five Arabic letters of the
    block U+FE70 to U+FEFF. *)
Definition marhaba_forms : str := u "ﻣﺮﺣﺒﺎ".

(** The tables of [Examples.tables] extended to that block: [str.lower()]
    leaves its characters unchanged, and [str.isalnum()] holds of U+FE70 to
    U+FE74 and U+FE76 to U+FEFC. *)
Definition tables_forms : unicode_tables :=
  {| str_lower := map Examples.lower_cp;
     isalnum := fun c => Examples.isalnum_cp c
                         || Examples.in_range 65136 65140 c
                         || Examples.in_range 65142 65276 c |}.

End MoreExamples.

(* ===================================================================== *)
(** * Verified properties *)
(* ===================================================================== *)

(** ** The order of floats *)

Lemma SFcompare_key x y :
  SFcompare x y = key_compare (sf_key x) (sf_key y).
Proof.
  destruct x as [sx|sx| |sx mx ex], y as [sy|sy| |sy my ey];
    try destruct sx; try destruct sy; try reflexivity.
  cbn [SFcompare sf_key key_compare]. unfold lex_compare. cbn [fst snd].
  rewrite !Z.compare_opp. rewrite (Z.compare_antisym ey ex).
    destruct (ey ?= ex); cbn [CompOpp]; try reflexivity.
    change (Z.pos my ?= Z.pos mx) with (my ?= mx)%positive.
    rewrite (Pos.compare_antisym mx my). reflexivity.
Qed.

Lemma lex_compare_lt a b : lex_compare a b = Lt <-> lex_lt a b.
Proof.
  unfold lex_compare, lex_lt.
  destruct (Z.compare_spec (fst (fst a)) (fst (fst b)));
  destruct (Z.compare_spec (snd (fst a)) (snd (fst b)));
  destruct (Z.compare_spec (snd a) (snd b)); split; intros; try discriminate; try lia; try reflexivity.
Qed.

Lemma lex_compare_gt a b : lex_compare a b = Gt <-> lex_lt b a.
Proof.
  unfold lex_compare, lex_lt.
  destruct (Z.compare_spec (fst (fst a)) (fst (fst b)));
  destruct (Z.compare_spec (snd (fst a)) (snd (fst b)));
  destruct (Z.compare_spec (snd a) (snd b)); split; intros; try discriminate; try lia; try reflexivity.
Qed.

Lemma lex_compare_eq a b : lex_compare a b = Eq <-> a = b.
Proof.
  unfold lex_compare. destruct a as [[a1 a2] a3], b as [[b1 b2] b3]. cbn [fst snd].
  destruct (Z.compare_spec a1 b1);
  destruct (Z.compare_spec a2 b2);
  destruct (Z.compare_spec a3 b3); split; intros; try discriminate; try congruence;
  try reflexivity; try (exfalso; assert (a1 = b1 /\ a2 = b2 /\ a3 = b3) by (repeat split; congruence); lia).
Qed.

Lemma some_pair_ex {A} (a b : A) (P : A -> A -> Prop) :
  (exists a' b', Some a = Some a' /\ Some b = Some b' /\ P a' b') <-> P a b.
Proof.
  split.
  - intros (a' & b' & Ha & Hb & H). injection Ha as <-. injection Hb as <-. exact H.
  - intros H. exists a, b. auto.
Qed.

Lemma none_pair_ex {A} (x y : option A) (P : A -> A -> Prop) :
  x = None \/ y = None ->
  (exists a' b', x = Some a' /\ y = Some b' /\ P a' b') <-> false = true.
Proof.
  intros H. split; [| discriminate].
  intros (a' & b' & Ha & Hb & _). destruct H; congruence.
Qed.

Lemma ltb_key x y :
  (x <? y)%float = true <->
  exists a b, fkey x = Some a /\ fkey y = Some b /\ lex_lt a b.
Proof.
  rewrite FloatAxioms.ltb_spec. unfold SFltb, fkey. rewrite SFcompare_key.
  destruct (sf_key (Prim2SF x)) as [a|], (sf_key (Prim2SF y)) as [b|]; cbn [key_compare].
  - rewrite (some_pair_ex a b lex_lt), <- lex_compare_lt.
    destruct (lex_compare a b); split; congruence.
  - rewrite none_pair_ex by auto. reflexivity.
  - rewrite none_pair_ex by auto. reflexivity.
  - rewrite none_pair_ex by auto. reflexivity.
Qed.

Lemma eqb_key x y :
  (x =? y)%float = true <->
  exists a b, fkey x = Some a /\ fkey y = Some b /\ a = b.
Proof.
  rewrite FloatAxioms.eqb_spec. unfold SFeqb, fkey. rewrite SFcompare_key.
  destruct (sf_key (Prim2SF x)) as [a|], (sf_key (Prim2SF y)) as [b|]; cbn [key_compare].
  - rewrite (some_pair_ex a b eq), <- lex_compare_eq.
    destruct (lex_compare a b); split; congruence.
  - rewrite none_pair_ex by auto. reflexivity.
  - rewrite none_pair_ex by auto. reflexivity.
  - rewrite none_pair_ex by auto. reflexivity.
Qed.

Lemma leb_key x y :
  (x <=? y)%float = true <->
  exists a b, fkey x = Some a /\ fkey y = Some b /\ (lex_lt a b \/ a = b).
Proof.
  rewrite FloatAxioms.leb_spec. unfold SFleb, fkey. rewrite SFcompare_key.
  destruct (sf_key (Prim2SF x)) as [a|], (sf_key (Prim2SF y)) as [b|]; cbn [key_compare].
  - rewrite (some_pair_ex a b (fun a b => lex_lt a b \/ a = b)).
    rewrite <- lex_compare_lt, <- lex_compare_eq.
    destruct (lex_compare a b); split; intros H; auto; try discriminate.
    destruct H; discriminate.
  - rewrite none_pair_ex by auto. reflexivity.
  - rewrite none_pair_ex by auto. reflexivity.
  - rewrite none_pair_ex by auto. reflexivity.
Qed.

Lemma lex_lt_trans a b c : lex_lt a b -> lex_lt b c -> lex_lt a c.
Proof. unfold lex_lt. lia. Qed.

Lemma lex_lt_irrefl a : ~ lex_lt a a.
Proof. unfold lex_lt. lia. Qed.

Lemma lex_total a b : lex_lt a b \/ a = b \/ lex_lt b a.
Proof.
  destruct a as [[a1 a2] a3], b as [[b1 b2] b3]. unfold lex_lt. cbn [fst snd].
  destruct (Z.lt_total a1 b1) as [H | [H | H]];
  destruct (Z.lt_total a2 b2) as [H2 | [H2 | H2]];
  destruct (Z.lt_total a3 b3) as [H3 | [H3 | H3]]; subst; try (left; lia);
  try (right; right; lia). right. left. reflexivity.
Qed.

Lemma ltb_trans x y z :
  (x <? y)%float = true -> (y <? z)%float = true -> (x <? z)%float = true.
Proof.
  rewrite !ltb_key. intros (a & b & Ha & Hb & Hab) (b' & c & Hb' & Hc & Hbc).
  rewrite Hb in Hb'. injection Hb' as <-.
  exists a, c. repeat split; try assumption. eapply lex_lt_trans; eassumption.
Qed.

Lemma ltb_asym x y : (x <? y)%float = true -> (y <? x)%float = false.
Proof.
  intros H. destruct (y <? x)%float eqn:E; [| reflexivity].
  pose proof (ltb_trans _ _ _ H E) as Hxx. apply ltb_key in Hxx.
  destruct Hxx as (a & a' & Ha & Ha' & Hl). rewrite Ha in Ha'. injection Ha' as <-.
  destruct (lex_lt_irrefl _ Hl).
Qed.

Lemma ltb_negtrans x y z :
  (x <? y)%float = true -> (x <? z)%float = false -> (y <? z)%float = false.
Proof.
  intros Hxy Hxz. destruct (y <? z)%float eqn:E; [| reflexivity].
  rewrite (ltb_trans _ _ _ Hxy E) in Hxz. discriminate.
Qed.

Lemma leb_trans x y z :
  (x <=? y)%float = true -> (y <=? z)%float = true -> (x <=? z)%float = true.
Proof.
  rewrite !leb_key. intros (a & b & Ha & Hb & Hab) (b' & c & Hb' & Hc & Hbc).
  rewrite Hb in Hb'. injection Hb' as <-.
  exists a, c. repeat split; try assumption.
  destruct Hab as [Hab | ->], Hbc as [Hbc | ->]; auto.
  left. eapply lex_lt_trans; eassumption.
Qed.

Lemma is_number_key x : is_number x = true <-> exists a, fkey x = Some a.
Proof.
  unfold is_number. rewrite eqb_key. split.
  - intros (a & b & Ha & _). eauto.
  - intros (a & Ha). eauto 6.
Qed.

Lemma ltb_is_number x y :
  (x <? y)%float = true -> is_number x = true /\ is_number y = true.
Proof.
  rewrite ltb_key, !is_number_key. intros (a & b & Ha & Hb & _). eauto.
Qed.

Lemma leb_is_number x y :
  (x <=? y)%float = true -> is_number x = true /\ is_number y = true.
Proof.
  rewrite leb_key, !is_number_key. intros (a & b & Ha & Hb & _). eauto.
Qed.

Lemma not_ltb_leb x y :
  is_number x = true -> is_number y = true ->
  (x <? y)%float = false -> (y <=? x)%float = true.
Proof.
  rewrite !is_number_key. intros (a & Ha) (b & Hb) Hlt.
  apply leb_key. exists b, a. repeat split; try assumption.
  destruct (lex_total a b) as [H | [H | H]]; auto.
  assert (Hc : (x <? y)%float = true) by (apply ltb_key; eauto 6).
  congruence.
Qed.

Lemma leb_not_ltb x y : (x <=? y)%float = true -> (y <? x)%float = false.
Proof.
  intros H. destruct (y <? x)%float eqn:E; [| reflexivity].
  apply leb_key in H. apply ltb_key in E.
  destruct H as (a & b & Ha & Hb & Hab), E as (b' & a' & Hb' & Ha' & Hba).
  rewrite Ha in Ha'. rewrite Hb in Hb'. injection Ha' as <-. injection Hb' as <-.
  destruct Hab as [Hab | ->].
  - destruct (lex_lt_irrefl _ (lex_lt_trans _ _ _ Hab Hba)).
  - destruct (lex_lt_irrefl _ Hba).
Qed.

Lemma ltb_eqb_l x y z :
  (x <? y)%float = true -> (x =? z)%float = true -> (y =? z)%float = false.
Proof.
  intros Hlt Heq. destruct (y =? z)%float eqn:E; [| reflexivity].
  apply ltb_key in Hlt. apply eqb_key in Heq. apply eqb_key in E.
  destruct Hlt as (a & b & Ha & Hb & Hab), Heq as (a' & c & Ha' & Hz & ->),
    E as (b' & c' & Hb' & Hz' & ->).
  rewrite Ha in Ha'. rewrite Hb in Hb'. injection Ha' as <-. injection Hb' as <-.
  rewrite Hz in Hz'. injection Hz' as <-. destruct (lex_lt_irrefl _ Hab).
Qed.

Lemma ltb_irrefl x : (x <? x)%float = false.
Proof.
  destruct (x <? x)%float eqn:E; [| reflexivity].
  rewrite (ltb_asym _ _ E) in E. discriminate.
Qed.

Lemma ltb_leb_trans x y z :
  (x <? y)%float = true -> (y <=? z)%float = true -> (x <? z)%float = true.
Proof.
  rewrite !ltb_key, leb_key. intros (a & b & Ha & Hb & Hab) (b' & c & Hb' & Hc & Hbc).
  rewrite Hb in Hb'. injection Hb' as <-.
  exists a, c. repeat split; try assumption.
  destruct Hbc as [Hbc | ->]; [eapply lex_lt_trans; eassumption | assumption].
Qed.

(** ** [SequenceMatcher]: the recursion on ranges terminates within the fuel *)

Section DifflibFuel.

Context (a b : str).

Local Open Scope nat_scope.

Lemma j2len_get_bound (j2len : list (nat * nat)) (v j : nat) :
  Forall (fun p => snd p <= v) j2len -> Difflib.j2len_get j2len j <= v.
Proof.
  intros H. unfold Difflib.j2len_get. destruct j as [|j']; [lia |].
  destruct (find _ j2len) as [p|] eqn:E; [| lia].
  apply find_some in E as [Hin _]. rewrite Forall_forall in H.
  apply H. apply list_elem_of_In. exact Hin.
Qed.

(** One row keeps the block inside the rows read so far. *)
Lemma scan_row_inv (alo blo bhi i v : nat) (j2len : list (nat * nat)) (js : list nat) :
  alo <= i -> v <= i - alo ->
  Forall (fun p => snd p <= v) j2len ->
  forall best,
    alo <= fst (fst best) -> fst (fst best) + snd best <= S i ->
    let out := Difflib.scan_row blo bhi i j2len best js in
    Forall (fun p => snd p <= S v) (fst out)
    /\ alo <= fst (fst (snd out))
    /\ fst (fst (snd out)) + snd (snd out) <= S i.
Proof.
  intros Hi Hv Hj2 best Hb1 Hb2. unfold Difflib.scan_row.
  assert (Hgen : forall st,
            Forall (fun p => snd p <= S v) (fst st) ->
            alo <= fst (fst (snd st)) -> fst (fst (snd st)) + snd (snd st) <= S i ->
            let out := fold_left
                (fun st j =>
                   if (j <? blo) || (bhi <=? j) then st
                   else
                     let k := S (Difflib.j2len_get j2len j) in
                     ((j, k) :: fst st,
                      if snd (snd st) <? k then (S i - k, S j - k, k) else snd st))
                js st in
            Forall (fun p => snd p <= S v) (fst out)
            /\ alo <= fst (fst (snd out))
            /\ fst (fst (snd out)) + snd (snd out) <= S i).
  { induction js as [|j js IH]; intros st H1 H2 H3; [cbn; auto |].
    cbn [fold_left]. apply IH.
    - destruct ((j <? blo) || (bhi <=? j)); [exact H1 |]. cbn [fst].
      apply Forall_cons. split; [| exact H1]. cbn [snd].
      pose proof (j2len_get_bound j2len v j Hj2). lia.
    - destruct ((j <? blo) || (bhi <=? j)); [exact H2 |]. cbn [snd].
      destruct (snd (snd st) <? S (Difflib.j2len_get j2len j)); [| exact H2].
      cbn [fst]. pose proof (j2len_get_bound j2len v j Hj2). lia.
    - destruct ((j <? blo) || (bhi <=? j)); [exact H3 |]. cbn [snd].
      destruct (snd (snd st) <? S (Difflib.j2len_get j2len j)); [| exact H3].
      cbn [fst snd]. pose proof (j2len_get_bound j2len v j Hj2). lia. }
  apply Hgen; cbn [fst snd]; auto.
Qed.

Lemma extend_left_inv fuel alo blo ahi : forall m,
  alo <= fst (fst m) -> fst (fst m) + snd m <= ahi ->
  let out := Difflib.extend_left a b fuel alo blo m in
  alo <= fst (fst out) /\ fst (fst out) + snd out <= ahi.
Proof.
  induction fuel as [|fuel IH]; intros [[bi bj] bs] H1 H2; [cbn; auto |].
  cbn [Difflib.extend_left].
  destruct ((alo <? bi) && (blo <? bj) && (nth (bi - 1) a 0 =? nth (bj - 1) b 0)%N) eqn:E;
    [| cbn; auto].
  apply andb_true_iff in E as [E _]. apply andb_true_iff in E as [E _].
  apply Nat.ltb_lt in E. cbn [fst snd] in *. apply IH; cbn [fst snd]; lia.
Qed.

Lemma extend_right_inv fuel alo ahi bhi : forall m,
  alo <= fst (fst m) -> fst (fst m) + snd m <= ahi ->
  let out := Difflib.extend_right a b fuel ahi bhi m in
  alo <= fst (fst out) /\ fst (fst out) + snd out <= ahi.
Proof.
  induction fuel as [|fuel IH]; intros [[bi bj] bs] H1 H2; [cbn; auto |].
  cbn [Difflib.extend_right].
  destruct ((bi + bs <? ahi) && (bj + bs <? bhi)
            && (nth (bi + bs) a 0 =? nth (bj + bs) b 0)%N) eqn:E; [| cbn; auto].
  apply andb_true_iff in E as [E _]. apply andb_true_iff in E as [E _].
  apply Nat.ltb_lt in E. cbn [fst snd] in *. apply IH; cbn [fst snd]; lia.
Qed.

(** The block found lies inside the range of [a] searched. *)
Lemma find_longest_match_range alo ahi blo bhi :
  alo <= ahi ->
  let m := Difflib.find_longest_match a b alo ahi blo bhi in
  alo <= fst (fst m) /\ fst (fst m) + snd m <= ahi.
Proof.
  intros Hle. unfold Difflib.find_longest_match.
  assert (Hrows : forall n i st,
            i + n <= ahi -> alo <= i ->
            Forall (fun p => snd p <= i - alo) (fst st) ->
            alo <= fst (fst (snd st)) -> fst (fst (snd st)) + snd (snd st) <= i ->
            let out := fold_left
                (fun st i => Difflib.scan_row blo bhi i (fst st) (snd st)
                               (Difflib.b2j b (nth i a 0%N)))
                (seq i n) st in
            alo <= fst (fst (snd out)) /\ fst (fst (snd out)) + snd (snd out) <= ahi).
  { induction n as [|n IH]; intros i st Hn Hi Hj2 H1 H2; [cbn; split; lia |].
    cbn [seq fold_left].
    pose proof (scan_row_inv alo blo bhi i (i - alo) (fst st)
                  (Difflib.b2j b (nth i a 0%N)) Hi ltac:(lia) Hj2 (snd st) H1 ltac:(lia))
      as (Ha & Hb & Hc).
    apply IH; [lia | lia | | exact Hb | exact Hc].
    replace (S i - alo) with (S (i - alo)) by lia. exact Ha. }
  destruct (Hrows (ahi - alo) alo ([], (alo, blo, 0))) as [H1 H2];
    cbn [fst snd]; try lia; [constructor |].
  set (best := snd (fold_left _ (seq alo (ahi - alo)) ([], (alo, blo, 0)))) in *.
  destruct (extend_left_inv (fst (fst best)) alo blo ahi best H1 H2) as [H3 H4].
  apply extend_right_inv; assumption.
Qed.

(** More fuel than the length of the range of [a] changes nothing. *)
Lemma matches_fuel fuel : forall fuel' alo ahi blo bhi,
  alo <= ahi -> ahi - alo < fuel -> ahi - alo < fuel' ->
  Difflib.matches a b fuel alo ahi blo bhi = Difflib.matches a b fuel' alo ahi blo bhi.
Proof.
  induction fuel as [|fuel IH]; intros fuel' alo ahi blo bhi Hle Hf Hf'; [lia |].
  destruct fuel' as [|fuel']; [lia |]. cbn [Difflib.matches].
  pose proof (find_longest_match_range alo ahi blo bhi Hle) as Hm. cbv zeta in Hm.
  destruct (Difflib.find_longest_match a b alo ahi blo bhi) as [[i j] k].
  cbn [fst snd] in Hm. destruct Hm as [Hi Hk].
  destruct (k =? 0) eqn:Ek; [reflexivity |]. apply Nat.eqb_neq in Ek.
  f_equal; [f_equal |].
  - destruct ((alo <? i) && (blo <? j)); [| reflexivity]. apply IH; lia.
  - destruct ((i + k <? ahi) && (j + k <? bhi)); [| reflexivity]. apply IH; lia.
Qed.

(** The two extension loops stop because their condition fails, not
    because their fuel is used up. *)
Lemma extend_left_done fuel alo blo : forall m,
  fst (fst m) <= fuel ->
  let '(besti, bestj, _) := Difflib.extend_left a b fuel alo blo m in
  (alo <? besti) && (blo <? bestj)
  && (nth (besti - 1) a 0 =? nth (bestj - 1) b 0)%N = false.
Proof.
  induction fuel as [|fuel IH]; intros [[bi bj] bs] Hf; cbn [fst] in Hf.
  - cbn [Difflib.extend_left]. replace bi with 0 by lia.
    destruct alo; reflexivity.
  - cbn [Difflib.extend_left].
    destruct ((alo <? bi) && (blo <? bj) && (nth (bi - 1) a 0 =? nth (bj - 1) b 0)%N) eqn:E.
    + apply IH. cbn [fst]. lia.
    + exact E.
Qed.

Lemma extend_right_done fuel ahi bhi : forall m,
  ahi - (fst (fst m) + snd m) <= fuel ->
  let '(besti, bestj, bestsize) := Difflib.extend_right a b fuel ahi bhi m in
  (besti + bestsize <? ahi) && (bestj + bestsize <? bhi)
  && (nth (besti + bestsize) a 0 =? nth (bestj + bestsize) b 0)%N = false.
Proof.
  induction fuel as [|fuel IH]; intros [[bi bj] bs] Hf; cbn [fst snd] in Hf.
  - cbn [Difflib.extend_right].
    replace (bi + bs <? ahi) with false; [reflexivity |].
    symmetry. apply Nat.ltb_ge. lia.
  - cbn [Difflib.extend_right].
    destruct ((bi + bs <? ahi) && (bj + bs <? bhi)
              && (nth (bi + bs) a 0 =? nth (bj + bs) b 0)%N) eqn:E.
    + apply IH. cbn [fst snd].
      apply andb_true_iff in E as [E _]. apply andb_true_iff in E as [E _].
      apply Nat.ltb_lt in E. lia.
    + exact E.
Qed.

(** [ratio] gives [matches] enough fuel. *)
Lemma ratio_fuel fuel :
  length a < fuel ->
  Difflib.matches a b fuel 0 (length a) 0 (length b)
  = Difflib.matches a b (S (length a)) 0 (length a) 0 (length b).
Proof. intros H. apply matches_fuel; lia. Qed.

End DifflibFuel.

(** ** The functions on concrete inputs

    The right-hand sides are the values CPython 3 returns. *)

Example replace_overlap :
  replace (u "aa") (u "b") (u "aaa") = u "ba".
Proof. vm_compute. reflexivity. Qed.

Example replace_empty_pattern :
  replace [] (u "-") (u "abc") = u "-a-b-c-".
Proof. vm_compute. reflexivity. Qed.

Example split_ws_runs :
  split_ws (u "  how   do I	register ") = [u "how"; u "do"; u "I"; u "register"].
Proof. vm_compute. reflexivity. Qed.

Example email_domain_last_at :
  email_domain (u "a@b@univ.dz") = u "univ.dz".
Proof. vm_compute. reflexivity. Qed.

Example ratio_0 :
  Difflib.ratio (u "abcd") (u "bcde") = (0x1.8000000000000p-1)%float.
Proof. vm_compute. reflexivity. Qed.

Example ratio_1 :
  Difflib.ratio (u "how do i register") (u "how do i register for courses") = (0x1.7a6f4de9bd37ap-1)%float.
Proof. vm_compute. reflexivity. Qed.

Example ratio_2 :
  Difflib.ratio (u "contact university") (u "how can i contact the university") = (0x1.70a3d70a3d70ap-1)%float.
Proof. vm_compute. reflexivity. Qed.

Example round2_0 :
  round2 (0x1.0000000000000p-3)%float = (0x1.eb851eb851eb8p-4)%float.
Proof. vm_compute. reflexivity. Qed.

Example round2_1 :
  round2 (0x1.8000000000000p-2)%float = (0x1.851eb851eb852p-2)%float.
Proof. vm_compute. reflexivity. Qed.

Example round2_2 :
  round2 (0x1.5666666666666p+1)%float = (0x1.55c28f5c28f5cp+1)%float.
Proof. vm_compute. reflexivity. Qed.

Example round2_3 :
  round2 (0x1.44e3244e3244ep-1)%float = (0x1.428f5c28f5c29p-1)%float.
Proof. vm_compute. reflexivity. Qed.

Example round2_4 :
  round2 (0x1.2e147ae147ae1p-2)%float = (0x1.28f5c28f5c28fp-2)%float.
Proof. vm_compute. reflexivity. Qed.

Example preprocess_bonjour :
  _preprocess Examples.tables (u "Bonjour, comment s'inscrire?") = u "bonjour comment s inscrire".
Proof. vm_compute. reflexivity. Qed.

Example detect_language_bonjour :
  detect_language Examples.tables (u "Bonjour, comment s'inscrire?") = Fr.
Proof. vm_compute. reflexivity. Qed.

Example detect_language_marhaba :
  detect_language Examples.tables (u "مرحبا") = Ar.
Proof. vm_compute. reflexivity. Qed.

Example detect_language_default :
  detect_language Examples.tables (u "How much are the tuition fees?") = En.
Proof. vm_compute. reflexivity. Qed.

Example best_match_marhaba :
  find_best_match Examples.tables faq_matcher (u "مرحبا") DEFAULT_BEST_THRESHOLD
  = Ok (Some {| mr_faq := faq_1; mr_confidence := 0.63%float;
                mr_category := u "greeting" |}).
Proof. vm_compute. reflexivity. Qed.

Example best_match_bonjour :
  find_best_match Examples.tables faq_matcher (u "Bonjour, comment s'inscrire?")
    DEFAULT_BEST_THRESHOLD
  = Ok (Some {| mr_faq := faq_1; mr_confidence := 0.4%float;
                mr_category := u "greeting" |}).
Proof. vm_compute. reflexivity. Qed.

Example best_match_none :
  find_best_match Examples.tables faq_matcher (u "what is the weather on mars")
    DEFAULT_BEST_THRESHOLD
  = Ok None.
Proof. vm_compute. reflexivity. Qed.

Example multiple_matches_bonjour :
  map (fun m => (id (mr_faq m), mr_confidence m))
      (find_multiple_matches Examples.tables faq_matcher
         (u "Bonjour, comment s'inscrire?") DEFAULT_TOP_K DEFAULT_MULTI_THRESHOLD)
  = [(1, 0.4%float); (6, 0.37%float)].
Proof. vm_compute. reflexivity. Qed.

(** ** Session store: the bounded history *)

Lemma last_n_length {A} (n : nat) (l : list A) :
  (length (last_n n l) <= n)%nat.
Proof. unfold last_n. rewrite length_drop. lia. Qed.

Lemma last_n_short {A} (n : nat) (l : list A) :
  (length l <= n)%nat -> last_n n l = l.
Proof.
  intros H. unfold last_n.
  replace (length l - n)%nat with 0%nat by lia. reflexivity.
Qed.

Lemma last_n_app_last_n {A} (n : nat) (l k : list A) :
  last_n n (last_n n l ++ k) = last_n n (l ++ k).
Proof.
  destruct (Nat.le_gt_cases (length l) n) as [Hle | Hgt].
  - rewrite (last_n_short n l) by exact Hle. reflexivity.
  - unfold last_n. rewrite !length_app, length_drop.
    replace (length l - (length l - n) + length k - n)%nat
      with (length k) by lia.
    replace (length l + length k - n)%nat
      with ((length l - n) + length k)%nat by lia.
    rewrite <- drop_drop.
    rewrite (drop_app_le l k (length l - n)) by lia. reflexivity.
Qed.

Lemma history_of_append_same now ss uid r c :
  history_of (_append_history now ss uid r c) uid
  = last_n MAX_HISTORY_MESSAGES (history_of ss uid ++ [Turn r c]).
Proof.
  unfold _append_history, _session, history_of.
  destruct (ss !! uid) as [s|] eqn:E; cbn [history _new_session].
  - destruct (MAX_HISTORY_MESSAGES <? length (history s ++ [Turn r c]))%nat eqn:L;
      rewrite lookup_insert_eq; cbn.
    + reflexivity.
    + apply Nat.ltb_ge in L. symmetry. apply last_n_short. exact L.
  - cbn. rewrite lookup_insert_eq. cbn. reflexivity.
Qed.

Lemma history_of_append_other now ss uid uid' r c :
  uid <> uid' ->
  history_of (_append_history now ss uid r c) uid' = history_of ss uid'.
Proof.
  intros Hne. unfold _append_history, _session, history_of.
  destruct (ss !! uid) as [s|] eqn:E.
  - destruct (MAX_HISTORY_MESSAGES <? _)%nat; rewrite lookup_insert_ne by exact Hne;
      reflexivity.
  - destruct (MAX_HISTORY_MESSAGES <? _)%nat;
      rewrite !lookup_insert_ne by exact Hne; reflexivity.
Qed.

Lemma calls_of_cons_same c calls :
  calls_of (ac_user c) (c :: calls) = c :: calls_of (ac_user c) calls.
Proof. unfold calls_of. rewrite filter_cons_True; reflexivity. Qed.

Lemma calls_of_cons_other uid c calls :
  ac_user c <> uid -> calls_of uid (c :: calls) = calls_of uid calls.
Proof. intros H. unfold calls_of. rewrite filter_cons_False; [reflexivity | exact H]. Qed.

(** The history of a user after a run: the last ten of the old history
    followed by the user's new turns. *)
Lemma history_of_append_all calls : forall ss uid,
  (length (history_of ss uid) <= MAX_HISTORY_MESSAGES)%nat ->
  history_of (append_all ss calls) uid
  = last_n MAX_HISTORY_MESSAGES (history_of ss uid ++ map ac_turn (calls_of uid calls)).
Proof.
  induction calls as [|c calls IH]; intros ss uid Hcap.
  - cbn. rewrite app_nil_r. symmetry. apply last_n_short. exact Hcap.
  - cbn [append_all fold_left]. fold (append_all
      (_append_history (ac_now c) ss (ac_user c) (ac_role c) (ac_content c)) calls).
    destruct (decide (ac_user c = uid)) as [<- | Hne].
    + rewrite IH.
      * rewrite history_of_append_same, calls_of_cons_same. cbn [map].
        rewrite last_n_app_last_n, <- app_assoc. reflexivity.
      * rewrite history_of_append_same. apply last_n_length.
    + rewrite IH.
      * rewrite history_of_append_other by exact Hne.
        rewrite calls_of_cons_other by exact Hne. reflexivity.
      * rewrite history_of_append_other by exact Hne. exact Hcap.
Qed.

Lemma capped_history_of ss :
  capped ss <-> forall uid, (length (history_of ss uid) <= MAX_HISTORY_MESSAGES)%nat.
Proof.
  unfold capped, history_of. split.
  - intros H uid. destruct (ss !! uid) as [s|] eqn:E.
    + exact (H uid s E).
    + cbn. unfold MAX_HISTORY_MESSAGES. lia.
  - intros H uid s E. specialize (H uid). rewrite E in H. exact H.
Qed.

(** C4. For every store whose histories respect the cap (in particular the
    empty store and every store reached from it) and every run of
    [_append_history] calls: every history still has at most 10 turns; a
    user's history is the last 10 of the old turns followed by the new ones
    (the oldest are evicted first); and after 11 appends to an empty history
    the turns kept are exactly the 2nd to the 11th, so the 1st is gone, the
    11th is the last one, and the length is 10. *)
Theorem append_history_cap_fifo (sessions : gmap Z session) (calls : list append_call) :
  capped sessions ->
  capped (append_all sessions calls)
  /\ (forall uid,
        history_of (append_all sessions calls) uid
        = last_n MAX_HISTORY_MESSAGES
            (history_of sessions uid ++ map ac_turn (calls_of uid calls)))
  /\ (forall uid c1 rest,
        history_of sessions uid = [] ->
        calls_of uid calls = c1 :: rest ->
        length rest = 10%nat ->
        let h := history_of (append_all sessions calls) uid in
        h = map ac_turn rest
        /\ length h = 10%nat
        /\ last h = last (map ac_turn rest)
        /\ (ac_turn c1 ∉ map ac_turn rest -> ac_turn c1 ∉ h)).
Proof.
  intros Hcap.
  pose proof (proj1 (capped_history_of sessions) Hcap) as Hlen.
  assert (Hall : forall uid,
             history_of (append_all sessions calls) uid
             = last_n MAX_HISTORY_MESSAGES
                 (history_of sessions uid ++ map ac_turn (calls_of uid calls))).
  { intros uid. apply history_of_append_all. apply Hlen. }
  split; [| split].
  - apply capped_history_of. intros uid. rewrite Hall. apply last_n_length.
  - exact Hall.
  - intros uid c1 rest Hempty Hcalls Hrest h.
    assert (Hh : h = map ac_turn rest).
    { subst h. rewrite Hall, Hempty, Hcalls. cbn [app map].
      unfold last_n, MAX_HISTORY_MESSAGES. cbn [length].
      rewrite length_map, Hrest. reflexivity. }
    rewrite Hh. split; [reflexivity |]. split; [| split]; [| reflexivity |].
    + rewrite length_map. exact Hrest.
    + intros H. exact H.
Qed.

Lemma append_history_cap_fifo_witness :
  capped (append_all Examples.started Examples.eleven_calls)
  /\ history_of (append_all Examples.started Examples.eleven_calls) 7
     = map ac_turn (tail Examples.eleven_calls).
Proof.
  assert (Hcap : capped Examples.started).
  { intros uid s. unfold Examples.started.
    destruct (decide (uid = 7)) as [-> | Hne].
    - rewrite lookup_insert_eq. intros [= <-]. cbn. unfold MAX_HISTORY_MESSAGES. lia.
    - rewrite lookup_insert_ne by congruence. rewrite lookup_empty. discriminate. }
  destruct (append_history_cap_fifo Examples.started Examples.eleven_calls Hcap)
    as (H1 & _ & H3).
  split; [exact H1 |].
  apply (H3 7 (Examples.call 1) (tail Examples.eleven_calls));
    vm_compute; reflexivity.
Defined.

(** ** Free text before the selection is complete *)

Lemma unbound_is_incomplete ss uid :
  match ss !! uid with
  | Some s => university_id s = None \/ faculty_id s = None
  | None => True
  end ->
  _is_setup_complete ss uid = false.
Proof.
  unfold _is_setup_complete. destruct (ss !! uid) as [s|]; [| reflexivity].
  intros [H | H]; rewrite H; cbn; [reflexivity | apply andb_false_r].
Qed.

(** C5. A free-text message received while [_is_setup_complete] is false
    (in particular while the institution or the sub-unit is unbound, or
    before any session exists) is answered with the directive to complete
    the profile, and the store is returned as it was: no session is created
    and no turn is appended. *)
Theorem handle_message_incomplete
    (get_university_context : option Z -> option (option str))
    (search_knowledge : str -> option Z -> nat -> option (list kb_entry))
    (generate_chat_response : list turn -> option str -> option str -> option str)
    (now : Z) (sessions : gmap Z session) (user_id : Z) (user_message : str) :
  _is_setup_complete sessions user_id = false ->
  let out := handle_message get_university_context search_knowledge
               generate_chat_response now sessions user_id user_message in
  fst out = MSG_INCOMPLETE
  /\ snd out = sessions
  /\ history_of (snd out) user_id = history_of sessions user_id.
Proof.
  intros Hinc out. subst out. unfold handle_message. rewrite Hinc.
  cbn [negb fst snd]. split; [| split]; reflexivity.
Qed.

Lemma handle_message_incomplete_witness :
  let out := handle_message Examples.ctx_none Examples.kb_none Examples.gen_echo
               5 Examples.awaiting_faculty 7 (u "hello") in
  fst out = MSG_INCOMPLETE
  /\ snd out = Examples.awaiting_faculty
  /\ history_of (snd out) 7 = history_of Examples.awaiting_faculty 7.
Proof.
  apply (handle_message_incomplete Examples.ctx_none Examples.kb_none Examples.gen_echo
           5 Examples.awaiting_faculty 7 (u "hello")).
  vm_compute. reflexivity.
Defined.

(** ** Selection of a missing or inactive entity *)

(** C6. A selection callback whose university, faculty or department id is
    not in the directory, or names an inactive row, answers with the
    "not found, please /start again" message and returns the store
    unchanged. *)
Theorem selection_not_found_unmodified
    (db : directory) (sessions : gmap Z session) (user_id i : Z) :
  (missing_or_inactive u_is_active (university_get db i) = true ->
   _handle_university_selected db sessions user_id i
   = (plain (u "❌ University not found. Please /start again."), sessions))
  /\ (missing_or_inactive f_is_active (faculty_get db i) = true ->
      _handle_faculty_selected db sessions user_id i
      = (plain (u "❌ Faculty not found. Please /start again."), sessions))
  /\ (missing_or_inactive d_is_active (department_get db i) = true ->
      _handle_department_selected db sessions user_id i
      = (plain (u "❌ Department not found. Please /start again."), sessions)).
Proof.
  unfold missing_or_inactive, _handle_university_selected,
    _handle_faculty_selected, _handle_department_selected.
  split; [| split].
  - destruct (university_get db i) as [x|]; [| reflexivity].
    intros ->. reflexivity.
  - destruct (faculty_get db i) as [x|]; [| reflexivity].
    intros ->. reflexivity.
  - destruct (department_get db i) as [x|]; [| reflexivity].
    intros ->. reflexivity.
Qed.

Lemma selection_not_found_unmodified_witness :
  _handle_university_selected Examples.db Examples.started 7 3
  = (plain (u "❌ University not found. Please /start again."), Examples.started)
  /\ _handle_faculty_selected Examples.db Examples.started 7 11
     = (plain (u "❌ Faculty not found. Please /start again."), Examples.started)
  /\ _handle_department_selected Examples.db Examples.started 7 4
     = (plain (u "❌ Department not found. Please /start again."), Examples.started).
Proof.
  split; [| split].
  - apply (proj1 (selection_not_found_unmodified Examples.db Examples.started 7 3)).
    reflexivity.
  - apply (proj1 (proj2 (selection_not_found_unmodified Examples.db Examples.started 7 11))).
    reflexivity.
  - apply (proj2 (proj2 (selection_not_found_unmodified Examples.db Examples.started 7 4))).
    reflexivity.
Defined.

(** ** A university without faculties *)

(** C1 (what the code does). When the selected university is active, the
    user has a session and the directory lists no active faculty for it,
    the callback stores the university, sets [faculty_name] to the
    sentinel "N/A" but [faculty_id] to [None], and leaves the department
    fields as they were.  [_is_setup_complete] is therefore false, and the
    next free-text message is refused. *)
Theorem university_without_faculties_not_ready
    (db : directory) (sessions : gmap Z session) (user_id i : Z)
    (uni : University) (s : session) :
  university_get db i = Some uni ->
  truthy_flag (u_is_active uni) = true ->
  active_faculties db i = [] ->
  sessions !! user_id = Some s ->
  let sessions' := snd (_handle_university_selected db sessions user_id i) in
  sessions' !! user_id
  = Some (set_faculty None (Some (u "N/A"))
            (set_university (Some (u_id uni)) (u_name uni) s))
  /\ _is_setup_complete sessions' user_id = false
  /\ forall gc sk gen now msg,
       handle_message gc sk gen now sessions' user_id msg = (MSG_INCOMPLETE, sessions').
Proof.
  intros Hget Hact Hfac Hs sessions'.
  assert (Hlook : sessions' !! user_id
                  = Some (set_faculty None (Some (u "N/A"))
                            (set_university (Some (u_id uni)) (u_name uni) s))).
  { subst sessions'. unfold _handle_university_selected, _build_faculty_keyboard.
    rewrite Hget, Hact, Hs, Hfac. cbn [negb snd]. apply lookup_insert_eq. }
  assert (Hinc : _is_setup_complete sessions' user_id = false).
  { unfold _is_setup_complete. rewrite Hlook. cbn. apply andb_false_r. }
  split; [exact Hlook |]. split; [exact Hinc |].
  intros gc sk gen now msg. unfold handle_message. rewrite Hinc. reflexivity.
Qed.

Lemma university_without_faculties_not_ready_witness :
  let sessions' := snd (_handle_university_selected Examples.db Examples.started 7 1) in
  sessions' !! 7
  = Some (set_faculty None (Some (u "N/A"))
            (set_university (Some 1) (Some (u "Batna 2 University")) (_new_session 0)))
  /\ _is_setup_complete sessions' 7 = false
  /\ forall gc sk gen now msg,
       handle_message gc sk gen now sessions' 7 msg = (MSG_INCOMPLETE, sessions').
Proof.
  apply (university_without_faculties_not_ready Examples.db Examples.started 7 1
           Examples.uni_small (_new_session 0)); reflexivity.
Defined.

(** ** Language detection *)

(** C8 (as the code has it). A text with at least two characters of the
    class the code counts, [U+0600-U+06FF, U+0750-U+077F, U+08A0-U+08FF],
    is classified as Arabic, whatever else it contains and whatever the
    Unicode tables say about its other characters. *)
Theorem detect_language_arabic (U : unicode_tables) (text : str) :
  (2 <= arabic_chars text)%nat -> detect_language U text = Ar.
Proof.
  intros H. unfold detect_language.
  destruct (1 <? arabic_chars text)%nat eqn:E; [reflexivity |].
  apply Nat.ltb_ge in E. lia.
Qed.

Lemma detect_language_arabic_witness :
  detect_language Examples.tables
    (u "Bonjour, je suis étudiant et je veux une inscription لا") = Ar.
Proof.
  apply (detect_language_arabic Examples.tables
           (u "Bonjour, je suis étudiant et je veux une inscription لا")).
  vm_compute. lia.
Defined.

(** C8, the claim as stated fails: Arabic letters outside the three ranges
    are not counted.  The word marhaba written in presentation forms has
    five Arabic letters, none of them in the class; the count is 0 and the
    text is classified as English. *)
Lemma detect_language_presentation_forms :
  MoreExamples.marhaba_forms = [65251; 65198; 65187; 65170; 65166]%N
  /\ arabic_chars MoreExamples.marhaba_forms = 0%nat
  /\ detect_language MoreExamples.tables_forms MoreExamples.marhaba_forms = En.
Proof. split; [| split]; vm_compute; reflexivity. Qed.

(** ** Placeholders *)

Lemma or_else_nonempty o d : d <> [] -> or_else o d <> [].
Proof. intros Hd. destruct o as [[|c s]|]; cbn [or_else]; congruence. Qed.

Lemma or_else_some_nonempty o d : or_else (Some (or_else o d)) d = or_else o d.
Proof. destruct o as [[|c s]|]; cbn [or_else]; destruct d; reflexivity. Qed.

Lemma literal_app_nonempty (a b : str) : a <> [] -> a ++ b <> [].
Proof. destruct a; [congruence | discriminate]. Qed.

Ltac literal_nonempty := vm_compute; discriminate.

(** One entry of the dictionary: not a city token, and a value that is a
    literal, a defaulted field or a derived address. *)
Ltac placeholder_entry :=
  split;
  [ vm_compute; reflexivity
  | first
      [ apply or_else_nonempty; first [ literal_nonempty | apply literal_app_nonempty; literal_nonempty ]
      | apply literal_app_nonempty; literal_nonempty
      | literal_nonempty ] ].

(** C2 (as the code has it). With no snapshot every token has a non-empty
    value.  With a snapshot every token other than [city], [city_ar] and
    [city_fr] has a non-empty value, and those three hold the snapshot's
    city, which is the empty string when the city is null or empty. *)
Theorem build_placeholders_values (university : option University) (key value : str) :
  (key, value) ∈ build_placeholders university ->
  match university with
  | None => value <> []
  | Some un =>
      if bool_decide (key ∈ CITY_TOKENS)
      then value = or_else (u_city un) []
      else value <> []
  end.
Proof.
  intros Hin. destruct university as [un|]; unfold build_placeholders in Hin.
  - assert (Hgoal : bool_decide (key ∈ CITY_TOKENS) = true /\ value = or_else (u_city un) []
                    \/ bool_decide (key ∈ CITY_TOKENS) = false /\ value <> []).
    { repeat (apply elem_of_cons in Hin as [Hin | Hin];
              [ apply pair_equal_spec in Hin as [-> ->];
                first [ left; split; [vm_compute; reflexivity | reflexivity]
                      | right; placeholder_entry ] |]).
      apply elem_of_nil in Hin. contradiction. }
    destruct Hgoal as [[-> ->] | [-> Hne]]; [reflexivity | exact Hne].
  - repeat (apply elem_of_cons in Hin as [Hin | Hin];
            [ apply pair_equal_spec in Hin as [-> ->]; literal_nonempty |]).
    apply elem_of_nil in Hin. contradiction.
Qed.

Lemma build_placeholders_values_witness :
  (u "email_registrar", u "registrar@univ-bejaia.dz")
    ∈ build_placeholders (Some Examples.uni_no_city)
  /\ u "registrar@univ-bejaia.dz" <> [].
Proof.
  assert (Hin : (u "email_registrar", u "registrar@univ-bejaia.dz")
                  ∈ build_placeholders (Some Examples.uni_no_city)).
  { apply list_elem_of_In. vm_compute. tauto. }
  split; [exact Hin |].
  exact (build_placeholders_values (Some Examples.uni_no_city)
           (u "email_registrar") (u "registrar@univ-bejaia.dz") Hin).
Defined.

(** C2, the claim as stated fails: a snapshot without a city gives the
    token [city] the empty string. *)
Lemma build_placeholders_empty_city :
  ph_get (build_placeholders (Some Examples.uni_no_city)) (u "city") = Some [].
Proof. vm_compute. reflexivity. Qed.

(** ** [round(x, 2)] returns a number *)

Ltac pow_value e :=
  let v := eval vm_compute in (2 ^ e) in change (2 ^ e) with v in *.

Lemma round_half_even_bounds n d :
  0 < d -> 0 <= n ->
  n / d <= round_half_even n d <= n / d + 1
  /\ (n mod d = 0 -> round_half_even n d = n / d).
Proof.
  intros Hd Hn. unfold round_half_even.
  pose proof (Z.mod_pos_bound n d Hd) as Hmod.
  destruct (2 * (n mod d) <? d) eqn:E1.
  - split; [lia | reflexivity].
  - apply Z.ltb_ge in E1. split.
    + destruct (d <? 2 * (n mod d)); [lia |]. destruct (Z.even (n / d)); lia.
    + intros H0. lia.
Qed.

Lemma size_53 (m : positive) :
  2 ^ 52 <= Z.pos m < 2 ^ 53 -> Z.pos (digits2_pos m) = 53.
Proof.
  intros [Hlo Hhi].
  assert (Hsize : forall p, digits2_pos p = Pos.size p).
  { induction p; cbn; congruence. }
  rewrite Hsize.
  pose proof (Pos.size_gt m) as Hgt. pose proof (Pos.size_le m) as Hle.
  apply Pos2Z.pos_lt_pos in Hgt. apply Pos2Z.pos_le_pos in Hle.
  rewrite Pos2Z.inj_pow in Hgt, Hle. change (Z.pos m~0) with (2 * Z.pos m) in Hle.
  set (s := Z.pos (Pos.size m)) in *.
  assert (Hs : 0 < s) by (unfold s; lia).
  destruct (Z.lt_trichotomy s 53) as [H | [H | H]]; [| exact H |].
  - assert (2 ^ s <= 2 ^ 52) by (apply Z.pow_le_mono_r; lia). lia.
  - assert (2 ^ 54 <= 2 ^ s) by (apply Z.pow_le_mono_r; lia).
    pow_value 54. pow_value 53. lia.
Qed.

Lemma scaled_ratio num den e :
  0 < num -> 0 < den ->
  let '(n, d) := scaled num den e in
  0 < n /\ 0 < d
  /\ (0 <= e -> n = num /\ d = den * 2 ^ e)
  /\ (e < 0 -> n = num * 2 ^ (- e) /\ d = den).
Proof.
  intros Hn Hd. unfold scaled. destruct (0 <=? e) eqn:E.
  - apply Z.leb_le in E. assert (0 < 2 ^ e) by (apply Z.pow_pos_nonneg; lia).
    repeat split; try lia.
  - apply Z.leb_gt in E. assert (0 < 2 ^ (- e)) by (apply Z.pow_pos_nonneg; lia).
    repeat split; try lia.
Qed.

Lemma scaled_pred num den e0 :
  0 < num -> 0 < den ->
  let '(n0, d0) := scaled num den e0 in
  let '(n, d) := scaled num den (e0 - 1) in
  n * d0 = 2 * n0 * d.
Proof.
  intros Hn Hd. unfold scaled.
  destruct (0 <=? e0) eqn:E0, (0 <=? e0 - 1) eqn:E1;
    rewrite ?Z.leb_le, ?Z.leb_gt in E0, E1; try lia.
  - replace e0 with (e0 - 1 + 1) at 1 by lia. rewrite Z.pow_add_r by lia.
    change (2 ^ 1) with 2. ring.
  - assert (e0 = 0) as -> by lia. change (- (0 - 1)) with 1.
    change (2 ^ 1) with 2. change (2 ^ 0) with 1. ring.
  - replace (- (e0 - 1)) with (- e0 + 1) by lia. rewrite Z.pow_add_r by lia.
    change (2 ^ 1) with 2. ring.
Qed.

(** The mantissa and exponent [nearest_float] assembles. *)
Lemma nearest_float_hundredths_valid k :
  0 < k < 2 ^ 60 ->
  exists m e, nearest_float k 100 = SF2Prim (S754_finite false m e)
              /\ valid_binary (S754_finite false m e) = true.
Proof.
  intros [Hk0 Hk60]. unfold nearest_float.
  set (lk := Z.log2 k).
  assert (Hlk : 2 ^ lk <= k < 2 ^ (lk + 1)).
  { unfold lk. pose proof (Z.log2_spec k Hk0). rewrite <- Z.add_1_r in H. exact H. }
  assert (Hlk0 : 0 <= lk) by apply Z.log2_nonneg.
  assert (Hlk60 : lk < 60).
  { apply (Z.pow_lt_mono_r_iff 2); lia. }
  change (Z.log2 100) with 6.
  set (e0 := lk - 6 - 52).
  (* the ratio at e0 lies in [2^51, 2^53) *)
  assert (H0 : let '(n0, d0) := scaled k 100 e0 in
               0 < d0 /\ 2 ^ 51 * d0 <= n0 < 2 ^ 53 * d0).
  { pose proof (scaled_ratio k 100 e0 Hk0 ltac:(lia)) as Hs.
    destruct (scaled k 100 e0) as [n0 d0]. destruct Hs as (Hn0 & Hd0 & Hpos & Hneg).
    split; [exact Hd0 |].
    destruct (Z_le_gt_dec 0 e0) as [He | He].
    - destruct (Hpos He) as [-> ->].
      assert (Hp : 2 ^ lk = 2 ^ 58 * 2 ^ e0).
      { rewrite <- Z.pow_add_r by lia. f_equal. unfold e0. lia. }
      assert (Hp1 : 2 ^ (lk + 1) = 2 ^ 59 * 2 ^ e0).
      { rewrite <- Z.pow_add_r by lia. f_equal. unfold e0. lia. }
      assert (0 < 2 ^ e0) by (apply Z.pow_pos_nonneg; lia).
      rewrite Hp, Hp1 in Hlk. pow_value 58. pow_value 59. pow_value 51. pow_value 53.
      nia.
    - destruct (Hneg ltac:(lia)) as [-> ->].
      assert (Hp : 2 ^ lk * 2 ^ (- e0) = 2 ^ 58).
      { rewrite <- Z.pow_add_r by lia. f_equal. unfold e0. lia. }
      assert (Hp1 : 2 ^ (lk + 1) * 2 ^ (- e0) = 2 ^ 59).
      { rewrite <- Z.pow_add_r by lia. f_equal. unfold e0. lia. }
      assert (0 < 2 ^ (- e0)) by (apply Z.pow_pos_nonneg; lia).
      pow_value 58. pow_value 59. pow_value 51. pow_value 53.
      nia. }
  set (e := if (let '(n0, d0) := scaled k 100 e0 in n0 / d0) <? 2 ^ 52
            then e0 - 1 else e0).
  assert (H1 : let '(n, d) := scaled k 100 e in
               0 < d /\ 2 ^ 52 * d <= n < 2 ^ 53 * d).
  { pose proof (scaled_pred k 100 e0 Hk0 ltac:(lia)) as Hpred.
    pose proof (scaled_ratio k 100 (e0 - 1) Hk0 ltac:(lia)) as Hs1.
    subst e. destruct (scaled k 100 e0) as [n0 d0] eqn:Es0.
    destruct H0 as (Hd0 & Hlo & Hhi).
    destruct (n0 / d0 <? 2 ^ 52) eqn:Eq.
    - apply Z.ltb_lt in Eq.
      assert (Hn0 : n0 < 2 ^ 52 * d0).
      { pose proof (Z.mul_succ_div_gt n0 d0 Hd0). nia. }
      destruct (scaled k 100 (e0 - 1)) as [n d]. cbv beta iota in Hs1, Hpred.
      destruct Hs1 as [Hn [Hd _]].
      split; [exact Hd |]. pow_value 51. pow_value 52. pow_value 53. nia.
    - apply Z.ltb_ge in Eq. rewrite Es0. split; [exact Hd0 |]. split; [| exact Hhi].
      pose proof (Z.mul_div_le n0 d0 Hd0). nia. }
  assert (He : lk - 59 <= e <= lk - 58).
  { subst e. destruct (_ <? _); unfold e0; lia. }
  replace (let '(n0, d0) := scaled k 100 e0 in
           let e1 := if n0 / d0 <? 2 ^ 52 then e0 - 1 else e0 in _)
    with (let '(n, d) := scaled k 100 e in
          let m := round_half_even n d in
          let '(m0, e2) := if m =? 2 ^ 53 then (2 ^ 52, e + 1) else (m, e) in
          SF2Prim (S754_finite false (Z.to_pos m0) e2)).
  2: { subst e. destruct (scaled k 100 e0) as [n0 d0]. reflexivity. }
  destruct (scaled k 100 e) as [n d]. destruct H1 as (Hd & Hlo & Hhi). cbv zeta.
  assert (Hq : 2 ^ 52 <= n / d < 2 ^ 53).
  { split; [apply Z.div_le_lower_bound; lia | apply Z.div_lt_upper_bound; lia]. }
  destruct (round_half_even_bounds n d Hd ltac:(pow_value 52; nia)) as [Hm _].
  set (m := round_half_even n d) in *.
  assert (Hfinal : exists m' e', (if m =? 2 ^ 53 then (2 ^ 52, e + 1) else (m, e)) = (m', e')
                     /\ 2 ^ 52 <= m' < 2 ^ 53 /\ lk - 59 <= e' <= lk - 57).
  { destruct (m =? 2 ^ 53) eqn:Em.
    - exists (2 ^ 52), (e + 1). split; [reflexivity |]. pow_value 52. pow_value 53. lia.
    - apply Z.eqb_neq in Em. exists m, e. split; [reflexivity |]. lia. }
  destruct Hfinal as (m' & e' & -> & Hm' & He').
  exists (Z.to_pos m'), e'. split; [reflexivity |].
  cbn [valid_binary]. unfold bounded, canonical_mantissa.
  rewrite (size_53 (Z.to_pos m')) by (rewrite Z2Pos.id; pow_value 52; lia).
  unfold fexp, emin, emax, prec. apply andb_true_iff. split.
  - apply Z.eqb_eq. lia.
  - apply Z.leb_le. lia.
Qed.

Lemma valid_mantissa_bound s m e :
  valid_binary (S754_finite s m e) = true -> Z.pos m < 2 ^ 53.
Proof.
  cbn [valid_binary]. unfold bounded, canonical_mantissa, fexp, emin, emax, prec.
  intros H. apply andb_true_iff in H as [H _]. apply Z.eqb_eq in H.
  assert (Hsize : forall p, digits2_pos p = Pos.size p).
  { induction p; cbn; congruence. }
  rewrite Hsize in H.
  pose proof (Pos.size_gt m) as Hgt. apply Pos2Z.pos_lt_pos in Hgt.
  rewrite Pos2Z.inj_pow in Hgt.
  assert (Hle : Z.pos (Pos.size m) <= 53) by lia.
  assert (2 ^ Z.pos (Pos.size m) <= 2 ^ 53) by (apply Z.pow_le_mono_r; lia).
  lia.
Qed.

Lemma is_number_SF2Prim_finite s m e :
  valid_binary (S754_finite s m e) = true ->
  is_number (SF2Prim (S754_finite s m e)) = true.
Proof.
  intros Hv. apply is_number_key. unfold fkey. rewrite (Prim2SF_SF2Prim _ Hv).
  destruct s; cbn [sf_key]; eauto.
Qed.

Lemma is_number_opp x : is_number x = true -> is_number (- x)%float = true.
Proof.
  rewrite !is_number_key. unfold fkey. rewrite opp_spec.
  destruct (Prim2SF x) as [s|s| |s m e]; cbn [SFopp sf_key];
    try destruct s; cbn [negb]; intros [a Ha]; try discriminate; eauto.
Qed.

(** [round(x, 2)] of a number is a number. *)
Lemma round2_is_number x : is_number x = true -> is_number (round2 x) = true.
Proof.
  intros Hx. unfold round2.
  pose proof (Prim2SF_valid x) as Hvalid.
  destruct (Prim2SF x) as [s|s| |s m e] eqn:E; try exact Hx.
  destruct (0 <=? e) eqn:He; [exact Hx |]. apply Z.leb_gt in He. cbv zeta.
  set (k := round_half_even (100 * Z.pos m) (2 ^ (- e))).
  assert (Hr : is_number (if k =? 0 then 0%float else nearest_float k 100) = true).
  { destruct (k =? 0) eqn:Ek; [reflexivity |]. apply Z.eqb_neq in Ek.
    pose proof (valid_mantissa_bound s m e Hvalid) as Hm.
    assert (Hden : 2 <= 2 ^ (- e)).
    { change 2 with (2 ^ 1) at 1. apply Z.pow_le_mono_r; lia. }
    destruct (round_half_even_bounds (100 * Z.pos m) (2 ^ (- e)) ltac:(lia) ltac:(lia))
      as [[Hlo Hhi] _]. fold k in Hlo, Hhi.
    assert (Hq : 0 <= 100 * Z.pos m / 2 ^ (- e) <= 50 * Z.pos m).
    { split; [apply Z.div_pos; lia |].
      apply Z.div_le_upper_bound; [lia |]. nia. }
    destruct (nearest_float_hundredths_valid k) as (m' & e' & -> & Hv).
    { pow_value 60. pow_value 53. lia. }
    apply is_number_SF2Prim_finite. exact Hv. }
  destruct s; [apply is_number_opp |]; exact Hr.
Qed.

(** ** The matcher: the best entry *)

Section BestMatch.

Context (U : unicode_tables) (query : str).

Local Abbreviation sc := (score U query).

(** What [best_loop] maintains: [best_score] is a number that no entry seen
    so far outscores; it is [0.0] until an entry is chosen, and afterwards
    the score of the chosen entry, which every earlier entry fails to
    reach. *)
Lemma best_loop_invariant (l : list faq) : forall seen best bs,
  is_number bs = true ->
  (forall g, g ∈ seen -> (bs <? sc g)%float = false) ->
  match best with
  | None => bs = 0%float
  | Some f => bs = sc f
              /\ exists pre post, seen = pre ++ f :: post
                 /\ forall g, g ∈ pre -> (sc f <=? sc g)%float = false
  end ->
  let out := best_loop U query l best bs in
  is_number (snd out) = true
  /\ (forall g, g ∈ seen ++ l -> (snd out <? sc g)%float = false)
  /\ match fst out with
     | None => snd out = 0%float
     | Some f => snd out = sc f
                 /\ exists pre post, seen ++ l = pre ++ f :: post
                    /\ forall g, g ∈ pre -> (sc f <=? sc g)%float = false
     end.
Proof.
  induction l as [|f rest IH]; intros seen best bs Hnum Hmax Hbest.
  - cbn [best_loop fst snd]. rewrite app_nil_r. auto.
  - cbn [best_loop]. cbv zeta.
    replace (seen ++ f :: rest) with ((seen ++ [f]) ++ rest)
      by (rewrite <- app_assoc; reflexivity).
    destruct (bs <? sc f)%float eqn:Hlt.
    + apply IH.
      * apply (ltb_is_number _ _ Hlt).
      * intros g Hg. apply elem_of_app in Hg as [Hg | Hg].
        -- apply (ltb_negtrans _ _ _ Hlt). apply Hmax. exact Hg.
        -- apply list_elem_of_singleton in Hg as ->. apply ltb_irrefl.
      * split; [reflexivity |]. exists seen, []. split; [reflexivity |].
        intros g Hg. destruct (sc f <=? sc g)%float eqn:Hle; [| reflexivity].
        pose proof (Hmax g Hg) as Hm.
        rewrite (ltb_leb_trans _ _ _ Hlt Hle) in Hm. discriminate.
    + apply IH.
      * exact Hnum.
      * intros g Hg. apply elem_of_app in Hg as [Hg | Hg].
        -- apply Hmax. exact Hg.
        -- apply list_elem_of_singleton in Hg as ->. exact Hlt.
      * destruct best as [b|]; [| exact Hbest].
        destruct Hbest as (Hbs & pre & post & Hseen & Hpre).
        split; [exact Hbs |]. exists pre, (post ++ [f]). split; [| exact Hpre].
        rewrite Hseen, <- app_assoc. reflexivity.
Qed.

Lemma best_loop_spec (l : list faq) :
  let out := best_loop U query l None 0%float in
  is_number (snd out) = true
  /\ (forall g, g ∈ l -> (snd out <? sc g)%float = false)
  /\ match fst out with
     | None => snd out = 0%float
     | Some f => snd out = sc f
                 /\ exists pre post, l = pre ++ f :: post
                    /\ forall g, g ∈ pre -> (sc f <=? sc g)%float = false
     end.
Proof.
  apply (best_loop_invariant l [] None 0%float).
  - reflexivity.
  - intros g Hg. apply elem_of_nil in Hg. contradiction.
  - reflexivity.
Qed.

End BestMatch.

(** C3. [find_best_match] with the default threshold scores every entry
    with [0.6 * keyword + 0.4 * semantic] on the preprocessed query.  It
    never raises.  When it returns a match, the entry is one that no entry
    of the catalog outscores, its score is at least 0.30, and the reported
    confidence is that score rounded to two decimals; when it returns no
    match, no entry of the catalog reaches 0.30. *)
Theorem find_best_match_threshold (U : unicode_tables) (self : FAQMatcher)
    (user_query : str) :
  let query := _preprocess U user_query in
  (forall f, score U query f
             = (_keyword_score U query f * 0.6 + _semantic_score U query f * 0.4)%float)
  /\ match find_best_match U self user_query DEFAULT_BEST_THRESHOLD with
     | Ok (Some m) =>
         highest_scoring (score U query) (faqs self) (mr_faq m)
         /\ (DEFAULT_BEST_THRESHOLD <=? score U query (mr_faq m))%float = true
         /\ mr_confidence m = round2 (score U query (mr_faq m))
         /\ mr_category m = category (mr_faq m)
     | Ok None =>
         forall g, g ∈ faqs self ->
                   (DEFAULT_BEST_THRESHOLD <=? score U query g)%float = false
     | TypeError => False
     end.
Proof.
  intros query. split; [reflexivity |].
  unfold find_best_match. fold query.
  pose proof (best_loop_spec U query (faqs self)) as Hspec. cbv zeta in Hspec.
  destruct (best_loop U query (faqs self) None 0%float) as [best bs].
  cbn [fst snd] in Hspec. destruct Hspec as (Hnum & Hmax & Hbest).
  destruct (DEFAULT_BEST_THRESHOLD <=? bs)%float eqn:Hth.
  - destruct best as [f|].
    + destruct Hbest as (-> & pre & post & Hl & _). cbn [mr_faq mr_confidence mr_category].
      split; [split |].
      * rewrite Hl. apply elem_of_app. right. apply elem_of_cons. left. reflexivity.
      * exact Hmax.
      * split; [exact Hth |]. split; reflexivity.
    + rewrite Hbest in Hth. vm_compute in Hth. discriminate.
  - intros g Hg.
    destruct (DEFAULT_BEST_THRESHOLD <=? score U query g)%float eqn:Hg3; [| reflexivity].
    pose proof (proj2 (leb_is_number _ _ Hg3)) as Hgn.
    pose proof (not_ltb_leb _ _ Hnum Hgn (Hmax g Hg)) as Hle.
    rewrite (leb_trans _ _ _ Hg3 Hle) in Hth. discriminate.
Qed.

(** C10. Whatever the threshold, the entry [find_best_match] returns is
    the first of the catalog among those with the maximal score: no entry
    before it scores as much, and no entry after it scores more. *)
Theorem find_best_match_first_of_ties (U : unicode_tables) (self : FAQMatcher)
    (user_query : str) (threshold : float) (m : match_result) :
  find_best_match U self user_query threshold = Ok (Some m) ->
  let sc := score U (_preprocess U user_query) in
  exists pre post,
    faqs self = pre ++ mr_faq m :: post
    /\ (forall g, g ∈ pre -> (sc (mr_faq m) <=? sc g)%float = false)
    /\ (forall g, g ∈ post -> (sc (mr_faq m) <? sc g)%float = false).
Proof.
  intros Hfind sc. subst sc. revert Hfind. unfold find_best_match.
  pose proof (best_loop_spec U (_preprocess U user_query) (faqs self)) as Hspec.
  cbv zeta in Hspec.
  destruct (best_loop U (_preprocess U user_query) (faqs self) None 0%float)
    as [best bs].
  cbn [fst snd] in Hspec. destruct Hspec as (Hnum & Hmax & Hbest).
  destruct (threshold <=? bs)%float; [| discriminate].
  destruct best as [f|]; [| discriminate].
  intros [= <-]. cbn [mr_faq].
  destruct Hbest as (-> & pre & post & Hl & Hpre).
  exists pre, post. split; [exact Hl |]. split; [exact Hpre |].
  intros g Hg. apply Hmax. rewrite Hl. apply elem_of_app. right.
  apply elem_of_cons. right. exact Hg.
Qed.

Lemma find_best_match_first_of_ties_witness :
  let sc := score Examples.tables (_preprocess Examples.tables (u "contact university")) in
  exists pre post,
    faqs Examples.twin_matcher = pre ++ faq_22 :: post
    /\ (forall g, g ∈ pre -> (sc faq_22 <=? sc g)%float = false)
    /\ (forall g, g ∈ post -> (sc faq_22 <? sc g)%float = false).
Proof.
  assert (H : find_best_match Examples.tables Examples.twin_matcher
                (u "contact university") DEFAULT_BEST_THRESHOLD
              = Ok (Some {| mr_faq := faq_22; mr_confidence := 0.63%float;
                            mr_category := u "contact" |}))
    by (vm_compute; reflexivity).
  exact (find_best_match_first_of_ties _ _ _ _ _ H).
Defined.

(** ** The matcher: several entries *)

Section SortDesc.

Context {A : Type} (key : A -> float).

Lemma insert_desc_perm x l : insert_desc key x l ≡ₚ x :: l.
Proof.
  induction l as [|y t IH]; [reflexivity |]. cbn [insert_desc].
  destruct (key x <? key y)%float; [| reflexivity].
  rewrite IH. apply Permutation_swap.
Qed.

Lemma sort_desc_perm l : sort_desc key l ≡ₚ l.
Proof.
  induction l as [|x l IH]; [reflexivity |]. cbn [sort_desc foldr].
  fold (sort_desc key l). rewrite insert_desc_perm, IH. reflexivity.
Qed.

Lemma descending_cons a l :
  descending (a :: l)
  <-> (forall b, head l = Some b -> (a <? b)%float = false) /\ descending l.
Proof.
  destruct l as [|b t]; cbn [descending head].
  - split; [intros _; split; [intros b [=] | exact I] | intros _; exact I].
  - split.
    + intros [H1 H2]. split; [intros b' [= <-]; exact H1 | exact H2].
    + intros [H1 H2]. split; [apply H1; reflexivity | exact H2].
Qed.

Lemma head_insert_desc x l b :
  head (map key (insert_desc key x l)) = Some b ->
  b = key x \/ ((key x <? b)%float = true /\ head (map key l) = Some b).
Proof.
  destruct l as [|y t]; cbn [insert_desc].
  - intros [= <-]. left. reflexivity.
  - destruct (key x <? key y)%float eqn:E; cbn [map head]; intros [= <-].
    + right. split; [exact E | reflexivity].
    + left. reflexivity.
Qed.

Lemma descending_insert_desc x l :
  descending (map key l) -> descending (map key (insert_desc key x l)).
Proof.
  induction l as [|y t IH]; intros Hd; [exact I |]. cbn [insert_desc].
  cbn [map] in Hd. apply descending_cons in Hd as [Hhead Htail].
  destruct (key x <? key y)%float eqn:E; cbn [map]; apply descending_cons.
  - split; [| apply IH; exact Htail].
    intros b Hb. apply head_insert_desc in Hb as [-> | [_ Hb]].
    + apply ltb_asym. exact E.
    + apply Hhead. exact Hb.
  - split.
    + intros b [= <-]. exact E.
    + apply descending_cons. split; assumption.
Qed.

Lemma descending_sort_desc l : descending (map key (sort_desc key l)).
Proof.
  induction l as [|x l IH]; [exact I |]. cbn [sort_desc foldr].
  apply descending_insert_desc. exact IH.
Qed.

(** Stability: among the elements with a given key, the order is the
    original one. *)
Lemma filter_insert_desc c x l :
  filter (fun m => (key m =? c)%float = true) (insert_desc key x l)
  = filter (fun m => (key m =? c)%float = true) (x :: l).
Proof.
  induction l as [|y t IH]; [reflexivity |]. cbn [insert_desc].
  destruct (key x <? key y)%float eqn:E; [| reflexivity].
  rewrite (filter_cons _ y (insert_desc key x t)), IH.
  rewrite (filter_cons _ x (y :: t)), (filter_cons _ y t), (filter_cons _ x t).
  destruct (decide ((key x =? c)%float = true)) as [Hx | Hx];
    destruct (decide ((key y =? c)%float = true)) as [Hy | Hy]; try reflexivity.
  rewrite (ltb_eqb_l _ _ _ E Hx) in Hy. discriminate.
Qed.

Lemma filter_sort_desc c l :
  filter (fun m => (key m =? c)%float = true) (sort_desc key l)
  = filter (fun m => (key m =? c)%float = true) l.
Proof.
  induction l as [|x l IH]; [reflexivity |]. cbn [sort_desc foldr].
  fold (sort_desc key l). rewrite filter_insert_desc, !(filter_cons _ x), IH.
  reflexivity.
Qed.

End SortDesc.

Lemma descending_take k l : descending l -> descending (take k l).
Proof.
  revert k. induction l as [|x l IH]; intros k Hd; destruct k as [|k];
    try exact I.
  cbn [take]. apply descending_cons. apply descending_cons in Hd as [Hhead Htail].
  split; [| apply IH; exact Htail].
  intros b Hb. apply Hhead. destruct l as [|y t], k as [|k]; try discriminate.
  exact Hb.
Qed.

(** Among numbers, a list without ascent is sorted pairwise. *)
Lemma descending_strongly_sorted l :
  Forall (fun x => is_number x = true) l ->
  descending l ->
  StronglySorted (fun x y => (y <=? x)%float = true) l.
Proof.
  induction l as [|a l IH]; intros Hnum Hd; [constructor |].
  apply Forall_cons in Hnum as [Ha Hnum].
  apply descending_cons in Hd as [Hhead Htail].
  specialize (IH Hnum Htail). constructor; [exact IH |].
  destruct l as [|b t]; [constructor |].
  apply Forall_cons in Hnum as [Hb _].
  assert (Hba : (b <=? a)%float = true).
  { apply not_ltb_leb; [exact Ha | exact Hb |]. apply Hhead. reflexivity. }
  apply List.Forall_cons; [exact Hba |].
  apply StronglySorted_inv in IH as [_ Hrest].
  apply List.Forall_forall. intros y Hy.
  rewrite List.Forall_forall in Hrest.
  apply (leb_trans _ _ _ (Hrest y Hy) Hba).
Qed.

Lemma sublist_filter_mono {A} (P : A -> Prop) `{!forall x, Decision (P x)} (l1 l2 : list A) :
  l1 `sublist_of` l2 -> filter P l1 `sublist_of` filter P l2.
Proof.
  induction 1 as [|x l1 l2 _ IH|x l1 l2 _ IH]; [constructor | |].
  - rewrite !(filter_cons _ x). destruct (decide (P x)); [constructor |]; exact IH.
  - rewrite (filter_cons _ x). destruct (decide (P x)); [constructor |]; exact IH.
Qed.

Lemma omap_sublist {A B} (g : A -> option B) (proj : B -> A) (l : list A) :
  (forall x y, g x = Some y -> proj y = x) ->
  map proj (omap g l) `sublist_of` l.
Proof.
  intros Hg. induction l as [|x l IH]; [constructor |].
  change (omap g (x :: l))
    with (match g x with Some y => y :: omap g l | None => omap g l end).
  destruct (g x) as [y|] eqn:E.
  - cbn [map]. rewrite (Hg _ _ E). constructor. exact IH.
  - constructor. exact IH.
Qed.

(** C7 (as the code has it). For a non-negative [top_k],
    [find_multiple_matches] returns at most [top_k] results.  Every result
    is an entry of the catalog whose combined score is at least the
    threshold, reported with that score rounded to two decimals as its
    confidence.  The results are in descending order of confidence (each
    confidence is at most every confidence before it), and the results with
    one and the same confidence are in catalog order. *)
Theorem find_multiple_matches_spec (U : unicode_tables) (self : FAQMatcher)
    (user_query : str) (top_k : Z) (threshold : float) :
  0 <= top_k ->
  let query := _preprocess U user_query in
  let r := find_multiple_matches U self user_query top_k threshold in
  (length r <= Z.to_nat top_k)%nat
  /\ (forall m, m ∈ r ->
        mr_faq m ∈ faqs self
        /\ (threshold <=? score U query (mr_faq m))%float = true
        /\ mr_confidence m = round2 (score U query (mr_faq m))
        /\ mr_category m = category (mr_faq m))
  /\ StronglySorted (fun x y => (y <=? x)%float = true) (map mr_confidence r)
  /\ (forall c,
        map mr_faq (filter (fun m => (mr_confidence m =? c)%float = true) r)
          `sublist_of` faqs self).
Proof.
  intros Hk query r. subst r. unfold find_multiple_matches. fold query.
  set (g := fun f : faq =>
              if (threshold <=? score U query f)%float
              then Some {| mr_faq := f; mr_confidence := round2 (score U query f);
                           mr_category := category f |}
              else None).
  change (omap _ (faqs self)) with (omap g (faqs self)).
  assert (Hg : forall f m, g f = Some m ->
                 mr_faq m = f
                 /\ (threshold <=? score U query f)%float = true
                 /\ mr_confidence m = round2 (score U query f)
                 /\ mr_category m = category f).
  { intros f m. unfold g. destruct (threshold <=? score U query f)%float; [| discriminate].
    intros [= <-]. cbn. auto. }
  unfold slice_to. rewrite (proj2 (Z.leb_le 0 top_k) Hk).
  assert (Helem : forall m,
            m ∈ take (Z.to_nat top_k) (sort_desc mr_confidence (omap g (faqs self))) ->
            mr_faq m ∈ faqs self
            /\ (threshold <=? score U query (mr_faq m))%float = true
            /\ mr_confidence m = round2 (score U query (mr_faq m))
            /\ mr_category m = category (mr_faq m)).
  { intros m Hm. apply (sublist_subseteq _ _ (sublist_take _ _)) in Hm.
    rewrite sort_desc_perm in Hm. apply list_elem_of_omap in Hm as (f & Hf & Hgf).
    destruct (Hg f m Hgf) as (-> & H2 & H3 & H4). auto. }
  split; [| split; [| split]].
  - rewrite length_take. lia.
  - exact Helem.
  - apply descending_strongly_sorted.
    + apply Forall_forall. intros c Hc.
      apply list_elem_of_fmap in Hc as (m & -> & Hm).
      destruct (Helem m Hm) as (_ & Hth & -> & _).
      apply round2_is_number. apply (leb_is_number _ _ Hth).
    + rewrite fmap_take. apply descending_take. apply descending_sort_desc.
  - intros c.
    transitivity (map mr_faq (filter (fun m => (mr_confidence m =? c)%float = true)
                                (sort_desc mr_confidence (omap g (faqs self))))).
    { apply fmap_sublist. apply sublist_filter_mono. apply sublist_take. }
    rewrite filter_sort_desc.
    transitivity (map mr_faq (omap g (faqs self))).
    { apply fmap_sublist. apply sublist_filter. }
    apply omap_sublist. intros f m Hgf. apply (Hg f m Hgf).
Qed.

Lemma find_multiple_matches_spec_witness :
  let query := _preprocess Examples.tables (u "Bonjour, comment s'inscrire?") in
  let r := find_multiple_matches Examples.tables faq_matcher
             (u "Bonjour, comment s'inscrire?") 1 DEFAULT_MULTI_THRESHOLD in
  (length r <= Z.to_nat 1)%nat
  /\ (forall m, m ∈ r ->
        mr_faq m ∈ faqs faq_matcher
        /\ (DEFAULT_MULTI_THRESHOLD <=? score Examples.tables query (mr_faq m))%float = true
        /\ mr_confidence m = round2 (score Examples.tables query (mr_faq m))
        /\ mr_category m = category (mr_faq m))
  /\ StronglySorted (fun x y => (y <=? x)%float = true) (map mr_confidence r)
  /\ (forall c,
        map mr_faq (filter (fun m => (mr_confidence m =? c)%float = true) r)
          `sublist_of` faqs faq_matcher).
Proof.
  apply (find_multiple_matches_spec Examples.tables faq_matcher
           (u "Bonjour, comment s'inscrire?") 1 DEFAULT_MULTI_THRESHOLD).
  lia.
Defined.

(** C7, the claim as stated fails twice.  With the threshold 0.634 the
    contact entry, whose score is 0.6345..., is returned with the
    confidence 0.63, which is below the threshold; and with [top_k = -1]
    the slice drops the last of two matches and returns one entry, which
    is more than [top_k]. *)
Lemma find_multiple_matches_below_threshold :
  map (fun m => (id (mr_faq m), mr_confidence m, (mr_confidence m <? 0.634)%float))
      (find_multiple_matches Examples.tables faq_matcher (u "contact university")
         DEFAULT_TOP_K 0.634%float)
  = [(22, 0.63%float, true)]
  /\ map (fun m => id (mr_faq m))
         (find_multiple_matches Examples.tables faq_matcher
            (u "Bonjour, comment s'inscrire?") (-1) DEFAULT_MULTI_THRESHOLD)
     = [1].
Proof. split; vm_compute; reflexivity. Qed.

(** ** Rendering: [replace] and [fill] *)

Lemma replace_from_skip old new s : forall k,
  replace_from k old new s = replace_from 0 old new (drop k s).
Proof.
  induction s as [|c r IH]; intros k.
  - destruct k; reflexivity.
  - destruct k as [|k]; [reflexivity |]. cbn [replace_from drop]. apply IH.
Qed.

Lemma replace_from_match old new c r :
  old <> [] -> startswith old (c :: r) = true ->
  replace_from 0 old new (c :: r)
  = new ++ replace_from 0 old new (drop (length old) (c :: r)).
Proof.
  intros Hne Hsw. cbn [replace_from]. rewrite Hsw. f_equal.
  rewrite replace_from_skip. destruct old as [|o old']; [congruence |].
  replace (length (o :: old') - 1)%nat with (length old') by (cbn [length]; lia).
  reflexivity.
Qed.

Lemma replace_from_nomatch old new c r :
  startswith old (c :: r) = false ->
  replace_from 0 old new (c :: r) = c :: replace_from 0 old new r.
Proof. intros Hsw. cbn [replace_from]. rewrite Hsw. reflexivity. Qed.

Lemma brace_free_app a b :
  brace_free (a ++ b) = brace_free a && brace_free b.
Proof. unfold brace_free. apply forallb_app. Qed.

(** A brace-free prefix of [r] is still a prefix after the replacement of
    a token, which starts with a brace. *)
Lemma startswith_replace_from body tb new : forall r,
  brace_free body = true ->
  startswith body r = true ->
  startswith body (replace_from 0 (LBRACE :: tb) new r) = true.
Proof.
  induction body as [|x body IH]; intros r Hfree Hsw; [reflexivity |].
  destruct r as [|c r]; [discriminate |].
  cbn [startswith] in Hsw. apply andb_true_iff in Hsw as [Hxc Hsw].
  cbn [brace_free forallb] in Hfree. apply andb_true_iff in Hfree as [Hx Hfree].
  apply N.eqb_eq in Hxc. subst c.
  rewrite replace_from_nomatch.
  - cbn [startswith]. rewrite N.eqb_refl. apply IH; assumption.
  - cbn [startswith]. rewrite N.eqb_sym. apply negb_true_iff in Hx. rewrite Hx.
    reflexivity.
Qed.

Lemma braces_open_tokens_drop toks s : forall k,
  braces_open_tokens toks s = true -> braces_open_tokens toks (drop k s) = true.
Proof.
  induction s as [|c r IH]; intros k H; [destruct k; exact H |].
  destruct k as [|k]; [exact H |]. cbn [drop]. apply IH.
  cbn [braces_open_tokens] in H. apply andb_true_iff in H as [_ H]. exact H.
Qed.

Lemma braces_open_tokens_app_free toks v s :
  brace_free v = true ->
  braces_open_tokens toks s = true ->
  braces_open_tokens toks (v ++ s) = true.
Proof.
  intros Hv Hs. induction v as [|c v IH]; [exact Hs |].
  cbn [brace_free forallb] in Hv. apply andb_true_iff in Hv as [Hc Hv].
  cbn [app braces_open_tokens]. rewrite Hc. cbn [orb andb]. apply IH. exact Hv.
Qed.

(** One step of [fill]: after the replacement of the first token, every
    opening brace starts one of the remaining tokens. *)
Lemma braces_open_tokens_replace (tb v : str) (toks : list str) :
  brace_free tb = true ->
  brace_free v = true ->
  Forall (fun t => exists tb', t = LBRACE :: tb' /\ brace_free tb' = true) toks ->
  forall n s, (length s <= n)%nat ->
    braces_open_tokens ((LBRACE :: tb) :: toks) s = true ->
    braces_open_tokens toks (replace_from 0 (LBRACE :: tb) v s) = true.
Proof.
  intros Htb Hv Htoks. induction n as [|n IH]; intros s Hlen Hs.
  - destruct s; [reflexivity | cbn in Hlen; lia].
  - destruct s as [|c r]; [reflexivity |].
    destruct (startswith (LBRACE :: tb) (c :: r)) eqn:Hsw.
    + rewrite replace_from_match by (exact Hsw || discriminate).
      apply braces_open_tokens_app_free; [exact Hv |].
      apply IH.
      * rewrite length_drop. cbn [length] in *. lia.
      * apply braces_open_tokens_drop. exact Hs.
    + rewrite replace_from_nomatch by exact Hsw.
      cbn [braces_open_tokens] in Hs. apply andb_true_iff in Hs as [Hc Hr].
      cbn [braces_open_tokens]. apply andb_true_iff. split.
      * apply orb_true_iff in Hc as [Hc | Hc]; [rewrite Hc; reflexivity |].
        apply orb_true_iff. right.
        cbn [existsb] in Hc. rewrite Hsw in Hc. cbn [orb] in Hc.
        apply existsb_exists in Hc as (t & Ht & Hst).
        apply existsb_exists. exists t. split; [exact Ht |].
        rewrite Forall_forall in Htoks.
        destruct (Htoks t (proj2 (list_elem_of_In _ _) Ht)) as (tb' & -> & Hfree).
        cbn [startswith] in Hst |- *.
        apply andb_true_iff in Hst as [Hhead Hst]. rewrite Hhead. cbn [andb].
        apply startswith_replace_from; assumption.
      * apply IH; [cbn [length] in Hlen; lia | exact Hr].
Qed.

Lemma braces_open_tokens_nil s :
  braces_open_tokens [] s = true -> brace_free s = true.
Proof.
  induction s as [|c r IH]; [reflexivity |]. cbn [braces_open_tokens existsb].
  rewrite orb_false_r. intros H. apply andb_true_iff in H as [Hc Hr].
  cbn [brace_free forallb]. rewrite Hc. apply IH. exact Hr.
Qed.

Lemma token_unfold key : token key = LBRACE :: key ++ [125%N].
Proof. reflexivity. Qed.

(** [fill] on a template whose braces all start tokens of the dictionary,
    with brace-free keys and values: no opening brace is left. *)
Lemma fill_brace_free (ph : placeholders) : forall template,
  Forall (fun kv => brace_free (fst kv) = true /\ brace_free (snd kv) = true) ph ->
  braces_open_tokens (map (fun kv => token (fst kv)) ph) template = true ->
  brace_free (fill template ph) = true.
Proof.
  induction ph as [|[k v] ph IH]; intros template Hph Ht.
  - apply braces_open_tokens_nil. exact Ht.
  - apply Forall_cons in Hph as [[Hk Hv] Hph]. cbn [fst snd] in Hk, Hv.
    unfold fill. cbn [fold_left fst snd]. fold (fill (replace (token k) v template) ph).
    apply IH; [exact Hph |].
    rewrite token_unfold. cbn [replace].
    cbn [map fst] in Ht. rewrite token_unfold in Ht.
    apply (braces_open_tokens_replace (k ++ [125%N]) v _) with (n := length template).
    + rewrite brace_free_app, Hk. reflexivity.
    + exact Hv.
    + apply Forall_forall. intros t Ht'.
      apply list_elem_of_fmap in Ht' as ([k' v'] & -> & Hin).
      rewrite Forall_forall in Hph. destruct (Hph _ Hin) as [Hk' _].
      cbn [fst] in *. exists (k' ++ [125%N]). split; [apply token_unfold |].
      rewrite brace_free_app, Hk'. reflexivity.
    + lia.
    + exact Ht.
Qed.

Lemma contains_brace_free key s :
  brace_free s = true -> contains (token key) s = false.
Proof.
  rewrite token_unfold. induction s as [|c r IH]; intros Hs; [reflexivity |].
  cbn [brace_free forallb] in Hs. apply andb_true_iff in Hs as [Hc Hr].
  cbn [contains startswith]. rewrite N.eqb_sym. apply negb_true_iff in Hc.
  rewrite Hc. cbn [andb orb]. apply IH. exact Hr.
Qed.

Lemma build_placeholders_keys university :
  map fst (build_placeholders university) = PLACEHOLDER_KEYS.
Proof. destruct university; reflexivity. Qed.

Lemma placeholder_keys_brace_free :
  forallb brace_free PLACEHOLDER_KEYS = true.
Proof. vm_compute. reflexivity. Qed.

Lemma templates_well_formed_true : templates_well_formed = true.
Proof. vm_compute. reflexivity. Qed.

Lemma dict_get_elem d key v : dict_get d key = Some v -> exists k, (k, v) ∈ d.
Proof.
  unfold dict_get. destruct (find _ d) as [[k v']|] eqn:E; [| discriminate].
  intros [= <-]. exists k. apply list_elem_of_In. apply (find_some _ _ E).
Qed.

(** The template [search_faq] selects for an entry of the catalog. *)
Lemma selected_template_well_formed f code :
  f ∈ _FAQS ->
  braces_open_tokens (map token PLACEHOLDER_KEYS)
    (or_else (dict_get (answers f) code) (default [] (dict_get (answers f) (u "en"))))
  = true.
Proof.
  intros Hf. pose proof templates_well_formed_true as Hwf.
  unfold templates_well_formed in Hwf. rewrite forallb_forall in Hwf.
  specialize (Hwf f (proj1 (list_elem_of_In _ _) Hf)). rewrite forallb_forall in Hwf.
  assert (Hget : forall key v, dict_get (answers f) key = Some v ->
                   braces_open_tokens (map token PLACEHOLDER_KEYS) v = true).
  { intros key v Hv. apply dict_get_elem in Hv as (k & Hin).
    apply (Hwf (k, v)). apply list_elem_of_In. exact Hin. }
  destruct (dict_get (answers f) code) as [[|c s]|] eqn:E1; cbn [or_else].
  2: { apply (Hget _ _ E1). }
  all: destruct (dict_get (answers f) (u "en")) as [v|] eqn:E2; cbn [default];
    [apply (Hget _ _ E2) | reflexivity].
Qed.

Lemma find_best_match_default_returns U self user_query :
  find_best_match U self user_query DEFAULT_BEST_THRESHOLD <> TypeError.
Proof.
  unfold find_best_match.
  pose proof (best_loop_spec U (_preprocess U user_query) (faqs self)) as Hspec.
  cbv zeta in Hspec.
  destruct (best_loop U (_preprocess U user_query) (faqs self) None 0%float)
    as [best bs].
  cbn [fst snd] in Hspec. destruct Hspec as (_ & _ & Hbest).
  destruct (DEFAULT_BEST_THRESHOLD <=? bs)%float eqn:Hth; [| discriminate].
  destruct best as [f|]; [discriminate |].
  rewrite Hbest in Hth. vm_compute in Hth. discriminate.
Qed.

Lemma find_best_match_member U self user_query threshold m :
  find_best_match U self user_query threshold = Ok (Some m) ->
  mr_faq m ∈ faqs self.
Proof.
  unfold find_best_match.
  pose proof (best_loop_spec U (_preprocess U user_query) (faqs self)) as Hspec.
  cbv zeta in Hspec.
  destruct (best_loop U (_preprocess U user_query) (faqs self) None 0%float)
    as [best bs].
  cbn [fst snd] in Hspec. destruct Hspec as (_ & _ & Hbest).
  destruct (threshold <=? bs)%float; [| discriminate].
  destruct best as [f|]; [| discriminate].
  intros [= <-]. cbn [mr_faq]. destruct Hbest as (_ & pre & post & -> & _).
  apply elem_of_app. right. apply elem_of_cons. left. reflexivity.
Qed.

(** C9 (as the code has it). When no value of the placeholder dictionary
    contains an opening brace, [search_faq] does not raise and the answer
    of a match has no opening brace left: every occurrence of every token
    of the dictionary in the selected template has been substituted, and no
    token occurs in the answer. *)
Theorem search_faq_resolves_tokens (U : unicode_tables) (query : str)
    (university : option University) :
  (forall key value, (key, value) ∈ build_placeholders university ->
                     brace_free value = true) ->
  match search_faq U query university with
  | Ok (Found answer _ _ _ _) =>
      brace_free answer = true
      /\ forall key, key ∈ PLACEHOLDER_KEYS -> contains (token key) answer = false
  | Ok (NotFound _ _) => True
  | TypeError => False
  end.
Proof.
  intros Hvalues. unfold search_faq.
  destruct (find_best_match U faq_matcher query DEFAULT_BEST_THRESHOLD)
    as [[m|]|] eqn:E.
  - cbv zeta.
    assert (Hfree : brace_free
              (fill (or_else (dict_get (answers (mr_faq m))
                                (lang_code (detect_language U query)))
                       (default [] (dict_get (answers (mr_faq m)) (u "en"))))
                    (build_placeholders university)) = true).
    { apply fill_brace_free.
      - apply Forall_forall. intros [k v] Hin. cbn [fst snd]. split.
        + pose proof placeholder_keys_brace_free as Hkeys.
          rewrite forallb_forall in Hkeys. apply Hkeys. apply list_elem_of_In.
          rewrite <- (build_placeholders_keys university).
          apply (list_elem_of_fmap_2 fst _ (k, v) Hin).
        + apply (Hvalues k v Hin).
      - rewrite <- (map_map fst token), build_placeholders_keys.
        apply selected_template_well_formed.
        apply (find_best_match_member _ _ _ _ _ E). }
    split; [exact Hfree |].
    intros key _. apply contains_brace_free. exact Hfree.
  - exact I.
  - exact (find_best_match_default_returns _ _ _ E).
Qed.

Lemma search_faq_resolves_tokens_witness :
  match search_faq Examples.tables (u "contact university") (Some Examples.uni_no_city) with
  | Ok (Found answer _ _ _ _) =>
      brace_free answer = true
      /\ forall key, key ∈ PLACEHOLDER_KEYS -> contains (token key) answer = false
  | Ok (NotFound _ _) => True
  | TypeError => False
  end.
Proof.
  apply (search_faq_resolves_tokens Examples.tables (u "contact university")
           (Some Examples.uni_no_city)).
  intros key value Hin. apply list_elem_of_In in Hin.
  assert (Hall : forallb (fun kv => brace_free (snd kv))
                   (build_placeholders (Some Examples.uni_no_city)) = true)
    by (vm_compute; reflexivity).
  rewrite forallb_forall in Hall. apply (Hall (key, value) Hin).
Defined.

(** C9, the claim as stated fails: with a snapshot whose address is the
    text [{university_name}], the answer to "contact university" is found
    and still contains that token, because the address is substituted
    after the university name. *)
Lemma search_faq_leaves_token :
  contains (token (u "university_name"))
    (answer_of (search_faq Examples.tables (u "contact university")
                  (Some Examples.uni_braces)))
  = true.
Proof. vm_compute. reflexivity. Qed.

(* ===================================================================== *)
(** * The message handler beyond the guard *)
(* ===================================================================== *)

Lemma append_history_existing now ss uid r c s :
  ss !! uid = Some s ->
  _append_history now ss uid r c
  = <[uid := set_history (last_n MAX_HISTORY_MESSAGES (history s ++ [Turn r c])) s]> ss.
Proof.
  intros Hs. unfold _append_history, _session. rewrite Hs.
  destruct (MAX_HISTORY_MESSAGES <? length (history s ++ [Turn r c]))%nat eqn:L.
  - reflexivity.
  - apply Nat.ltb_ge in L. rewrite (last_n_short _ _ L). reflexivity.
Qed.

Lemma history_of_existing ss uid s : ss !! uid = Some s -> history_of ss uid = history s.
Proof. intros Hs. unfold history_of. rewrite Hs. reflexivity. Qed.

Lemma setup_complete_has_session ss uid :
  _is_setup_complete ss uid = true -> exists s, ss !! uid = Some s.
Proof.
  unfold _is_setup_complete. destruct (ss !! uid) as [s|]; [eauto | discriminate].
Qed.

(** X1. A message of a user whose selection is complete, when the two
    lookups and the generation succeed: the reply is the generated text;
    the generator is given the last ten turns of the old history followed
    by the new user turn; and the store afterwards differs only in that
    user's history, which is the last ten turns of the old history followed
    by the user turn and the reply. *)
Theorem handle_message_success
    (get_university_context : option Z -> option (option str))
    (search_knowledge : str -> option Z -> nat -> option (list kb_entry))
    (generate_chat_response : list turn -> option str -> option str -> option str)
    (now : Z) (sessions : gmap Z session) (user_id : Z) (user_message : str)
    (s : session) (university_context : option str) (knowledge_results : list kb_entry)
    (ai_response : str) :
  sessions !! user_id = Some s ->
  _is_setup_complete sessions user_id = true ->
  get_university_context (university_id s) = Some university_context ->
  search_knowledge user_message (university_id s) 3%nat = Some knowledge_results ->
  generate_chat_response
    (last_n MAX_HISTORY_MESSAGES (history s ++ [Turn (u "user") user_message]))
    university_context (knowledge_context_of knowledge_results) = Some ai_response ->
  handle_message get_university_context search_knowledge generate_chat_response
                 now sessions user_id user_message
  = (ai_response,
     <[user_id := set_history
                    (last_n MAX_HISTORY_MESSAGES
                       (history s ++ [Turn (u "user") user_message;
                                      Turn (u "assistant") ai_response])) s]> sessions).
Proof.
  intros Hs Hready Hctx Hkb Hgen. unfold handle_message, _session.
  rewrite Hready, Hs. cbn [negb]. rewrite Hctx, Hkb.
  rewrite (append_history_existing _ _ _ _ _ _ Hs).
  rewrite (history_of_existing _ _ _ (lookup_insert_eq _ _ _)).
  cbn [history set_history]. rewrite Hgen.
  rewrite (append_history_existing _ _ _ _ _ _ (lookup_insert_eq _ _ _)).
  rewrite insert_insert_eq. cbn [history set_history].
  rewrite last_n_app_last_n, <- app_assoc. reflexivity.
Qed.

Lemma handle_message_success_witness :
  handle_message Examples.ctx_none Examples.kb_none Examples.gen_echo
                 5 MoreExamples.ready 7 (u "hello")
  = (u "ok",
     <[7 := set_history
              (last_n MAX_HISTORY_MESSAGES
                 (history MoreExamples.ready_session
                  ++ [Turn (u "user") (u "hello"); Turn (u "assistant") (u "ok")]))
              MoreExamples.ready_session]> MoreExamples.ready).
Proof.
  apply (handle_message_success Examples.ctx_none Examples.kb_none Examples.gen_echo
           5 MoreExamples.ready 7 (u "hello") MoreExamples.ready_session None [] (u "ok"));
    vm_compute; reflexivity.
Defined.

(** X2. A message of a user whose selection is complete, when something
    fails.  If the university context or the knowledge search raises, the
    apology is sent and the store is unchanged.  If the generation raises,
    the apology is sent and the user turn stays in the history, with no
    reply after it: nothing is rolled back. *)
Theorem handle_message_failure
    (get_university_context : option Z -> option (option str))
    (search_knowledge : str -> option Z -> nat -> option (list kb_entry))
    (generate_chat_response : list turn -> option str -> option str -> option str)
    (now : Z) (sessions : gmap Z session) (user_id : Z) (user_message : str)
    (s : session) :
  sessions !! user_id = Some s ->
  _is_setup_complete sessions user_id = true ->
  let out := handle_message get_university_context search_knowledge
               generate_chat_response now sessions user_id user_message in
  (get_university_context (university_id s) = None
   \/ search_knowledge user_message (university_id s) 3%nat = None ->
   out = (MSG_SORRY, sessions))
  /\ (forall university_context knowledge_results,
        get_university_context (university_id s) = Some university_context ->
        search_knowledge user_message (university_id s) 3%nat = Some knowledge_results ->
        generate_chat_response
          (last_n MAX_HISTORY_MESSAGES (history s ++ [Turn (u "user") user_message]))
          university_context (knowledge_context_of knowledge_results) = None ->
        out = (MSG_SORRY,
               <[user_id := set_history
                              (last_n MAX_HISTORY_MESSAGES
                                 (history s ++ [Turn (u "user") user_message])) s]>
                 sessions)).
Proof.
  intros Hs Hready out. subst out. unfold handle_message, _session.
  rewrite Hready, Hs. cbn [negb]. split.
  - intros [Hctx | Hkb].
    + rewrite Hctx. reflexivity.
    + rewrite Hkb. destruct (get_university_context (university_id s)); reflexivity.
  - intros university_context knowledge_results Hctx Hkb Hgen.
    rewrite Hctx, Hkb.
    rewrite (append_history_existing _ _ _ _ _ _ Hs).
    rewrite (history_of_existing _ _ _ (lookup_insert_eq _ _ _)).
    cbn [history set_history]. rewrite Hgen. reflexivity.
Qed.

Lemma handle_message_failure_witness :
  let out := handle_message Examples.ctx_none Examples.kb_none MoreExamples.gen_fails
               5 MoreExamples.ready 7 (u "hello") in
  (Examples.ctx_none (university_id MoreExamples.ready_session) = None
   \/ Examples.kb_none (u "hello") (university_id MoreExamples.ready_session) 3%nat = None ->
   out = (MSG_SORRY, MoreExamples.ready))
  /\ (forall university_context knowledge_results,
        Examples.ctx_none (university_id MoreExamples.ready_session)
          = Some university_context ->
        Examples.kb_none (u "hello") (university_id MoreExamples.ready_session) 3%nat
          = Some knowledge_results ->
        MoreExamples.gen_fails
          (last_n MAX_HISTORY_MESSAGES
             (history MoreExamples.ready_session ++ [Turn (u "user") (u "hello")]))
          university_context (knowledge_context_of knowledge_results) = None ->
        out = (MSG_SORRY,
               <[7 := set_history
                        (last_n MAX_HISTORY_MESSAGES
                           (history MoreExamples.ready_session
                            ++ [Turn (u "user") (u "hello")]))
                        MoreExamples.ready_session]> MoreExamples.ready)).
Proof.
  apply (handle_message_failure Examples.ctx_none Examples.kb_none MoreExamples.gen_fails
           5 MoreExamples.ready 7 (u "hello") MoreExamples.ready_session);
    vm_compute; reflexivity.
Defined.

(** What a handler may do to the store: it never adds or removes a session
    of a user other than [user_id], and it leaves [keep] of every session
    that was there as it was. *)
Lemma insert_keeps {A} (keep : session -> A) (ss : gmap Z session) uid s s' :
  ss !! uid = Some s -> keep s' = keep s ->
  forall uid', (uid' <> uid -> <[uid := s']> ss !! uid' = ss !! uid')
               /\ keep <$> (<[uid := s']> ss !! uid') = keep <$> (ss !! uid').
Proof.
  intros Hs Hk uid'. split.
  - intros Hne. apply lookup_insert_ne. congruence.
  - destruct (decide (uid' = uid)) as [-> | Hne].
    + rewrite lookup_insert_eq, Hs. cbn. rewrite Hk. reflexivity.
    + rewrite lookup_insert_ne by congruence. reflexivity.
Qed.

Lemma handle_message_keeps
    (get_university_context : option Z -> option (option str))
    (search_knowledge : str -> option Z -> nat -> option (list kb_entry))
    (generate_chat_response : list turn -> option str -> option str -> option str)
    (now : Z) (sessions : gmap Z session) (user_id : Z) (user_message : str)
    (other : Z) :
  let sessions' := snd (handle_message get_university_context search_knowledge
                          generate_chat_response now sessions user_id user_message) in
  (other <> user_id -> sessions' !! other = sessions !! other)
  /\ (fun s => (selection s, session_start s)) <$> (sessions' !! other)
     = (fun s => (selection s, session_start s)) <$> (sessions !! other).
Proof.
  intros sessions'. subst sessions'. unfold handle_message.
  destruct (_is_setup_complete sessions user_id) eqn:Hready; cbn [negb];
    [| cbn [snd]; split; reflexivity].
  destruct (setup_complete_has_session _ _ Hready) as [s Hs].
  unfold _session. rewrite Hs.
  destruct (get_university_context (university_id s)) as [ctx|];
    [| cbn [snd]; split; reflexivity].
  destruct (search_knowledge user_message (university_id s) 3%nat) as [kb|];
    [| cbn [snd]; split; reflexivity].
  rewrite (append_history_existing _ _ _ _ _ _ Hs).
  destruct (generate_chat_response _ ctx (knowledge_context_of kb)) as [ai|]; cbn [snd].
  - rewrite (append_history_existing _ _ _ _ _ _ (lookup_insert_eq _ _ _)).
    rewrite insert_insert_eq.
    apply (insert_keeps (fun s => (selection s, session_start s)) _ _ _ _ Hs).
    reflexivity.
  - apply (insert_keeps (fun s => (selection s, session_start s)) _ _ _ _ Hs).
    reflexivity.
Qed.

(** X3. Whatever the services do, [handle_message] changes nothing but the
    history of the sender: the session of every other user is untouched,
    no session is created or removed, and the selection and the start
    time of the sender stay as they were. *)
Theorem handle_message_frame
    (get_university_context : option Z -> option (option str))
    (search_knowledge : str -> option Z -> nat -> option (list kb_entry))
    (generate_chat_response : list turn -> option str -> option str -> option str)
    (now : Z) (sessions : gmap Z session) (user_id : Z) (user_message : str)
    (other : Z) :
  let sessions' := snd (handle_message get_university_context search_knowledge
                          generate_chat_response now sessions user_id user_message) in
  (other <> user_id -> sessions' !! other = sessions !! other)
  /\ (fun s => (selection s, session_start s)) <$> (sessions' !! other)
     = (fun s => (selection s, session_start s)) <$> (sessions !! other).
Proof.
  apply handle_message_keeps.
Qed.


(* ===================================================================== *)
(** * [int(str(n))] *)
(* ===================================================================== *)

Section IntOfStrFacts.

Context (to_decimal : codepoint -> option N) (max_str_digits : nat).

Local Abbreviation digits_text d := (u (NilEmpty.string_of_uint d)).
Local Abbreviation of_lu := DecimalPos.Unsigned.of_lu.

Lemma ascii_digit_range c : ascii_digit c = true -> (48 <= c <= 57)%N.
Proof.
  unfold ascii_digit. rewrite andb_true_iff, !N.leb_le. tauto.
Qed.

Lemma to_ascii_digit c : ascii_digit c = true -> to_ascii to_decimal c = c.
Proof.
  intros H. apply ascii_digit_range in H. unfold to_ascii.
  destruct (c <? 127)%N eqn:E; [reflexivity |]. apply N.ltb_ge in E. lia.
Qed.


Lemma u_ascii_cons (a : ascii) (s : string) :
  (N_of_ascii a <? 128)%N = true -> u (String a s) = N_of_ascii a :: u s.
Proof.
  intros H. unfold u. cbn [list_ascii_of_string map utf8_decode]. rewrite H. reflexivity.
Qed.


Ltac char_code :=
  repeat match goal with
         | |- context [N_of_ascii ?a] =>
             let v := eval vm_compute in (N_of_ascii a) in
             change (N_of_ascii a) with v
         end.

Ltac next_digit :=
  cbn [NilEmpty.string_of_uint]; rewrite u_ascii_cons by reflexivity.









(** The text of an integer has no underscore, so the first underscore of
    a callback is the one after the prefix. *)
Lemma split_once_from_digits sep cur d :
  (sep <? 48)%N || (57 <? sep)%N = true ->
  split_once_from sep cur (digits_text d) = [rev cur ++ digits_text d].
Proof.
  intros Hsep. revert cur.
  induction d as [|d IH|d IH|d IH|d IH|d IH|d IH|d IH|d IH|d IH|d IH]; intros cur;
    [cbn; rewrite app_nil_r; reflexivity | ..];
    next_digit; cbn [split_once_from];
    match goal with
    | |- context [(?c =? sep)%N] =>
        replace (c =? sep)%N with false
          by (symmetry; apply N.eqb_neq; char_code;
              apply orb_true_iff in Hsep as [H | H]; apply N.ltb_lt in H; lia)
    end;
    rewrite IH; cbn [rev]; rewrite <- app_assoc; reflexivity.
Qed.

End IntOfStrFacts.

(* ===================================================================== *)
(** * The selection flow *)
(* ===================================================================== *)

Lemma startswith_app (p r : str) : startswith p (p ++ r) = true.
Proof.
  induction p as [|c p IH]; [destruct r; reflexivity |].
  cbn [app startswith]. rewrite N.eqb_refl. exact IH.
Qed.

(** ** What the callbacks leave alone *)

Lemma university_selected_frame {A} (keep : session -> A) db ss uid i :
  (forall n o s, keep (set_university n o s) = keep s) ->
  (forall n o s, keep (set_faculty n o s) = keep s) ->
  forall other,
    let ss' := snd (_handle_university_selected db ss uid i) in
    (other <> uid -> ss' !! other = ss !! other)
    /\ keep <$> (ss' !! other) = keep <$> (ss !! other).
Proof.
  intros Hu Hf other ss'. subst ss'. unfold _handle_university_selected.
  destruct (university_get db i) as [uni|]; [| split; reflexivity].
  destruct (negb (truthy_flag (u_is_active uni))); [split; reflexivity |].
  destruct (ss !! uid) as [s|] eqn:Hs; [| split; reflexivity].
  destruct (_build_faculty_keyboard db i); cbn [snd].
  - apply (insert_keeps keep _ _ _ _ Hs). apply Hu.
  - rewrite insert_insert_eq. apply (insert_keeps keep _ _ _ _ Hs).
    rewrite Hf. apply Hu.
Qed.

Lemma faculty_selected_frame {A} (keep : session -> A) db ss uid i :
  (forall n o s, keep (set_faculty n o s) = keep s) ->
  (forall n o s, keep (set_department n o s) = keep s) ->
  forall other,
    let ss' := snd (_handle_faculty_selected db ss uid i) in
    (other <> uid -> ss' !! other = ss !! other)
    /\ keep <$> (ss' !! other) = keep <$> (ss !! other).
Proof.
  intros Hf Hd other ss'. subst ss'. unfold _handle_faculty_selected.
  destruct (faculty_get db i) as [fac|]; [| split; reflexivity].
  destruct (negb (truthy_flag (f_is_active fac))); [split; reflexivity |].
  destruct (ss !! uid) as [s|] eqn:Hs; [| split; reflexivity].
  destruct (_build_department_keyboard db i); cbn [snd].
  - apply (insert_keeps keep _ _ _ _ Hs). apply Hf.
  - rewrite insert_insert_eq. apply (insert_keeps keep _ _ _ _ Hs).
    rewrite Hd. apply Hf.
Qed.

Lemma department_selected_frame {A} (keep : session -> A) db ss uid i :
  (forall n o s, keep (set_department n o s) = keep s) ->
  forall other,
    let ss' := snd (_handle_department_selected db ss uid i) in
    (other <> uid -> ss' !! other = ss !! other)
    /\ keep <$> (ss' !! other) = keep <$> (ss !! other).
Proof.
  intros Hd other ss'. subst ss'. unfold _handle_department_selected.
  destruct (department_get db i) as [dept|]; [| split; reflexivity].
  destruct (negb (truthy_flag (d_is_active dept))); [split; reflexivity |].
  destruct (ss !! uid) as [s|] eqn:Hs; [| split; reflexivity].
  cbn [snd]. apply (insert_keeps keep _ _ _ _ Hs). apply Hd.
Qed.

Lemma skip_department_frame {A} (keep : session -> A) ss uid r ss' :
  (forall n o s, keep (set_department n o s) = keep s) ->
  _handle_skip_department ss uid = Returned (r, ss') ->
  forall other,
    (other <> uid -> ss' !! other = ss !! other)
    /\ keep <$> (ss' !! other) = keep <$> (ss !! other).
Proof.
  intros Hd. unfold _handle_skip_department.
  destruct (ss !! uid) as [s|] eqn:Hs; [| discriminate].
  intros [= _ <-] other. apply (insert_keeps keep _ _ _ _ Hs). apply Hd.
Qed.

(** Every way through [callback_router] that returns. *)
Lemma callback_router_cases to_decimal max_str_digits db ss uid data r ss' :
  callback_router to_decimal max_str_digits db ss uid data = Returned (r, ss') ->
  (exists i, (r, ss') = _handle_university_selected db ss uid i)
  \/ (exists i, (r, ss') = _handle_faculty_selected db ss uid i)
  \/ (exists i, (r, ss') = _handle_department_selected db ss uid i)
  \/ _handle_skip_department ss uid = Returned (r, ss')
  \/ ss' = ss.
Proof.
  unfold callback_router.
  destruct (startswith (CALLBACK_UNI ++ u "_") data).
  { destruct (callback_id to_decimal max_str_digits data) as [i|]; [| discriminate].
    intros [= H]. left. exists i. symmetry. exact H. }
  destruct (startswith (CALLBACK_FAC ++ u "_") data).
  { destruct (callback_id to_decimal max_str_digits data) as [i|]; [| discriminate].
    intros [= H]. right. left. exists i. symmetry. exact H. }
  destruct (startswith (CALLBACK_DEPT ++ u "_") data).
  { destruct (callback_id to_decimal max_str_digits data) as [i|]; [| discriminate].
    intros [= H]. right. right. left. exists i. symmetry. exact H. }
  destruct (str_eqb data CALLBACK_SKIP).
  { intros H. right. right. right. left. exact H. }
  intros [= _ <-]. right. right. right. right. reflexivity.
Qed.

Lemma callback_router_keeps {A} (keep : session -> A)
    to_decimal max_str_digits db ss uid data r ss' :
  (forall n o s, keep (set_university n o s) = keep s) ->
  (forall n o s, keep (set_faculty n o s) = keep s) ->
  (forall n o s, keep (set_department n o s) = keep s) ->
  callback_router to_decimal max_str_digits db ss uid data = Returned (r, ss') ->
  forall other,
    (other <> uid -> ss' !! other = ss !! other)
    /\ keep <$> (ss' !! other) = keep <$> (ss !! other).
Proof.
  intros Hu Hf Hd Hr other.
  destruct (callback_router_cases _ _ _ _ _ _ _ _ Hr)
    as [[i H] | [[i H] | [[i H] | [H | ->]]]].
  - replace ss' with (snd (_handle_university_selected db ss uid i))
      by (rewrite <- H; reflexivity).
    apply university_selected_frame; assumption.
  - replace ss' with (snd (_handle_faculty_selected db ss uid i))
      by (rewrite <- H; reflexivity).
    apply faculty_selected_frame; assumption.
  - replace ss' with (snd (_handle_department_selected db ss uid i))
      by (rewrite <- H; reflexivity).
    apply department_selected_frame; assumption.
  - apply (skip_department_frame keep _ _ _ _ Hd H).
  - split; reflexivity.
Qed.

(** X4. Whatever button is pressed and whatever data arrives, a callback
    that is handled changes nothing but the selection of the user who
    pressed: the session of every other user is untouched, no session is
    created or removed, and the history and the start time of the user
    stay as they were. *)
Theorem callback_router_frame
    (to_decimal : codepoint -> option N) (max_str_digits : nat) (db : directory)
    (sessions : gmap Z session) (user_id : Z) (data : str)
    (r : reply) (sessions' : gmap Z session) (other : Z) :
  callback_router to_decimal max_str_digits db sessions user_id data
    = Returned (r, sessions') ->
  (other <> user_id -> sessions' !! other = sessions !! other)
  /\ (fun s => (history s, session_start s)) <$> (sessions' !! other)
     = (fun s => (history s, session_start s)) <$> (sessions !! other).
Proof.
  intros Hr.
  apply (callback_router_keeps (fun s => (history s, session_start s))
           _ _ _ _ _ _ _ _ ltac:(reflexivity) ltac:(reflexivity) ltac:(reflexivity) Hr).
Qed.

Lemma callback_router_frame_witness :
  (7 <> 7 -> snd (_handle_university_selected Examples.db MoreExamples.ready 7 2) !! 7
             = MoreExamples.ready !! 7)
  /\ (fun s => (history s, session_start s))
       <$> (snd (_handle_university_selected Examples.db MoreExamples.ready 7 2) !! 7)
     = (fun s => (history s, session_start s)) <$> (MoreExamples.ready !! 7).
Proof.
  apply (callback_router_frame (fun _ => None) 4300 Examples.db MoreExamples.ready 7
           (u "uni_2")
           (fst (_handle_university_selected Examples.db MoreExamples.ready 7 2))).
  vm_compute. reflexivity.
Defined.

(** ** From /start to a session that is ready *)

(** X5. The flow as a user walks it: [/start], then an active university
    that has active faculties, then an active faculty.  The session then
    holds the two selections, an empty history and the start time of
    [/start]; the department is unset when the faculty has active
    departments to choose from and is "N/A" when it has none.  The session
    counts as ready exactly when neither id is 0.  The faculty is not
    required to belong to the university that was chosen. *)
Theorem onboarding_reaches_ready
    (db : directory) (now : Z) (unis : option (list University))
    (sessions : gmap Z session) (user_id : Z) (uni : University) (fac : Faculty) :
  university_get db (u_id uni) = Some uni ->
  truthy_flag (u_is_active uni) = true ->
  active_faculties db (u_id uni) <> [] ->
  faculty_get db (f_id fac) = Some fac ->
  truthy_flag (f_is_active fac) = true ->
  let sessions1 := snd (start_command now unis sessions user_id) in
  let sessions2 := snd (_handle_university_selected db sessions1 user_id (u_id uni)) in
  let sessions3 := snd (_handle_faculty_selected db sessions2 user_id (f_id fac)) in
  sessions3 !! user_id
  = Some (Session (Some (u_id uni)) (u_name uni) (Some (f_id fac)) (Some (f_name fac))
                  None
                  (match active_departments db (f_id fac) with
                   | [] => Some (u "N/A")
                   | _ => None
                   end)
                  now [])
  /\ _is_setup_complete sessions3 user_id
     = negb (u_id uni =? 0) && negb (f_id fac =? 0).
Proof.
  intros Hu Hua Hfs Hf Hfa sessions1 sessions2 sessions3.
  assert (H1 : sessions1 = <[user_id := _new_session now]> sessions).
  { subst sessions1. unfold start_command.
    destruct unis as [rows|]; [| reflexivity].
    destruct (_build_university_keyboard rows); reflexivity. }
  assert (H2 : sessions2
               = <[user_id := set_university (Some (u_id uni)) (u_name uni)
                                (_new_session now)]> sessions1).
  { subst sessions2. unfold _handle_university_selected.
    rewrite Hu, Hua. cbn [negb]. rewrite H1, lookup_insert_eq.
    unfold _build_faculty_keyboard.
    destruct (active_faculties db (u_id uni)); [congruence | reflexivity]. }
  assert (H3 : sessions3 !! user_id
               = Some (Session (Some (u_id uni)) (u_name uni) (Some (f_id fac))
                         (Some (f_name fac)) None
                         (match active_departments db (f_id fac) with
                          | [] => Some (u "N/A")
                          | _ => None
                          end) now [])).
  { subst sessions3. unfold _handle_faculty_selected.
    rewrite Hf, Hfa. cbn [negb]. rewrite H2, lookup_insert_eq.
    unfold _build_department_keyboard.
    destruct (active_departments db (f_id fac)); cbn [snd];
      rewrite lookup_insert_eq; reflexivity. }
  split; [exact H3 |].
  unfold _is_setup_complete. rewrite H3. reflexivity.
Qed.

Lemma onboarding_reaches_ready_witness :
  let sessions1 := snd (start_command 5 None MoreExamples.ready 7) in
  let sessions2 := snd (_handle_university_selected Examples.db sessions1 7 2) in
  let sessions3 := snd (_handle_faculty_selected Examples.db sessions2 7 10) in
  sessions3 !! 7
  = Some (Session (Some 2) (Some (u "USTHB")) (Some 10) (Some (u "Sciences"))
                  None (Some (u "N/A")) 5 [])
  /\ _is_setup_complete sessions3 7 = true.
Proof.
  apply (onboarding_reaches_ready Examples.db 5 None MoreExamples.ready 7
           Examples.uni_large Examples.fac_sciences);
    vm_compute; congruence.
Defined.

(** ** Skipping the department *)

(** X6. [_handle_skip_department] raises KeyError when the user has no
    session.  Otherwise it clears the department and nothing else, so it
    makes no session ready that was not: the readiness of every user is
    what it was.  Its message nevertheless announces that the setup is
    complete, whether or not it is. *)
Theorem skip_department_keeps_readiness (sessions : gmap Z session) (user_id : Z) :
  match _handle_skip_department sessions user_id with
  | Raised e => e = KeyError /\ sessions !! user_id = None
  | Returned (r, sessions') =>
      (exists s, sessions !! user_id = Some s
                 /\ sessions' !! user_id = Some (set_department None None s))
      /\ (forall other, _is_setup_complete sessions' other
                        = _is_setup_complete sessions other)
      /\ startswith (u "✅ *Setup complete!*") (r_text r) = true
  end.
Proof.
  unfold _handle_skip_department.
  destruct (sessions !! user_id) as [s|] eqn:Hs; [| split; reflexivity].
  split; [| split].
  - exists s. split; [reflexivity | apply lookup_insert_eq].
  - intros other. unfold _is_setup_complete.
    destruct (decide (other = user_id)) as [-> | Hne].
    + rewrite lookup_insert_eq, Hs. reflexivity.
    + rewrite lookup_insert_ne by congruence. reflexivity.
  - cbn [r_text markdown]. apply startswith_app.
Qed.

(** ** Starting over *)

(** X7. [/start] and [/reset] forget everything about the user, whatever
    the session held and whether or not the list of universities could be
    read: the session is a new one that starts now, the sessions of the
    other users are untouched, and the next free-text message is answered
    with the directive to complete the profile, with no service called. *)
Theorem restart_forgets_session
    (now : Z) (unis : option (list University)) (sessions : gmap Z session)
    (user_id : Z) :
  let fresh := <[user_id := _new_session now]> sessions in
  snd (start_command now unis sessions user_id) = fresh
  /\ snd (reset_command now sessions user_id) = fresh
  /\ (forall other, other <> user_id -> fresh !! other = sessions !! other)
  /\ (forall get_university_context search_knowledge generate_chat_response now' text,
        handle_message get_university_context search_knowledge generate_chat_response
                       now' fresh user_id text
        = (MSG_INCOMPLETE, fresh)).
Proof.
  intros fresh. split; [| split; [| split]].
  - unfold start_command. destruct unis as [rows|]; [| reflexivity].
    destruct (_build_university_keyboard rows); reflexivity.
  - reflexivity.
  - intros other Hne. apply lookup_insert_ne. congruence.
  - intros gc sk gen now' text. unfold handle_message.
    replace (_is_setup_complete fresh user_id) with false; [reflexivity |].
    symmetry. apply unbound_is_incomplete. subst fresh.
    rewrite lookup_insert_eq. left. reflexivity.
Qed.

(** ** Choosing a university again *)

(** X20. Selecting a university with active faculties writes the
    university id and name and nothing else: a faculty and a department
    chosen earlier, under another university, stay bound.  The session is
    therefore ready right after the selection whenever a faculty was
    bound before and the new id is not 0, with the new university and the
    old faculty. *)
Theorem university_reselection_keeps_faculty
    (db : directory) (sessions : gmap Z session) (user_id : Z) (s : session)
    (uni : University) :
  sessions !! user_id = Some s ->
  university_get db (u_id uni) = Some uni ->
  truthy_flag (u_is_active uni) = true ->
  active_faculties db (u_id uni) <> [] ->
  let sessions' := snd (_handle_university_selected db sessions user_id (u_id uni)) in
  sessions' !! user_id
  = Some (Session (Some (u_id uni)) (u_name uni) (faculty_id s) (faculty_name s)
                  (department_id s) (department_name s) (session_start s) (history s))
  /\ _is_setup_complete sessions' user_id
     = negb (u_id uni =? 0) && truthy_int (faculty_id s).
Proof.
  intros Hs Hu Ha Hf sessions'.
  assert (H : sessions' !! user_id
              = Some (set_university (Some (u_id uni)) (u_name uni) s)).
  { subst sessions'. unfold _handle_university_selected.
    rewrite Hu, Ha, Hs. cbn [negb]. unfold _build_faculty_keyboard.
    destruct (active_faculties db (u_id uni)); [congruence |].
    cbn [snd]. apply lookup_insert_eq. }
  split; [exact H |]. unfold _is_setup_complete. rewrite H. reflexivity.
Qed.

Lemma university_reselection_keeps_faculty_witness :
  let sessions' := snd (_handle_university_selected Examples.db MoreExamples.ready 7 2) in
  sessions' !! 7
  = Some (Session (Some 2) (Some (u "USTHB")) (Some 10) (Some (u "Sciences"))
                  None None 0 (history MoreExamples.ready_session))
  /\ _is_setup_complete sessions' 7 = true.
Proof.
  apply (university_reselection_keeps_faculty Examples.db MoreExamples.ready 7
           MoreExamples.ready_session Examples.uni_large);
    vm_compute; congruence.
Defined.

(* ===================================================================== *)
(** * From a keyboard to its handler *)
(* ===================================================================== *)

Section Router.

Context (to_decimal : codepoint -> option N) (max_str_digits : nat).
Context (db : directory) (sessions : gmap Z session) (user_id : Z).

Local Abbreviation route := (callback_router to_decimal max_str_digits db sessions user_id).

(** The data [uni_<t>], [fac_<t>] and [dept_<t>] for any text [t]: the
    handler named by the prefix is called with [int(t)], and the
    ValueError of [int] leaves the router. *)
Lemma route_university t :
  route (CALLBACK_UNI ++ u "_" ++ t)
  = match py_int to_decimal max_str_digits t with
    | Some i => Returned (_handle_university_selected db sessions user_id i)
    | None => Raised ValueError
    end.
Proof.
  unfold callback_router, callback_id.
  replace (startswith (CALLBACK_UNI ++ u "_") (CALLBACK_UNI ++ u "_" ++ t)) with true
    by (vm_compute; reflexivity).
  replace (split_once 95%N (CALLBACK_UNI ++ u "_" ++ t)) with [CALLBACK_UNI; t]
    by (vm_compute; reflexivity).
  destruct (py_int to_decimal max_str_digits t); reflexivity.
Qed.

Lemma route_faculty t :
  route (CALLBACK_FAC ++ u "_" ++ t)
  = match py_int to_decimal max_str_digits t with
    | Some i => Returned (_handle_faculty_selected db sessions user_id i)
    | None => Raised ValueError
    end.
Proof.
  unfold callback_router, callback_id.
  replace (startswith (CALLBACK_UNI ++ u "_") (CALLBACK_FAC ++ u "_" ++ t)) with false
    by (vm_compute; reflexivity).
  replace (startswith (CALLBACK_FAC ++ u "_") (CALLBACK_FAC ++ u "_" ++ t)) with true
    by (vm_compute; reflexivity).
  replace (split_once 95%N (CALLBACK_FAC ++ u "_" ++ t)) with [CALLBACK_FAC; t]
    by (vm_compute; reflexivity).
  destruct (py_int to_decimal max_str_digits t); reflexivity.
Qed.

Lemma route_department t :
  route (CALLBACK_DEPT ++ u "_" ++ t)
  = match py_int to_decimal max_str_digits t with
    | Some i => Returned (_handle_department_selected db sessions user_id i)
    | None => Raised ValueError
    end.
Proof.
  unfold callback_router, callback_id.
  replace (startswith (CALLBACK_UNI ++ u "_") (CALLBACK_DEPT ++ u "_" ++ t)) with false
    by (vm_compute; reflexivity).
  replace (startswith (CALLBACK_FAC ++ u "_") (CALLBACK_DEPT ++ u "_" ++ t)) with false
    by (vm_compute; reflexivity).
  replace (startswith (CALLBACK_DEPT ++ u "_") (CALLBACK_DEPT ++ u "_" ++ t)) with true
    by (vm_compute; reflexivity).
  replace (split_once 95%N (CALLBACK_DEPT ++ u "_" ++ t)) with [CALLBACK_DEPT; t]
    by (vm_compute; reflexivity).
  destruct (py_int to_decimal max_str_digits t); reflexivity.
Qed.

Lemma route_skip : route CALLBACK_SKIP = _handle_skip_department sessions user_id.
Proof.
  unfold callback_router.
  replace (startswith (CALLBACK_UNI ++ u "_") CALLBACK_SKIP) with false
    by (vm_compute; reflexivity).
  replace (startswith (CALLBACK_FAC ++ u "_") CALLBACK_SKIP) with false
    by (vm_compute; reflexivity).
  replace (startswith (CALLBACK_DEPT ++ u "_") CALLBACK_SKIP) with false
    by (vm_compute; reflexivity).
  unfold str_eqb. rewrite bool_decide_eq_true_2 by reflexivity. reflexivity.
Qed.

End Router.




(* ===================================================================== *)
(** * Runs of the bot *)
(* ===================================================================== *)

Lemma fmap_lookup_is_Some {A} (keep : session -> A) (ss ss' : gmap Z session) uid :
  keep <$> (ss' !! uid) = keep <$> (ss !! uid) ->
  is_Some (ss' !! uid) -> is_Some (ss !! uid).
Proof.
  intros H [s' Hs']. rewrite Hs' in H. destruct (ss !! uid) as [s|]; [eauto | discriminate].
Qed.

Lemma history_of_fmap (ss ss' : gmap Z session) uid :
  history <$> (ss' !! uid) = history <$> (ss !! uid) ->
  history_of ss' uid = history_of ss uid.
Proof.
  unfold history_of. destruct (ss' !! uid), (ss !! uid); cbn; congruence.
Qed.

Lemma history_of_fresh now ss uid other :
  history_of (<[uid := _new_session now]> ss) other
  = if decide (other = uid) then [] else history_of ss other.
Proof.
  unfold history_of. destruct (decide (other = uid)) as [-> | Hne].
  - rewrite lookup_insert_eq. reflexivity.
  - rewrite lookup_insert_ne by congruence. reflexivity.
Qed.

Lemma start_command_store now unis ss uid :
  snd (start_command now unis ss uid) = <[uid := _new_session now]> ss.
Proof.
  unfold start_command. destruct unis as [rows|]; [| reflexivity].
  destruct (_build_university_keyboard rows); reflexivity.
Qed.

(** The history of any user after one message: untouched, or cut to the
    cap. *)
Lemma handle_message_history gc sk gen now ss uid text other :
  let ss' := snd (handle_message gc sk gen now ss uid text) in
  history_of ss' other = history_of ss other
  \/ (length (history_of ss' other) <= MAX_HISTORY_MESSAGES)%nat.
Proof.
  intros ss'. subst ss'. unfold handle_message.
  destruct (negb (_is_setup_complete ss uid)); [left; reflexivity |].
  destruct (_session now ss uid) as [s ss0] eqn:Es.
  assert (H0 : history_of ss0 other = history_of ss other).
  { unfold _session in Es. destruct (ss !! uid) as [s0|] eqn:Hs.
    - injection Es as <- <-. reflexivity.
    - injection Es as <- <-. rewrite history_of_fresh.
      destruct (decide (other = uid)) as [-> | _]; [| reflexivity].
      unfold history_of. rewrite Hs. reflexivity. }
  destruct (gc (university_id s)); [| left; exact H0].
  destruct (sk text (university_id s) 3%nat); [| left; exact H0].
  destruct (decide (other = uid)) as [-> | Hne].
  - right. destruct (gen _ _ _); cbn [snd];
      rewrite history_of_append_same; apply last_n_length.
  - left. destruct (gen _ _ _); cbn [snd];
      rewrite ?history_of_append_other by congruence; exact H0.
Qed.

Lemma handle_update_capped w ss uid upd :
  capped ss -> capped (snd (handle_update w ss uid upd)).
Proof.
  rewrite !capped_history_of. intros Hcap other.
  destruct upd as [| | | | data | text]; cbn [handle_update].
  - destruct (start_command (w_now w) (w_universities w) ss uid) as [r ss'] eqn:E.
    cbn [snd]. replace ss' with (snd (start_command (w_now w) (w_universities w) ss uid))
      by (rewrite E; reflexivity).
    rewrite start_command_store, history_of_fresh.
    destruct (decide (other = uid)); [cbn; lia | apply Hcap].
  - apply Hcap.
  - cbn [reset_command snd]. rewrite history_of_fresh.
    destruct (decide (other = uid)); [cbn; lia | apply Hcap].
  - apply Hcap.
  - destruct (callback_router _ _ _ ss uid data) as [[r ss']|e] eqn:E; cbn [snd];
      [| apply Hcap].
    rewrite (history_of_fmap ss ss'); [apply Hcap |].
    apply (callback_router_keeps history _ _ _ _ _ _ _ _
             ltac:(reflexivity) ltac:(reflexivity) ltac:(reflexivity) E).
  - destruct (handle_message _ _ _ (w_now w) ss uid text) as [t ss'] eqn:E. cbn [snd].
    pose proof (handle_message_history (w_university_context w) (w_search_knowledge w)
                  (w_generate w) (w_now w) ss uid text other) as H.
    rewrite E in H. cbn [snd] in H. destruct H as [-> | H]; [apply Hcap | exact H].
Qed.

Lemma run_cons ss e events :
  run ss (e :: events)
  = run (snd (handle_update (ev_world e) ss (ev_user e) (ev_update e))) events.
Proof. reflexivity. Qed.

(** X9. The cap is an invariant of the whole bot.  Whatever updates
    arrive, from whatever users, in whatever order, and whatever the
    database and the services answer or fail to answer: if no history is
    longer than 10 turns before, none is after.  This holds in particular
    for every store reached from the empty one. *)
Theorem run_keeps_history_cap (sessions : gmap Z session) (events : list event) :
  capped sessions -> capped (run sessions events).
Proof.
  revert sessions. induction events as [|e events IH]; intros sessions Hcap.
  - exact Hcap.
  - rewrite run_cons. apply IH. apply handle_update_capped. exact Hcap.
Qed.

Lemma run_keeps_history_cap_witness :
  capped (run ∅ MoreExamples.busy_day).
Proof.
  apply (run_keeps_history_cap ∅ MoreExamples.busy_day).
  intros uid s H. rewrite lookup_empty in H. discriminate.
Defined.

(** One update creates a session only for its sender, and only when it
    is [/start] or [/reset]. *)
Lemma handle_update_creates w ss uid upd other :
  is_Some (snd (handle_update w ss uid upd) !! other) ->
  is_Some (ss !! other) \/ (other = uid /\ (upd = CmdStart \/ upd = CmdReset)).
Proof.
  destruct upd as [| | | | data | text]; cbn [handle_update].
  - intros H. destruct (decide (other = uid)) as [-> | Hne]; [right; auto |].
    left. destruct (start_command (w_now w) (w_universities w) ss uid) as [r ss'] eqn:E.
    cbn [snd] in H.
    replace ss' with (snd (start_command (w_now w) (w_universities w) ss uid)) in H
      by (rewrite E; reflexivity).
    rewrite start_command_store, lookup_insert_ne in H by congruence. exact H.
  - auto.
  - intros H. destruct (decide (other = uid)) as [-> | Hne]; [right; auto |].
    left. cbn [reset_command snd] in H.
    rewrite lookup_insert_ne in H by congruence. exact H.
  - auto.
  - destruct (callback_router _ _ _ ss uid data) as [[r ss']|e] eqn:E; cbn [snd];
      [| auto].
    intros H. left. apply (fmap_lookup_is_Some history ss ss'); [| exact H].
    apply (callback_router_keeps history _ _ _ _ _ _ _ _
             ltac:(reflexivity) ltac:(reflexivity) ltac:(reflexivity) E).
  - destruct (handle_message _ _ _ (w_now w) ss uid text) as [t ss'] eqn:E. cbn [snd].
    intros H. left.
    pose proof (handle_message_keeps (w_university_context w) (w_search_knowledge w)
                  (w_generate w) (w_now w) ss uid text other) as Hf.
    cbv zeta in Hf. rewrite E in Hf. cbn [snd] in Hf.
    apply (fmap_lookup_is_Some _ ss ss' other (proj2 Hf) H).
Qed.

(** X10. Only [/start] and [/reset] create sessions.  A user who has a
    session after a run had one before it or sent one of the two commands
    during it: callbacks and free text from a user the bot does not know,
    and the [/help] and [/status] commands, leave no trace in the store. *)
Theorem run_creates_sessions_on_command
    (sessions : gmap Z session) (events : list event) (user_id : Z) :
  is_Some (run sessions events !! user_id) ->
  is_Some (sessions !! user_id)
  \/ exists e, e ∈ events /\ ev_user e = user_id
               /\ (ev_update e = CmdStart \/ ev_update e = CmdReset).
Proof.
  revert sessions. induction events as [|e events IH]; intros sessions H.
  - left. exact H.
  - rewrite run_cons in H. destruct (IH _ H) as [H1 | (e' & Hin & Hu & Hc)].
    + destruct (handle_update_creates _ _ _ _ _ H1) as [H0 | [Hu Hc]].
      * left. exact H0.
      * right. exists e. split; [apply elem_of_cons; left; reflexivity |].
        split; [symmetry; exact Hu | exact Hc].
    + right. exists e'. split; [apply elem_of_cons; right; exact Hin |].
      split; [exact Hu | exact Hc].
Qed.

Lemma run_creates_sessions_on_command_witness :
  is_Some ((∅ : gmap Z session) !! 7)
  \/ exists e, e ∈ MoreExamples.busy_day /\ ev_user e = 7
               /\ (ev_update e = CmdStart \/ ev_update e = CmdReset).
Proof.
  apply (run_creates_sessions_on_command ∅ MoreExamples.busy_day 7).
  vm_compute. eauto.
Defined.

(** X19. Button presses that get no answer.  When the text after the
    prefix of a selection callback is not an integer literal, [int] raises
    ValueError; when the skip button is pressed by a user without a
    session, the subscript raises KeyError.  Neither is caught: no reply
    is sent and the store is unchanged. *)
Theorem malformed_callback_unanswered (w : world) (sessions : gmap Z session)
    (user_id : Z) :
  (forall prefix t,
     prefix ∈ [CALLBACK_UNI; CALLBACK_FAC; CALLBACK_DEPT] ->
     py_int (w_to_decimal w) (w_max_str_digits w) t = None ->
     handle_update w sessions user_id (CallbackQuery (prefix ++ u "_" ++ t))
     = (None, sessions))
  /\ (sessions !! user_id = None ->
      handle_update w sessions user_id (CallbackQuery CALLBACK_SKIP) = (None, sessions)).
Proof.
  split.
  - intros prefix t Hp Hint. cbn [handle_update].
    apply elem_of_cons in Hp as [-> | Hp];
      [rewrite route_university, Hint; reflexivity |].
    apply elem_of_cons in Hp as [-> | Hp];
      [rewrite route_faculty, Hint; reflexivity |].
    apply elem_of_cons in Hp as [-> | Hp];
      [rewrite route_department, Hint; reflexivity |].
    apply elem_of_nil in Hp. contradiction.
  - intros Hs. cbn [handle_update]. rewrite route_skip.
    unfold _handle_skip_department. rewrite Hs. reflexivity.
Qed.

(* ===================================================================== *)
(** * The matcher beyond the default arguments *)
(* ===================================================================== *)

Section MatcherMore.

Context (U : unicode_tables).

(** The loop leaves [best] and [best_score] alone when no entry scores
    above [best_score]. *)
Lemma best_loop_unchanged query l best bs :
  (forall g, g ∈ l -> (bs <? score U query g)%float = false) ->
  best_loop U query l best bs = (best, bs).
Proof.
  induction l as [|f rest IH]; intros H; [reflexivity |].
  cbn [best_loop]. cbv zeta.
  rewrite (H f) by (apply elem_of_cons; left; reflexivity).
  apply IH. intros g Hg. apply H. apply elem_of_cons. right. exact Hg.
Qed.

End MatcherMore.

(** X11. [find_best_match] raises TypeError exactly when the threshold is
    at most 0.0 and no entry of the catalog scores above 0.0: the loop
    then leaves [best] at [None], the test [best_score >= threshold]
    passes with [best_score = 0.0], and [best['category']] subscripts
    [None].  In particular it raises on an empty catalog for every
    threshold at most 0.0. *)
Theorem find_best_match_type_error (U : unicode_tables) (self : FAQMatcher) (user_query : str)
    (threshold : float) :
  find_best_match U self user_query threshold = TypeError
  <-> (threshold <=? 0)%float = true
      /\ forall g, g ∈ faqs self ->
                   (0 <? score U (_preprocess U user_query) g)%float = false.
Proof.
  unfold find_best_match. split.
  - pose proof (best_loop_spec U (_preprocess U user_query) (faqs self)) as Hspec.
    cbv zeta in Hspec.
    destruct (best_loop U (_preprocess U user_query) (faqs self) None 0%float)
      as [best bs].
    cbn [fst snd] in Hspec. destruct Hspec as (_ & Hmax & Hbest).
    destruct (threshold <=? bs)%float eqn:Hth; [| discriminate].
    destruct best as [f|]; [discriminate |].
    intros _. subst bs. split; [exact Hth | exact Hmax].
  - intros [Hth Hmax].
    rewrite (best_loop_unchanged U _ _ None 0%float Hmax), Hth. reflexivity.
Qed.

Lemma omap_candidates (U : unicode_tables) (query : str) (threshold : float) (l : list faq) :
  map mr_faq
      (omap (fun f : faq =>
               if (threshold <=? score U query f)%float
               then Some {| mr_faq := f; mr_confidence := round2 (score U query f);
                            mr_category := category f |}
               else None) l)
  = filter (fun f => (threshold <=? score U query f)%float = true) l.
Proof.
  induction l as [|f l IH]; [reflexivity |].
  change (omap ?h (f :: l))
    with (match h f with Some y => y :: omap h l | None => omap h l end).
  rewrite (filter_cons _ f). cbv beta.
  destruct (threshold <=? score U query f)%float eqn:E.
  - rewrite decide_True by reflexivity. cbn [map mr_faq]. rewrite IH. reflexivity.
  - rewrite decide_False by discriminate. exact IH.
Qed.

(** X12. How many results [find_multiple_matches] returns, and which.
    With [n] entries of the catalog scoring at least the threshold, a
    non-negative [top_k] gives [min(top_k, n)] results and a negative one
    [max(0, n + top_k)]: the slice then drops the last [-top_k] matches
    instead of limiting the count.  When [top_k] is at least [n] the
    results are exactly the [n] entries that reach the threshold, each
    once. *)
Theorem find_multiple_matches_count (U : unicode_tables) (self : FAQMatcher) (user_query : str)
    (top_k : Z) (threshold : float) :
  let hits := filter (fun f => (threshold <=? score U (_preprocess U user_query) f)%float
                               = true) (faqs self) in
  let n := Z.of_nat (length hits) in
  let r := find_multiple_matches U self user_query top_k threshold in
  Z.of_nat (length r) = (if 0 <=? top_k then Z.min top_k n else Z.max 0 (n + top_k))
  /\ (n <= top_k -> map mr_faq r ≡ₚ hits).
Proof.
  intros hits n r. subst r. unfold find_multiple_matches. cbv zeta.
  set (matches := omap _ (faqs self)).
  assert (Hm : map mr_faq matches = hits) by apply omap_candidates.
  assert (Hlen : length (sort_desc mr_confidence matches) = length hits).
  { rewrite (Permutation_length (sort_desc_perm mr_confidence matches)).
    rewrite <- Hm, length_map. reflexivity. }
  split.
  - unfold slice_to. destruct (0 <=? top_k) eqn:Hk.
    + apply Z.leb_le in Hk. rewrite length_take, Hlen. subst n. lia.
    + apply Z.leb_gt in Hk. rewrite length_take, Hlen. subst n. lia.
  - intros Hn. unfold slice_to.
    replace (0 <=? top_k) with true by (symmetry; apply Z.leb_le; subst n; lia).
    rewrite take_ge by (rewrite Hlen; subst n; lia).
    rewrite (sort_desc_perm mr_confidence matches). rewrite Hm. reflexivity.
Qed.

(** X13. The two searches agree.  When [find_best_match] returns an entry
    for a threshold, [find_multiple_matches] with the same threshold and
    a [top_k] of at least the size of the catalog returns that very result
    (same entry, same confidence, same category) among its own.  When
    [find_best_match] returns [None], [find_multiple_matches] returns the
    empty list for every [top_k]. *)
Theorem find_best_match_among_multiple (U : unicode_tables) (self : FAQMatcher) (user_query : str)
    (threshold : float) :
  match find_best_match U self user_query threshold with
  | Ok (Some m) =>
      forall top_k, Z.of_nat (length (faqs self)) <= top_k ->
                    m ∈ find_multiple_matches U self user_query top_k threshold
  | Ok None =>
      forall top_k, find_multiple_matches U self user_query top_k threshold = []
  | TypeError => True
  end.
Proof.
  unfold find_best_match, find_multiple_matches. cbv zeta.
  set (query := _preprocess U user_query).
  set (matches := omap _ (faqs self)).
  pose proof (best_loop_spec U query (faqs self)) as Hspec. cbv zeta in Hspec.
  destruct (best_loop U query (faqs self) None 0%float) as [best bs].
  cbn [fst snd] in Hspec. destruct Hspec as (Hnum & Hmax & Hbest).
  destruct (threshold <=? bs)%float eqn:Hth.
  - destruct best as [f|]; [| exact I].
    destruct Hbest as (-> & pre & post & Hl & _).
    intros top_k Hk.
    assert (Hin : {| mr_faq := f; mr_confidence := round2 (score U query f);
                     mr_category := category f |} ∈ matches).
    { subst matches. apply list_elem_of_omap. exists f. split.
      - rewrite Hl. apply elem_of_app. right. apply elem_of_cons. left. reflexivity.
      - cbv beta. rewrite Hth. reflexivity. }
    assert (Hlen : (length (sort_desc mr_confidence matches) <= length (faqs self))%nat).
    { rewrite (Permutation_length (sort_desc_perm mr_confidence matches)).
      rewrite <- (length_map mr_faq). subst matches. rewrite omap_candidates.
      apply length_filter. }
    unfold slice_to.
    replace (0 <=? top_k) with true by (symmetry; apply Z.leb_le; lia).
    rewrite take_ge by lia.
    rewrite (sort_desc_perm mr_confidence matches). exact Hin.
  - intros top_k.
    assert (Hnil : matches = []).
    { subst matches. clear Hbest. revert Hmax. generalize (faqs self) as l.
      induction l as [|g l IH]; intros Hmax; [reflexivity |].
      change (omap ?h (g :: l))
        with (match h g with Some y => y :: omap h l | None => omap h l end).
      cbv beta.
      destruct (threshold <=? score U query g)%float eqn:Hg.
      - exfalso.
        pose proof (proj2 (leb_is_number _ _ Hg)) as Hgn.
        assert (Hle : (score U query g <=? bs)%float = true).
        { apply not_ltb_leb; [exact Hnum | exact Hgn |].
          apply Hmax. apply elem_of_cons. left. reflexivity. }
        rewrite (leb_trans _ _ _ Hg Hle) in Hth. discriminate.
      - apply IH. intros g' Hg'. apply Hmax. apply elem_of_cons. right. exact Hg'. }
    rewrite Hnil. unfold slice_to. destruct (0 <=? top_k); apply take_nil.
Qed.


(* ===================================================================== *)
(** * Rendering and language beyond the claims *)
(* ===================================================================== *)

Lemma replace_from_brace_free tb new s :
  brace_free s = true -> replace_from 0 (LBRACE :: tb) new s = s.
Proof.
  induction s as [|c r IH]; intros Hs; [reflexivity |].
  cbn [brace_free forallb] in Hs. apply andb_true_iff in Hs as [Hc Hr].
  rewrite replace_from_nomatch.
  - rewrite IH by exact Hr. reflexivity.
  - cbn [startswith]. rewrite N.eqb_sym. apply negb_true_iff in Hc. rewrite Hc.
    reflexivity.
Qed.

(** X14. A template without an opening brace comes back from [fill] as it
    is, whatever the dictionary holds: a text without placeholders is
    never altered, even by a dictionary whose keys or values are empty or
    contain braces. *)
Theorem fill_without_braces (template : str) (ph : placeholders) :
  brace_free template = true -> fill template ph = template.
Proof.
  intros Hfree. unfold fill. induction ph as [|[k v] ph IH]; [reflexivity |].
  cbn [fold_left fst snd]. rewrite token_unfold. cbn [replace].
  rewrite (replace_from_brace_free _ _ _ Hfree). exact IH.
Qed.

Lemma fill_without_braces_witness :
  fill (u "Registration opens in September.") (build_placeholders (Some Examples.uni_braces))
  = u "Registration opens in September.".
Proof.
  apply (fill_without_braces (u "Registration opens in September.")
           (build_placeholders (Some Examples.uni_braces))).
  vm_compute. reflexivity.
Defined.

Lemma answers_complete_true : answers_complete = true.
Proof. vm_compute. reflexivity. Qed.

(** X15. [search_faq] answers in the language it detects.  It never
    raises.  A found reply reports the language [detect_language] gives
    for the query, and its answer is the filled answer of one entry of the
    catalog in that very language: every entry has a non-empty answer in
    Arabic, French and English, so the fallback to the English answer is
    never taken.  The question and the category reported are those of the
    same entry.  A reply that is not found reports the detected language
    as well. *)
Theorem search_faq_answers_in_language (U : unicode_tables) (query : str)
    (university : option University) :
  match search_faq U query university with
  | Ok (Found answer question_ confidence category_ language) =>
      language = detect_language U query
      /\ exists f template,
           f ∈ _FAQS
           /\ dict_get (answers f) (lang_code language) = Some template
           /\ template <> []
           /\ answer = fill template (build_placeholders university)
           /\ question_ = question f
           /\ category_ = category f
  | Ok (NotFound language message) => language = detect_language U query
  | TypeError => False
  end.
Proof.
  unfold search_faq.
  pose proof (find_best_match_default_returns U faq_matcher query) as Hret.
  destruct (find_best_match U faq_matcher query DEFAULT_BEST_THRESHOLD)
    as [[m|]|] eqn:E; [| reflexivity | congruence].
  cbv zeta. split; [reflexivity |].
  pose proof (find_best_match_member _ _ _ _ _ E) as Hin.
  change (faqs faq_matcher) with _FAQS in Hin.
  assert (Hcat : mr_category m = category (mr_faq m)).
  { revert E. unfold find_best_match.
    destruct (best_loop U (_preprocess U query) (faqs faq_matcher) None 0%float)
      as [best bs].
    destruct (DEFAULT_BEST_THRESHOLD <=? bs)%float; [| discriminate].
    destruct best as [f|]; [| discriminate]. intros [= <-]. reflexivity. }
  pose proof answers_complete_true as Hall. unfold answers_complete in Hall.
  rewrite forallb_forall in Hall.
  specialize (Hall _ (proj1 (list_elem_of_In _ _) Hin)).
  rewrite forallb_forall in Hall.
  assert (Hl : In (detect_language U query) [Ar; Fr; En])
    by (destruct (detect_language U query); cbn; tauto).
  specialize (Hall _ Hl).
  destruct (dict_get (answers (mr_faq m)) (lang_code (detect_language U query)))
    as [[|c t]|] eqn:Ed; try discriminate.
  exists (mr_faq m), (c :: t). rewrite ?Ed. cbn [or_else].
  split; [exact Hin |]. split; [reflexivity || exact Ed |]. split; [discriminate |].
  split; [reflexivity |]. split; [reflexivity | exact Hcat].
Qed.

(** ** Language detection without Arabic *)

Lemma zero_ratio_below (x : float) : (0.15 <? 0 / x)%float = false.
Proof.
  rewrite FloatAxioms.ltb_spec, FloatAxioms.div_spec.
  destruct (Prim2SF x) as [s|s| |s m e]; reflexivity.
Qed.

(** X16. A text with at most one character of the Arabic class is French
    as soon as it has two French function words, and English when it has
    neither a French diacritic nor a French function word; the empty text
    is English. *)
Theorem detect_language_without_arabic (U : unicode_tables) (text : str) :
  (arabic_chars text <= 1)%nat ->
  (2 <= french_words U text -> detect_language U text = Fr)%nat
  /\ (french_markers text = 0%nat -> french_words U text = 0%nat ->
      detect_language U text = En).
Proof.
  intros Ha. unfold detect_language.
  replace (1 <? arabic_chars text)%nat with false
    by (symmetry; apply Nat.ltb_ge; exact Ha).
  split.
  - intros Hw. replace (2 <=? french_words U text)%nat with true
      by (symmetry; apply Nat.leb_le; exact Hw).
    rewrite orb_true_r. reflexivity.
  - intros Hm Hw. rewrite Hm, Hw. cbn [Nat.add].
    change (float_of_nat 0) with 0%float. rewrite zero_ratio_below.
    reflexivity.
Qed.

Lemma detect_language_without_arabic_witness :
  ((2 <= french_words Examples.tables (u "je veux un cours") ->
    detect_language Examples.tables (u "je veux un cours") = Fr)%nat
   /\ (french_markers (u "je veux un cours") = 0%nat ->
       french_words Examples.tables (u "je veux un cours") = 0%nat ->
       detect_language Examples.tables (u "je veux un cours") = En))
  /\ detect_language Examples.tables (u "je veux un cours") = Fr.
Proof.
  split.
  - apply (detect_language_without_arabic Examples.tables (u "je veux un cours")).
    vm_compute. lia.
  - vm_compute. reflexivity.
Defined.

(* ===================================================================== *)
(** * The derived addresses *)
(* ===================================================================== *)

Lemma at_signs_app a b : at_signs (a ++ b) = (at_signs a + at_signs b)%nat.
Proof. unfold at_signs, str. rewrite filter_app, length_app. reflexivity. Qed.

Lemma at_signs_cons c s :
  at_signs (c :: s) = ((if (c =? 64)%N then 1 else 0) + at_signs s)%nat.
Proof.
  unfold at_signs, str. rewrite filter_cons. destruct (c =? 64)%N eqn:E.
  - apply N.eqb_eq in E. rewrite decide_True by exact E. reflexivity.
  - apply N.eqb_neq in E. rewrite decide_False by exact E. reflexivity.
Qed.

Lemma at_signs_rev s : at_signs (rev s) = at_signs s.
Proof.
  induction s as [|c s IH]; [reflexivity |].
  cbn [rev]. rewrite at_signs_app, IH, !at_signs_cons. cbn. lia.
Qed.

(** No piece of [s.split('@')] has an [@]. *)
Lemma split_on_pieces s : forall cur,
  at_signs cur = 0%nat ->
  Forall (fun p => at_signs p = 0%nat) (split_on_from 64%N cur s).
Proof.
  induction s as [|c r IH]; intros cur Hcur; cbn [split_on_from].
  - constructor; [| constructor]. rewrite at_signs_rev. exact Hcur.
  - destruct (c =? 64)%N eqn:E.
    + constructor; [rewrite at_signs_rev; exact Hcur | apply IH; reflexivity].
    + apply IH. rewrite at_signs_cons, E. exact Hcur.
Qed.

Lemma split_on_nonempty sep s : forall cur, split_on_from sep cur s <> [].
Proof.
  induction s as [|c r IH]; intros cur; cbn [split_on_from]; [discriminate |].
  destruct (c =? sep)%N; [discriminate | apply IH].
Qed.

Lemma last_Forall {A} (P : A -> Prop) (l : list A) d :
  l <> [] -> Forall P l -> P (List.last l d).
Proof.
  induction l as [|x l IH]; [congruence |]. intros _ H.
  apply Forall_cons in H as [Hx Hl].
  destruct l as [|y l]; [exact Hx |]. apply IH; [discriminate | exact Hl].
Qed.

Lemma split_on_no_sep s : forall cur,
  at_signs s = 0%nat -> split_on_from 64%N cur s = [rev cur ++ s].
Proof.
  induction s as [|c r IH]; intros cur Hs; cbn [split_on_from].
  - rewrite app_nil_r. reflexivity.
  - rewrite at_signs_cons in Hs. destruct (c =? 64)%N; [cbn in Hs; lia |].
    rewrite IH by exact Hs. cbn [rev]. rewrite <- app_assoc. reflexivity.
Qed.

Lemma last_cons_nonempty {A} (x : A) l d : l <> [] -> List.last (x :: l) d = List.last l d.
Proof. destruct l; [congruence | reflexivity]. Qed.

(** The piece after the last [@]. *)
Lemma split_on_last local dom : forall cur,
  at_signs dom = 0%nat ->
  List.last (split_on_from 64%N cur (local ++ 64%N :: dom)) [] = dom.
Proof.
  induction local as [|c r IH]; intros cur Hdom.
  - cbn [app split_on_from]. rewrite N.eqb_refl.
    rewrite last_cons_nonempty by apply split_on_nonempty.
    rewrite (split_on_no_sep _ _ Hdom). reflexivity.
  - cbn [app split_on_from]. destruct (c =? 64)%N.
    + rewrite last_cons_nonempty by apply split_on_nonempty. apply IH. exact Hdom.
    + apply IH. exact Hdom.
Qed.

Lemma contains_at local dom : contains (u "@") (local ++ 64%N :: dom) = true.
Proof.
  induction local as [|c r IH]; [reflexivity |].
  cbn [app contains]. rewrite IH. apply orb_true_r.
Qed.

Lemma email_domain_no_at email : at_signs (email_domain email) = 0%nat.
Proof.
  unfold email_domain. destruct (contains (u "@") email); [| reflexivity].
  apply last_Forall; [apply split_on_nonempty |]. apply split_on_pieces. reflexivity.
Qed.

(** X17. The addresses derived for a snapshot.  With [email] the
    snapshot's address, or [info@university.dz] when it has none, the
    domain is what follows the last [@] of [email] and never contains an
    [@]; without any [@] in [email] it is [university.dz].  Each of the
    eight role addresses is the mailbox name, an [@] and that domain, so
    it has exactly one [@], however the snapshot's address is written. *)
Theorem derived_addresses (university : University) :
  let email := or_else (u_email university) (u "info@university.dz") in
  let domain := email_domain email in
  at_signs domain = 0%nat
  /\ (forall local dom, email = local ++ u "@" ++ dom -> at_signs dom = 0%nat ->
                        domain = dom)
  /\ (at_signs email = 0%nat -> domain = u "university.dz")
  /\ forall key mailbox, (key, mailbox) ∈ ROLE_MAILBOXES ->
       ph_get (build_placeholders (Some university)) key
       = Some (mailbox ++ u "@" ++ domain)
       /\ at_signs (mailbox ++ u "@" ++ domain) = 1%nat.
Proof.
  intros email domain. split; [apply email_domain_no_at |]. split; [| split].
  - intros local dom He Hdom. subst domain. rewrite He. unfold email_domain.
    change (local ++ u "@" ++ dom) with (local ++ 64%N :: dom).
    rewrite contains_at. apply split_on_last. exact Hdom.
  - intros He. subst domain. unfold email_domain.
    replace (contains (u "@") email) with false; [reflexivity |].
    symmetry. clear -He. induction email as [|c r IH]; [reflexivity |].
    rewrite at_signs_cons in He. destruct (c =? 64)%N eqn:E; [cbn in He; lia |].
    cbn [contains]. rewrite IH by exact He.
    change (u "@") with [64%N]. cbn [startswith]. rewrite N.eqb_sym, E. reflexivity.
  - intros key mailbox Hin.
    assert (Hat : at_signs (mailbox ++ u "@" ++ domain) = 1%nat
                  <-> at_signs mailbox = 0%nat).
    { rewrite !at_signs_app. subst domain. rewrite email_domain_no_at.
      change (at_signs (u "@")) with 1%nat. lia. }
    unfold ROLE_MAILBOXES in Hin.
    repeat (apply elem_of_cons in Hin as [Hin | Hin];
            [apply pair_equal_spec in Hin as [-> ->];
             split; [reflexivity | apply Hat; reflexivity] |]).
    apply elem_of_nil in Hin. contradiction.
Qed.

(** X21. With a snapshot, the portal token always carries the website
    value: the website has already been defaulted to a non-empty text, so
    the fallback "the student portal" is never used.  The French name
    token carries the same value as the university name token, and the
    phone token falls back to its generic text when the phone is null or
    empty. *)
Theorem portal_is_website (university : University) :
  let ph := build_placeholders (Some university) in
  ph_get ph (u "portal_url") = ph_get ph (u "website")
  /\ ph_get ph (u "website")
     = Some (or_else (u_website university) (u "the university website"))
  /\ ph_get ph (u "university_name_fr") = ph_get ph (u "university_name")
  /\ ph_get ph (u "phone_main")
     = Some (or_else (u_phone university) (u "the university main number")).
Proof.
  intros ph. subst ph. unfold ph_get, build_placeholders.
  split; [| split; [| split]].
  - destruct (u_website university) as [[|c w]|]; reflexivity.
  - reflexivity.
  - reflexivity.
  - destruct (u_phone university) as [[|c w]|]; reflexivity.
Qed.

(* ===================================================================== *)
(** * The normal form of a query *)
(* ===================================================================== *)





